(** * mySensor: the MPU6050 vibration node (codes/mqtt_MPU6050.ino)

    A shallow embedding of the sketch and the properties of its
    acquisition, signal-processing and publish pipeline.

    Conventions of the embedding.
    - [double] and [float] values are read as real numbers ([R]): the
      arithmetic is the exact one, rounding, overflow and NaN are not
      represented.
    - [int], [long] and [uint16_t] values are integers; the only place
      where the width of [long] matters (the subtraction of two readings
      of [millis()]) has its 32-bit wrap-around written out.
    - C arrays are lists read with [nth i a 0].
    - Calls into the board and its libraries (WiFi, PubSubClient, the
      MPU6050 driver, arduinoFFT, [dtostrf], [millis], [delay]) are
      events of a trace; what they answer is supplied by an environment
      that sees the whole history.  [Serial] output is logging only and
      is left out, and so is [callback], which only prints the messages
      that arrive on the subscribed topic.
    - A blocking loop takes a step budget; [Blocked] is the state of a
      run that is still inside a loop when the budget is used up. *)

From Stdlib Require Import Reals Lra Lia ZArith List String Bool Arith.
Import ListNotations.

Local Open Scope R_scope.

(** * Part I: the sketch *)

(** ** Loops over an index *)

(** [for (i = lo; i < hi; i++) acc = body i acc], from [init]. *)
Definition for_loop {A : Type} (lo hi : nat) (body : nat -> A -> A) (init : A) : A :=
  fold_left (fun acc i => body i acc) (seq lo (hi - lo)) init.

(** ** Utility functions *)

(** [double calculate_sampling_rate(int num_points, long duration_ms)] *)
Definition calculate_sampling_rate (num_points duration_ms : Z) : R :=
  if (duration_ms =? 0)%Z then 0
  else IZR num_points / (IZR duration_ms / 1000).

(** [double calculate_rms(const float* data_array, int num_points)] *)
Definition calculate_rms (data_array : list R) (num_points : Z) : R :=
  if (num_points =? 0)%Z then 0
  else
    let sum_of_squares :=
      for_loop 0 (Z.to_nat num_points)
        (fun i sum_of_squares =>
           sum_of_squares + nth i data_array 0 * nth i data_array 0)
        0 in
    sqrt (sum_of_squares / IZR num_points).

(** ** The arduinoFFT object

    [ArduinoFFT<double> FFT(vReal, vImag, samples, ...)] works in place on
    the two global arrays.  The library is not part of the sketch: its
    three calls are an interface here. *)

Record buffers : Type := mkBuffers { vReal : list R; vImag : list R }.

Inductive FFTWindow : Type := FFT_WIN_TYP_HAMMING.
Inductive FFTDirection : Type := FFT_FORWARD | FFT_REVERSE.

Class ArduinoFFT : Type := {
  windowing : FFTWindow -> FFTDirection -> buffers -> buffers;
  compute : FFTDirection -> buffers -> buffers;
  complexToMagnitude : buffers -> buffers
}.

(** ** FFT implementation *)

Section FFT_IMPLEMENTATION.

(** [const uint16_t samples = 128; // Must be a power of 2].  The window
    length stays symbolic here so that the results hold for every length;
    the sketch below fixes it. *)
Variable samples : nat.
Context {FFT : ArduinoFFT}.

(** Steps 1 and 2: the mean, then the detrended copy in [vReal] and zeros
    in [vImag]. *)
Definition detrend (data_array : list R) : buffers :=
  let sum := for_loop 0 samples (fun i sum => sum + nth i data_array 0) 0 in
  let mean := sum / INR samples in
  {| vReal := map (fun i => nth i data_array 0 - mean) (seq 0 samples);
     vImag := map (fun _ => 0) (seq 0 samples) |}.

(** Step 3: window, transform, magnitudes. *)
Definition spectrum (data_array : list R) : buffers :=
  complexToMagnitude
    (compute FFT_FORWARD
       (windowing FFT_WIN_TYP_HAMMING FFT_FORWARD (detrend data_array))).

(** Step 4: the peak search, [(peak_magnitude, peak_index)] from
    [(0.0, 0)], over [i = 1 .. samples / 2 - 1]. *)
Definition peak_step (v : list R) (i : nat) (peak : R * nat) : R * nat :=
  if Rgt_dec (nth i v 0) (fst peak) then (nth i v 0, i) else peak.

Definition find_peak (v : list R) : R * nat :=
  for_loop 1 (samples / 2) (peak_step v) (0, 0%nat).

(** Step 5, and the function as a whole: the value stored in
    [*frequency]. *)
Definition perform_fft (data_array : list R) (actual_sampling_rate : R) : R :=
  let peak_index := snd (find_peak (vReal (spectrum data_array))) in
  (INR peak_index * actual_sampling_rate) / INR samples.

End FFT_IMPLEMENTATION.

(** ** The board: events, environment, state *)

Inductive event : Type :=
| EvDelay (ms : Z)
| EvDelayMicroseconds (us : Z)
| EvMillis (t : Z)
| EvWireBegin
| EvWireSetClock (hz : Z)
| EvSerialBegin (baud : Z)
| EvSerialReady (r : bool)
| EvMpuBegin (r : bool)
| EvMpuSetAccelerometerRange (range : string)
| EvMpuSetGyroRange (range : string)
| EvMpuSetFilterBandwidth (band : string)
| EvMpuGetEvent (acceleration : R * R * R)
| EvWiFiBegin (ssid password : string)
| EvWiFiStatus (connected : bool)
| EvSetServer (host : string) (port : Z)
| EvSetCallback
| EvConnected (r : bool)
| EvConnect (id : string) (r : bool)
| EvSubscribe (topic : string)
| EvPublish (topic payload : string) (ok : bool)
| EvClientLoop.

(** What the outside answers, given everything that happened so far. *)
Record environment : Type := {
  env_serial_ready : list event -> bool;
  env_mpu_begin : list event -> bool;
  env_wifi_status : list event -> bool;
  env_connected : list event -> bool;
  env_connect : list event -> bool;
  env_publish : list event -> bool;
  env_millis : list event -> Z;
  env_acceleration : list event -> R * R * R
}.

(** The sketch's own state: the history, and the global [lastMsg]. *)
Record state : Type := mkState { trace : list event; lastMsg : Z }.

(** [long lastMsg = 0;] and nothing has happened yet. *)
Definition boot : state := {| trace := []; lastMsg := 0 |}.

Inductive outcome (A : Type) : Type :=
| Returned (a : A) (st : state)
| Blocked (st : state).
Arguments Returned {A} a st.
Arguments Blocked {A} st.

Definition prog (A : Type) : Type := state -> outcome A.

Definition ret {A : Type} (a : A) : prog A := fun st => Returned a st.

Definition bind {A B : Type} (m : prog A) (k : A -> prog B) : prog B :=
  fun st =>
    match m st with
    | Returned a st' => k a st'
    | Blocked st' => Blocked st'
    end.

Declare Scope prog_scope.
Delimit Scope prog_scope with prog.
Bind Scope prog_scope with prog.
Notation "x <- m ;; k" := (bind m (fun x => k))
  (at level 61, m at next level, right associativity) : prog_scope.
Notation "m ;; k" := (bind m (fun _ => k))
  (at level 61, right associativity) : prog_scope.

(** A call that only acts. *)
Definition emit (e : event) : prog unit :=
  fun st => Returned tt {| trace := trace st ++ [e]; lastMsg := lastMsg st |}.

(** A call that returns what the outside answers. *)
Definition ask {A : Type} (reply : list event -> A) (ev : A -> event) : prog A :=
  fun st =>
    let r := reply (trace st) in
    Returned r {| trace := trace st ++ [ev r]; lastMsg := lastMsg st |}.

Definition get_lastMsg : prog Z := fun st => Returned (lastMsg st) st.

Definition set_lastMsg (v : Z) : prog unit :=
  fun st => Returned tt {| trace := trace st; lastMsg := v |}.

(** [while (cond) body], at most [fuel] evaluations of [cond]. *)
Fixpoint while (fuel : nat) (cond : prog bool) (body : prog unit) (st : state)
  : outcome unit :=
  match fuel with
  | O => Blocked st
  | S fuel' =>
      match cond st with
      | Returned true st1 =>
          match body st1 with
          | Returned _ st2 => while fuel' cond body st2
          | Blocked st2 => Blocked st2
          end
      | Returned false st1 => Returned tt st1
      | Blocked st1 => Blocked st1
      end
  end.

(** [for (i = 0; i < n; i++) acc = body i acc] with effects. *)
Definition for_each {A : Type} (n : nat) (body : nat -> A -> prog A) (init : A) : prog A :=
  fold_left (fun acc i => bind acc (body i)) (seq 0 n) (ret init).

(** A [long] is 32 bits wide on the ESP32. *)
Definition to_long (z : Z) : Z := ((z + 2 ^ 31) mod 2 ^ 32 - 2 ^ 31)%Z.

(** ** The sketch *)

Local Open Scope string_scope.
Local Open Scope Z_scope.

Definition ssid : string := "MYSSID".
Definition password : string := "MYPASS".
Definition mqtt_server : string := "MYMQTTSERVER".
Definition portNumber : Z := 1883.

(** [const uint16_t samples = 128;] *)
Definition samples : nat := 128.

Section SKETCH.

Variable env : environment.
Context {FFT : ArduinoFFT}.

(** [dtostrf(value, min_width, precision, buffer)] of the board's C
    library: the decimal text of [value] with [precision] digits after the
    point.  The 8-byte [tempString] it writes to is not represented. *)
Variable dtostrf : R -> Z -> Z -> string.

Definition delay (ms : Z) : prog unit := emit (EvDelay ms).
Definition delayMicroseconds (us : Z) : prog unit := emit (EvDelayMicroseconds us).
Definition millis : prog Z := ask (env_millis env) EvMillis.
Definition Serial_ready : prog bool := ask (env_serial_ready env) EvSerialReady.
Definition mpu_begin : prog bool := ask (env_mpu_begin env) EvMpuBegin.
Definition mpu_getEvent : prog (R * R * R) := ask (env_acceleration env) EvMpuGetEvent.
Definition WiFi_begin (s p : string) : prog unit := emit (EvWiFiBegin s p).
Definition WiFi_status : prog bool := ask (env_wifi_status env) EvWiFiStatus.
Definition client_connected : prog bool := ask (env_connected env) EvConnected.
Definition client_connect (id : string) : prog bool := ask (env_connect env) (EvConnect id).
Definition client_subscribe (topic : string) : prog unit := emit (EvSubscribe topic).
Definition client_publish (topic payload : string) : prog bool :=
  ask (env_publish env) (EvPublish topic payload).

Definition setup_wifi (fuel : nat) : prog unit :=
  (delay 10 ;;
   WiFi_begin ssid password ;;
   (* while (WiFi.status() != WL_CONNECTED) delay(500); *)
   while fuel (up <- WiFi_status ;; ret (negb up)) (delay 500))%prog.

Definition reconnect (fuel : nat) : prog unit :=
  (* while (!client.connected()) { ... } *)
  while fuel (c <- client_connected ;; ret (negb c))%prog
    (ok <- client_connect "esp32_htj" ;;
     if ok then client_subscribe "esp32_htj/output"
     else delay 5000)%prog.

Definition setup (fuel : nat) : prog unit :=
  (emit EvWireBegin ;;
   emit (EvWireSetClock 400000) ;;
   emit (EvSerialBegin 115200) ;;
   (* while (!Serial) delay(10); *)
   while fuel (r <- Serial_ready ;; ret (negb r)) (delay 10) ;;
   found <- mpu_begin ;;
   (if negb found
    then (* while (1) delay(10); *) while fuel (ret true) (delay 10)
    else ret tt) ;;
   emit (EvMpuSetAccelerometerRange "MPU6050_RANGE_8_G") ;;
   emit (EvMpuSetGyroRange "MPU6050_RANGE_500_DEG") ;;
   emit (EvMpuSetFilterBandwidth "MPU6050_BAND_44_HZ") ;;
   delay 100 ;;
   setup_wifi fuel ;;
   emit (EvSetServer mqtt_server portNumber) ;;
   emit EvSetCallback)%prog.

(** The three raw arrays filled by the data collection loop; the [float]
    and the [double] copies hold the same readings. *)
Record window : Type := mkWindow { raw_ax : list R; raw_ay : list R; raw_az : list R }.

Definition collect : prog window :=
  for_each samples
    (fun _ w =>
       a <- mpu_getEvent ;;
       delayMicroseconds 100 ;;
       ret {| raw_ax := raw_ax w ++ [fst (fst a)];
              raw_ay := raw_ay w ++ [snd (fst a)];
              raw_az := raw_az w ++ [snd a] |})%prog
    {| raw_ax := []; raw_ay := []; raw_az := [] |}.

(** The six results of one cycle. *)
Record metrics : Type := mkMetrics {
  freq_x : R; freq_y : R; freq_z : R;
  rms_x : R; rms_y : R; rms_z : R
}.

Definition analyze (w : window) (actual_sampling_rate : R) : metrics :=
  {| rms_x := calculate_rms (raw_ax w) (Z.of_nat samples);
     freq_x := perform_fft samples (raw_ax w) actual_sampling_rate;
     rms_y := calculate_rms (raw_ay w) (Z.of_nat samples);
     freq_y := perform_fft samples (raw_ay w) actual_sampling_rate;
     rms_z := calculate_rms (raw_az w) (Z.of_nat samples);
     freq_z := perform_fft samples (raw_az w) actual_sampling_rate |}.

(** [now - lastMsg > 5000] on two [long]s. *)
Definition gate_open (now last : Z) : bool := to_long (now - last) >? 5000.

(** The tail of [loop]: [long now = millis(); if (now - lastMsg > 5000) {...}].
    What [client.publish] returns is not looked at. *)
Definition publish (m : metrics) : prog unit :=
  (t <- millis ;;
   let now := to_long t in
   last <- get_lastMsg ;;
   if gate_open now last then
     set_lastMsg now ;;
     client_publish "esp32_htj/freq_x" (dtostrf (freq_x m) 1 2) ;;
     client_publish "esp32_htj/freq_y" (dtostrf (freq_y m) 1 2) ;;
     client_publish "esp32_htj/freq_z" (dtostrf (freq_z m) 1 2) ;;
     client_publish "esp32_htj/rms_x" (dtostrf (rms_x m) 1 4) ;;
     client_publish "esp32_htj/rms_y" (dtostrf (rms_y m) 1 4) ;;
     client_publish "esp32_htj/rms_z" (dtostrf (rms_z m) 1 4) ;;
     ret tt
   else ret tt)%prog.

Definition loop (fuel : nat) : prog unit :=
  (c <- client_connected ;;
   (if negb c then reconnect fuel else ret tt) ;;
   emit EvClientLoop ;;
   delay 1000 ;;
   t0 <- millis ;;
   let startTime := to_long t0 in
   w <- collect ;;
   t1 <- millis ;;
   let duration_ms := to_long (t1 - startTime) in
   let actual_sampling_rate :=
     calculate_sampling_rate (Z.of_nat samples) duration_ms in
   publish (analyze w actual_sampling_rate) ;;
   delay 100)%prog.

(** The Arduino runtime: [setup()] once, then [loop()] again and again
    ([cycles] times here). *)
Fixpoint loops (cycles fuel : nat) : prog unit :=
  match cycles with
  | O => ret tt
  | S cycles' => (loop fuel ;; loops cycles' fuel)%prog
  end.

Definition sketch (cycles fuel : nat) : prog unit :=
  (setup fuel ;; loops cycles fuel)%prog.

End SKETCH.

(** ** Reference definitions the properties are stated against *)

Local Open Scope R_scope.

(** The arithmetic mean of a list, and the root of the mean of the
    squares: [rms = sqrt(mean(sample_i^2))]. *)
Definition mean (l : list R) : R := fold_right Rplus 0 l / INR (List.length l).

Definition root_mean_square (l : list R) : R :=
  sqrt (mean (map (fun x => x * x) l)).

(** What is known of [(peak_magnitude, peak_index)] when the peak search
    over [v] is about to look at bin [i]: either nothing positive was seen
    and the pair is still [(0.0, 0)], or the pair is the first bin that
    reaches the largest value seen. *)
Definition scanned (v : list R) (i : nat) (peak : R * nat) : Prop :=
  (snd peak = 0%nat /\ fst peak = 0 /\
   forall j, (1 <= j < i)%nat -> nth j v 0 <= 0)
  \/
  ((1 <= snd peak < i)%nat /\ fst peak = nth (snd peak) v 0 /\ 0 < fst peak /\
   (forall j, (1 <= j < snd peak)%nat -> nth j v 0 < fst peak) /\
   (forall j, (1 <= j < i)%nat -> nth j v 0 <= fst peak)).

(** The textbook transform behind the arduinoFFT interface: Hamming
    weights, the discrete Fourier sum, and the modulus of each bin.  It is
    used to show that what is assumed of the library can be met. *)
Definition sum_over (n : nat) (f : nat -> R) : R :=
  for_loop 0 n (fun j s => s + f j) 0.

Definition hamming (n i : nat) : R :=
  0.54 - 0.46 * cos (2 * PI * INR i / (INR n - 1)).

Definition twiddle (n k j : nat) : R := 2 * PI * INR k * INR j / INR n.

Definition sign_of (dir : FFTDirection) : R :=
  match dir with FFT_FORWARD => 1 | FFT_REVERSE => -1 end.

Definition dft_re (dir : FFTDirection) (b : buffers) (k : nat) : R :=
  let n := List.length (vReal b) in
  sum_over n (fun j =>
    nth j (vReal b) 0 * cos (twiddle n k j)
    + sign_of dir * nth j (vImag b) 0 * sin (twiddle n k j)).

Definition dft_im (dir : FFTDirection) (b : buffers) (k : nat) : R :=
  let n := List.length (vReal b) in
  sum_over n (fun j =>
    nth j (vImag b) 0 * cos (twiddle n k j)
    - sign_of dir * nth j (vReal b) 0 * sin (twiddle n k j)).

Definition textbook_FFT : ArduinoFFT := {|
  windowing := fun _ _ b =>
    let n := List.length (vReal b) in
    {| vReal := map (fun i => nth i (vReal b) 0 * hamming n i) (seq 0 n);
       vImag := vImag b |};
  compute := fun dir b =>
    let n := List.length (vReal b) in
    {| vReal := map (dft_re dir b) (seq 0 n);
       vImag := map (dft_im dir b) (seq 0 n) |};
  complexToMagnitude := fun b =>
    let n := List.length (vReal b) in
    {| vReal := map (fun i => sqrt (nth i (vReal b) 0 * nth i (vReal b) 0
                                   + nth i (vImag b) 0 * nth i (vImag b) 0))
                    (seq 0 n);
       vImag := vImag b |}
|}.

(** The buffers of a window in which nothing moves, and what is asked of
    the library for them: the scanned bins of their spectrum are 0. *)
Definition silence (n : nat) : buffers :=
  {| vReal := repeat 0 n; vImag := repeat 0 n |}.

Definition keeps_silence (samples : nat) (FFT : ArduinoFFT) : Prop :=
  forall i, (1 <= i < samples / 2)%nat ->
    nth i (vReal (complexToMagnitude
                    (compute FFT_FORWARD
                       (windowing FFT_WIN_TYP_HAMMING FFT_FORWARD
                          (silence samples))))) 0 = 0.

(** The state after some more events. *)
Definition log (evs : list event) (st : state) : state :=
  {| trace := trace st ++ evs; lastMsg := lastMsg st |}.

(** The messages handed to [client.publish], oldest first, whether or not
    the client could send them. *)
Definition publications (tr : list event) : list (string * string) :=
  flat_map (fun e => match e with
                     | EvPublish topic payload _ => [(topic, payload)]
                     | _ => []
                     end) tr.

(** Topics are ["{device_id}/{topic_suffix}"]; frequencies go out with 2
    digits after the point and RMS values with 4. *)
Definition device_id : string := "esp32_htj".

Definition topic_of (topic_suffix : string) : string :=
  (device_id ++ "/" ++ topic_suffix)%string.

Definition batch (dtostrf : R -> Z -> Z -> string) (m : metrics)
  : list (string * string) :=
  [ (topic_of "freq_x", dtostrf (freq_x m) 1%Z 2%Z);
    (topic_of "freq_y", dtostrf (freq_y m) 1%Z 2%Z);
    (topic_of "freq_z", dtostrf (freq_z m) 1%Z 2%Z);
    (topic_of "rms_x", dtostrf (rms_x m) 1%Z 4%Z);
    (topic_of "rms_y", dtostrf (rms_y m) 1%Z 4%Z);
    (topic_of "rms_z", dtostrf (rms_z m) 1%Z 4%Z) ]%string.

(** The calls of [client.publish] for a list of messages, one after the
    other from history [tr], each with the answer it got. *)
Fixpoint issue (env : environment) (tr : list event)
         (msgs : list (string * string)) : list event :=
  match msgs with
  | [] => []
  | (topic, payload) :: rest =>
      let e := EvPublish topic payload (env_publish env tr) in
      e :: issue env (tr ++ [e]) rest
  end.

(** What [long now = millis()] reads in state [st]. *)
Definition now_at (env : environment) (st : state) : Z :=
  to_long (env_millis env (trace st)).

(** A [long] that is a time since boot before the counter wraps. *)
Definition uptime (t : Z) : Prop := (0 <= t < 2 ^ 31)%Z.

(** A board on which nothing answers, with a given clock; a formatter
    that prints nothing; and a cycle whose six results are 0. *)
Definition idle_board (clock : list event -> Z) : environment :=
  {| env_serial_ready := fun _ => true;
     env_mpu_begin := fun _ => false;
     env_wifi_status := fun _ => false;
     env_connected := fun _ => false;
     env_connect := fun _ => false;
     env_publish := fun _ => false;
     env_millis := clock;
     env_acceleration := fun _ => (0, 0, 0) |}.

Definition no_text : R -> Z -> Z -> string := fun _ _ _ => EmptyString.

Definition still : metrics :=
  {| freq_x := 0; freq_y := 0; freq_z := 0; rms_x := 0; rms_y := 0; rms_z := 0 |}.

(** A clock that reads 0 ms at the first call of [millis()] and [t] at
    every later one. *)
Definition first_0_then (t : Z) (tr : list event) : Z :=
  match tr with [] => 0%Z | _ :: _ => t end.

(** One round of [reconnect] in which [client.connected()] said no: the
    attempt, then the subscription if it succeeded and the 5 s pause if it
    did not; and a sequence of such rounds, given how each attempt went. *)
Definition attempt (ok : bool) : list event :=
  [ EvConnected false;
    EvConnect "esp32_htj" ok;
    if ok then EvSubscribe "esp32_htj/output" else EvDelay 5000 ].

Definition attempts (results : list bool) : list event :=
  flat_map attempt results.

(** [n] polls of [WiFi.status()] that did not find the link up, each
    followed by its 500 ms pause. *)
Definition polls (n : nat) : list event :=
  List.concat (repeat [EvWiFiStatus false; EvDelay 500] n).

(** [n] evaluations of [!Serial] that found the port not ready, each
    followed by its 10 ms pause. *)
Definition serial_polls (n : nat) : list event :=
  List.concat (repeat [EvSerialReady false; EvDelay 10] n).

(** The event of an [mpu.begin()] that did not find the chip. *)
Definition is_begin_failure (e : event) : bool :=
  match e with EvMpuBegin false => true | _ => false end.

(** The state a run ends in or is blocked in, and the events it added to
    those of the state it started from. *)
Definition final {A : Type} (o : outcome A) : state :=
  match o with Returned _ st => st | Blocked st => st end.

Definition events_since {A : Type} (st : state) (o : outcome A) : list event :=
  skipn (List.length (trace st)) (trace (final o)).

(** The first three calls of [setup]. *)
Definition startup : list event :=
  [EvWireBegin; EvWireSetClock 400000; EvSerialBegin 115200].

(** The rest of [setup] once the sensor is found. *)
Definition sensor_settings : list event :=
  [ EvMpuBegin true;
    EvMpuSetAccelerometerRange "MPU6050_RANGE_8_G";
    EvMpuSetGyroRange "MPU6050_RANGE_500_DEG";
    EvMpuSetFilterBandwidth "MPU6050_BAND_44_HZ";
    EvDelay 100 ].

(** A step that leaves the gate and the published messages as they
    were, and a program all of whose runs are such steps. *)
Definition unchanged (st st' : state) : Prop :=
  lastMsg st' = lastMsg st /\
  publications (trace st') = publications (trace st).

Definition quiet {A : Type} (p : prog A) : Prop :=
  forall st, unchanged st (final (p st)).

(** One cycle seen from the gate: from [st] to [st'], either nothing was
    published and [lastMsg] is as before, or the gate was open at the
    time read, [lastMsg] is that time and the cycle's batch went out. *)
Definition one_batch_or_none (env : environment)
           (dtostrf : R -> Z -> Z -> string) (st st' : state) : Prop :=
  unchanged st st' \/
  exists m s,
    unchanged st s /\
    gate_open (now_at env s) (lastMsg s) = true /\
    lastMsg st' = now_at env s /\
    publications (trace st')
    = (publications (trace s) ++ batch dtostrf m)%list.

(** A board on which everything works: the port is ready, the sensor is
    found and lies still, the link is up, the broker accepts the first
    connection and every message, and [client.connected()] says yes once
    a connection was made. *)
Definition has_connected (tr : list event) : bool :=
  existsb (fun e => match e with EvConnect _ true => true | _ => false end) tr.

Definition healthy_board (clock : list event -> Z) : environment :=
  {| env_serial_ready := fun _ => true;
     env_mpu_begin := fun _ => true;
     env_wifi_status := fun _ => true;
     env_connected := has_connected;
     env_connect := fun _ => true;
     env_publish := fun _ => true;
     env_millis := clock;
     env_acceleration := fun _ => (0, 0, 0) |}.

(** A broker that refuses the first [n] connections. *)
Definition connections_tried (tr : list event) : nat :=
  List.length (filter (fun e => match e with EvConnect _ _ => true | _ => false end) tr).

Definition slow_broker (n : nat) : environment :=
  {| env_serial_ready := fun _ => true;
     env_mpu_begin := fun _ => true;
     env_wifi_status := fun _ => true;
     env_connected := has_connected;
     env_connect := fun tr => (n <=? connections_tried tr)%nat;
     env_publish := fun _ => true;
     env_millis := fun _ => 0%Z;
     env_acceleration := fun _ => (0, 0, 0) |}.

(** * Part II: properties *)

(** ** Loops *)

Lemma for_loop_empty {A : Type} (lo hi : nat) (body : nat -> A -> A) (init : A) :
  (hi <= lo)%nat -> for_loop lo hi body init = init.
Proof.
  intros H. unfold for_loop.
  replace (hi - lo)%nat with 0%nat by lia. reflexivity.
Qed.

Lemma for_loop_last {A : Type} (lo hi : nat) (body : nat -> A -> A) (init : A) :
  (lo <= hi)%nat ->
  for_loop lo (S hi) body init = body hi (for_loop lo hi body init).
Proof.
  intros H. unfold for_loop.
  replace (S hi - lo)%nat with (S (hi - lo)) by lia.
  rewrite seq_S, fold_left_app. simpl.
  replace (lo + (hi - lo))%nat with hi by lia. reflexivity.
Qed.

(** An invariant that every iteration keeps holds at the end. *)
Lemma for_loop_invariant {A : Type} (P : nat -> A -> Prop)
      (lo hi : nat) (body : nat -> A -> A) (init : A) :
  (lo <= hi)%nat ->
  P lo init ->
  (forall i a, (lo <= i < hi)%nat -> P i a -> P (S i) (body i a)) ->
  P hi (for_loop lo hi body init).
Proof.
  intros Hle H0 Hstep.
  induction Hle as [| hi Hle IH].
  - rewrite for_loop_empty by lia. exact H0.
  - rewrite for_loop_last by assumption.
    apply Hstep; [lia |].
    apply IH. intros i a Hi. apply Hstep. lia.
Qed.

(** A loop only looks at its body on the indices it runs through. *)
Lemma for_loop_ext {A : Type} (lo hi : nat) (f g : nat -> A -> A) (init : A) :
  (forall i a, (lo <= i < hi)%nat -> f i a = g i a) ->
  for_loop lo hi f init = for_loop lo hi g init.
Proof.
  intros H.
  destruct (le_lt_dec hi lo) as [Hle | Hlt].
  - rewrite !for_loop_empty by assumption. reflexivity.
  - apply (for_loop_invariant
             (fun i a => a = for_loop lo i g init) lo hi f init); [lia | |].
    + rewrite for_loop_empty by lia. reflexivity.
    + intros i a Hi ->. rewrite for_loop_last by lia. apply H. exact Hi.
Qed.

(** ** Sums *)

Lemma fold_right_Rplus_app (a b : list R) :
  fold_right Rplus 0 (a ++ b) = fold_right Rplus 0 a + fold_right Rplus 0 b.
Proof.
  induction a as [| x a IH]; simpl.
  - lra.
  - rewrite IH. lra.
Qed.

(** The accumulation loop over an array is the sum of the list. *)
Lemma accumulate_is_sum (g : R -> R) (l : list R) :
  for_loop 0 (List.length l) (fun i s => s + g (nth i l 0)) 0
  = fold_right Rplus 0 (map g l).
Proof.
  induction l as [| x l IH] using rev_ind.
  - reflexivity.
  - rewrite length_app, Nat.add_comm. simpl List.length. simpl Nat.add.
    rewrite for_loop_last by lia.
    rewrite app_nth2, Nat.sub_diag by lia. simpl nth.
    rewrite map_app, fold_right_Rplus_app. simpl.
    rewrite <- IH. rewrite Rplus_0_r. f_equal.
    apply for_loop_ext. intros i a Hi.
    rewrite app_nth1 by lia. reflexivity.
Qed.

Lemma sum_of_constant (c : R) (n : nat) :
  fold_right Rplus 0 (repeat c n) = INR n * c.
Proof.
  induction n as [| n IH].
  - simpl. lra.
  - rewrite S_INR. simpl. rewrite IH. lra.
Qed.

Lemma map_repeat_const {A B : Type} (f : A -> B) (a : A) (n : nat) :
  map f (repeat a n) = repeat (f a) n.
Proof.
  induction n as [| n IH]; simpl; [reflexivity | now rewrite IH].
Qed.

Lemma IZR_to_nat (z : Z) : (0 <= z)%Z -> INR (Z.to_nat z) = IZR z.
Proof.
  intros H. rewrite INR_IZR_INZ, Z2Nat.id by assumption. reflexivity.
Qed.

(** ** [calculate_sampling_rate] *)

(** C9. [calculate_sampling_rate] answers for every pair of arguments: a
    duration of 0 ms gives 0.0 and no division takes place; any other
    duration gives the number of points divided by the duration in
    seconds, a divisor that is not zero. *)
Theorem calculate_sampling_rate_total (num_points duration_ms : Z) :
  (duration_ms = 0%Z -> calculate_sampling_rate num_points duration_ms = 0) /\
  (duration_ms <> 0%Z ->
     IZR duration_ms / 1000 <> 0 /\
     calculate_sampling_rate num_points duration_ms
     = IZR num_points / (IZR duration_ms / 1000)).
Proof.
  unfold calculate_sampling_rate. split.
  - intros ->. reflexivity.
  - intros Hd. split.
    + intros H0. apply Hd. apply eq_IZR. lra.
    + destruct (Z.eqb_spec duration_ms 0) as [E | _]; [contradiction | reflexivity].
Qed.

(** ** [calculate_rms] *)

Lemma calculate_rms_formula (data_array : list R) (num_points : Z) :
  (0 < num_points)%Z ->
  List.length data_array = Z.to_nat num_points ->
  calculate_rms data_array num_points = root_mean_square data_array.
Proof.
  intros Hn Hlen. unfold calculate_rms, root_mean_square, mean.
  destruct (Z.eqb_spec num_points 0) as [E | _]; [lia |].
  rewrite <- Hlen.
  rewrite (accumulate_is_sum (fun x => x * x)).
  rewrite length_map, Hlen, IZR_to_nat by lia. reflexivity.
Qed.

Lemma root_mean_square_constant (c : R) (n : nat) :
  (0 < n)%nat -> root_mean_square (repeat c n) = Rabs c.
Proof.
  intros Hn. unfold root_mean_square, mean.
  rewrite map_repeat_const, sum_of_constant, repeat_length.
  assert (Hpos : 0 < INR n) by (apply lt_0_INR; exact Hn).
  replace (INR n * (c * c) / INR n) with (Rsqr c) by (unfold Rsqr; field; lra).
  apply sqrt_Rsqr_abs.
Qed.

(** *** The window handed to the analysis *)

Lemma for_each_last {A : Type} (n : nat) (body : nat -> A -> prog A) (init : A) :
  for_each (S n) body init = bind (for_each n body init) (body n).
Proof.
  unfold for_each. rewrite seq_S, fold_left_app. reflexivity.
Qed.

(** A loop whose body always returns and keeps an invariant returns, and
    the invariant holds of what it returns. *)
Lemma for_each_returns {A : Type} (P : nat -> A -> Prop)
      (n : nat) (body : nat -> A -> prog A) (init : A) :
  P 0%nat init ->
  (forall i a st, P i a ->
     exists a' st', body i a st = Returned a' st' /\ P (S i) a') ->
  forall st, exists a st', for_each n body init st = Returned a st' /\ P n a.
Proof.
  intros H0 Hstep. induction n as [| n IH]; intros st.
  - exists init, st. split; [reflexivity | exact H0].
  - rewrite for_each_last. unfold bind.
    destruct (IH st) as (a & s & Hrun & Ha). rewrite Hrun.
    apply Hstep. exact Ha.
Qed.

(** The data collection loop fills the three arrays: [samples] readings
    each. *)
Lemma collect_fills_window (env : environment) (st : state) :
  exists w st',
    collect env st = Returned w st' /\
    List.length (raw_ax w) = samples /\
    List.length (raw_ay w) = samples /\
    List.length (raw_az w) = samples.
Proof.
  unfold collect. generalize samples. intros n.
  apply (for_each_returns
           (fun i w => List.length (raw_ax w) = i /\
                       List.length (raw_ay w) = i /\
                       List.length (raw_az w) = i)).
  - repeat split.
  - intros i w s (Hx & Hy & Hz).
    unfold bind, mpu_getEvent, ask, delayMicroseconds, emit, ret.
    eexists. eexists. split; [reflexivity |].
    cbn [raw_ax raw_ay raw_az]. rewrite !length_app, Hx, Hy, Hz.
    simpl. repeat split; lia.
Qed.

(** C3. The RMS is the root of the mean of the squares of the samples as
    they were read: nothing is subtracted first, and the analysis of a
    cycle applies it to the three raw arrays that the data collection
    loop filled.  For a constant signal [c] it is [|c|]. *)
Theorem calculate_rms_raw_root_mean_square (num_points : Z) :
  (0 < num_points)%Z ->
  (forall data_array,
      List.length data_array = Z.to_nat num_points ->
      calculate_rms data_array num_points = root_mean_square data_array) /\
  (forall c, calculate_rms (repeat c (Z.to_nat num_points)) num_points = Rabs c) /\
  (forall (env : environment) (FFT : ArduinoFFT) st w st' rate,
      collect env st = Returned w st' ->
      rms_x (analyze w rate) = root_mean_square (raw_ax w) /\
      rms_y (analyze w rate) = root_mean_square (raw_ay w) /\
      rms_z (analyze w rate) = root_mean_square (raw_az w)).
Proof.
  intros Hn. split; [| split].
  - intros data_array Hlen. apply calculate_rms_formula; assumption.
  - intros c.
    rewrite calculate_rms_formula by (rewrite ?repeat_length; auto).
    apply root_mean_square_constant. lia.
  - intros env FFT st w st' rate Hrun.
    destruct (collect_fills_window env st) as (w0 & s0 & Hrun0 & Hx & Hy & Hz).
    rewrite Hrun in Hrun0. injection Hrun0 as <- <-.
    assert (Hpos : (0 < Z.of_nat samples)%Z) by (unfold samples; lia).
    cbn [analyze rms_x rms_y rms_z].
    rewrite !calculate_rms_formula by (rewrite ?Nat2Z.id; assumption).
    repeat split.
Qed.

Lemma calculate_rms_constant_witness :
  (0 < 128)%Z /\
  calculate_rms (repeat (-3) (Z.to_nat 128)) 128 = Rabs (-3).
Proof.
  split.
  - lia.
  - exact (proj1 (proj2 (calculate_rms_raw_root_mean_square 128 eq_refl)) (-3)).
Defined.

(** ** The peak search *)

Section PEAK_SEARCH.

Variable samples : nat.
Variable v : list R.

Lemma scanned_step (i : nat) (peak : R * nat) :
  (1 <= i)%nat -> scanned v i peak -> scanned v (S i) (peak_step v i peak).
Proof.
  intros Hi H. unfold peak_step.
  destruct (Rgt_dec (nth i v 0) (fst peak)) as [Hgt | Hle].
  - right. simpl.
    destruct H as [(Hk & Hm & Hall) | (Hk & Hm & Hpos & Hbefore & Hall)].
    + rewrite Hm in Hgt. repeat split; try lia; try lra.
      * intros j Hj. specialize (Hall j Hj). lra.
      * intros j Hj. destruct (Nat.eq_dec j i) as [-> | Hne]; [lra |].
        assert (Hj' : (1 <= j < i)%nat) by lia.
        specialize (Hall j Hj'). lra.
    + repeat split; try lia; try lra.
      * intros j Hj. specialize (Hall j Hj). lra.
      * intros j Hj. destruct (Nat.eq_dec j i) as [-> | Hne]; [lra |].
        assert (Hj' : (1 <= j < i)%nat) by lia.
        specialize (Hall j Hj'). lra.
  - destruct H as [(Hk & Hm & Hall) | (Hk & Hm & Hpos & Hbefore & Hall)].
    + left. repeat split; try assumption.
      intros j Hj. destruct (Nat.eq_dec j i) as [-> | Hne]; [lra |].
      apply Hall. lia.
    + right. repeat split; try assumption; try lia.
      intros j Hj. destruct (Nat.eq_dec j i) as [-> | Hne]; [lra |].
      apply Hall. lia.
Qed.

Lemma find_peak_scanned :
  scanned v (Nat.max 1 (samples / 2)) (find_peak samples v).
Proof.
  unfold find_peak.
  destruct (le_lt_dec (samples / 2) 1) as [Hsmall | Hbig].
  - rewrite for_loop_empty by assumption.
    replace (Nat.max 1 (samples / 2)) with 1%nat by lia.
    left. simpl. repeat split. intros j Hj. lia.
  - replace (Nat.max 1 (samples / 2)) with (samples / 2)%nat by lia.
    apply (for_loop_invariant (scanned v)); [lia | |].
    + left. simpl. repeat split. intros j Hj. lia.
    + intros i a Hi Ha. apply scanned_step; [lia | assumption].
Qed.

Lemma find_peak_index_range :
  snd (find_peak samples v) = 0%nat \/
  (1 <= snd (find_peak samples v) < samples / 2)%nat.
Proof.
  destruct find_peak_scanned as [(Hk & _) | (Hk & _)]; [left | right]; lia.
Qed.

Lemma find_peak_index_bound : (snd (find_peak samples v) <= samples / 2 - 1)%nat.
Proof.
  destruct find_peak_index_range; lia.
Qed.

End PEAK_SEARCH.

(** The scan reads bins [1 .. samples/2 - 1] and nothing else. *)
Lemma find_peak_reads_scanned_bins (samples : nat) (v v' : list R) :
  (forall i, (1 <= i < samples / 2)%nat -> nth i v' 0 = nth i v 0) ->
  find_peak samples v' = find_peak samples v.
Proof.
  intros H. unfold find_peak. apply for_loop_ext.
  intros i a Hi. unfold peak_step. rewrite (H i Hi). reflexivity.
Qed.

(** C2. The peak search of [perform_fft] reads the magnitude bins
    [1 .. N/2 - 1] only (bin 0 and the upper half have no influence); its
    index is one of these bins unless none of them is positive, in which
    case it stays 0; the bin it selects holds the largest scanned
    magnitude and every scanned bin before it is strictly smaller (the
    first of equal maxima wins, the comparison being strict); and the
    frequency stored is [k_peak * rate / N]. *)
Theorem perform_fft_peak_search (samples : nat) (v : list R) :
  let peak_magnitude := fst (find_peak samples v) in
  let k_peak := snd (find_peak samples v) in
  (forall v', (forall i, (1 <= i < samples / 2)%nat -> nth i v' 0 = nth i v 0) ->
              find_peak samples v' = find_peak samples v) /\
  (k_peak = 0%nat \/ (1 <= k_peak <= samples / 2 - 1)%nat) /\
  (forall i, (1 <= i <= samples / 2 - 1)%nat -> nth i v 0 <= peak_magnitude) /\
  (k_peak <> 0%nat -> peak_magnitude = nth k_peak v 0) /\
  (k_peak = 0%nat <->
   forall i, (1 <= i <= samples / 2 - 1)%nat -> nth i v 0 <= 0) /\
  (forall i, (1 <= i < k_peak)%nat -> nth i v 0 < nth k_peak v 0) /\
  (forall (FFT : ArduinoFFT) data_array actual_sampling_rate,
      perform_fft samples data_array actual_sampling_rate
      = INR (snd (find_peak samples (vReal (spectrum samples data_array))))
        * actual_sampling_rate / INR samples).
Proof.
  intros peak_magnitude k_peak. subst peak_magnitude k_peak.
  pose proof (find_peak_scanned samples v) as H.
  pose proof (find_peak_index_range samples v) as Hrange.
  split; [| split; [| split; [| split; [| split; [| split]]]]].
  - intros v' Hv'. apply find_peak_reads_scanned_bins. exact Hv'.
  - destruct Hrange; [left | right]; lia.
  - intros i Hi.
    destruct H as [(Hk & Hm & Hall) | (Hk & Hm & Hpos & Hbefore & Hall)].
    + rewrite Hm. apply Hall. lia.
    + apply Hall. lia.
  - intros Hne.
    destruct H as [(Hk & _) | (_ & Hm & _)]; [contradiction | exact Hm].
  - split.
    + intros Hz i Hi.
      destruct H as [(_ & _ & Hall) | (Hk & _)]; [apply Hall; lia | lia].
    + intros Hall.
      destruct H as [(Hk & _) | (Hk & Hm & Hpos & _)]; [exact Hk |].
      assert (Hin : (1 <= snd (find_peak samples v) <= samples / 2 - 1)%nat) by lia.
      specialize (Hall _ Hin). lra.
  - intros i Hi.
    destruct H as [(Hk & _) | (Hk & Hm & Hpos & Hbefore & _)]; [lia |].
    rewrite <- Hm. apply Hbefore. exact Hi.
  - intros FFT data_array rate. reflexivity.
Qed.

(** A small run: eight samples, so bins 1, 2 and 3 are scanned; bins 2 and
    3 tie, the earlier one is kept, and the larger values in bins 0 and 4
    are not looked at. *)
Example find_peak_tie :
  find_peak 8 [9; 1; 3; 3; 7; 0; 0; 0] = (3, 2%nat).
Proof.
  unfold find_peak, for_loop. simpl.
  unfold peak_step. simpl.
  destruct (Rgt_dec 1 0) as [_ | H]; [| lra]. simpl.
  destruct (Rgt_dec 3 1) as [_ | H]; [| lra]. simpl.
  destruct (Rgt_dec 3 3) as [H | _]; [lra |]. reflexivity.
Qed.

(** ** The range of the dominant frequency *)

(** C10. For a window of at least two samples and a positive rate, the
    frequency stored by [perform_fft] is at least 0, at most
    [(N/2 - 1) * rate / N], and so strictly below the Nyquist frequency
    [rate / 2], whatever the input and whatever the transform returns. *)
Theorem perform_fft_below_nyquist
        (samples : nat) (FFT : ArduinoFFT) (data_array : list R) (rate : R) :
  (2 <= samples)%nat ->
  0 < rate ->
  0 <= perform_fft samples data_array rate
       <= (INR samples / 2 - 1) * rate / INR samples
  /\ perform_fft samples data_array rate < rate / 2.
Proof.
  intros Hn Hrate. unfold perform_fft.
  set (k := snd (find_peak samples (vReal (spectrum samples data_array)))).
  assert (Hk : (k <= samples / 2 - 1)%nat) by apply find_peak_index_bound.
  assert (HN : 0 < INR samples) by (apply lt_0_INR; lia).
  assert (Hk0 : 0 <= INR k) by apply pos_INR.
  assert (HkR : INR k <= INR samples / 2 - 1).
  { assert (H2 : (2 * (k + 1) <= samples)%nat).
    { pose proof (Nat.div_mod_eq samples 2). lia. }
    apply le_INR in H2. rewrite mult_INR, plus_INR in H2. simpl in H2. lra. }
  assert (Hinv : 0 < / INR samples) by (apply Rinv_0_lt_compat; exact HN).
  assert (Hhalf : rate / 2 = (INR samples / 2) * rate / INR samples)
    by (field; lra).
  unfold Rdiv in *.
  repeat split.
  - apply Rmult_le_pos; [apply Rmult_le_pos; lra | lra].
  - apply Rmult_le_compat_r; [lra |].
    apply Rmult_le_compat_r; lra.
  - rewrite Hhalf.
    apply Rmult_lt_compat_r; [exact Hinv |].
    apply Rmult_lt_compat_r; lra.
Qed.

Lemma perform_fft_below_nyquist_witness :
  0 <= perform_fft (FFT := textbook_FFT) 128 (repeat 1 128) 1000
       <= (INR 128 / 2 - 1) * 1000 / INR 128
  /\ perform_fft (FFT := textbook_FFT) 128 (repeat 1 128) 1000 < 1000 / 2.
Proof.
  apply perform_fft_below_nyquist.
  - lia.
  - lra.
Defined.

(** ** The silent signal *)

Lemma sum_of_zeros (n : nat) (f : nat -> R) :
  (forall i, (i < n)%nat -> f i = 0) ->
  for_loop 0 n (fun i s => s + f i) 0 = 0.
Proof.
  intros H.
  apply (for_loop_invariant (fun _ s => s = 0)); [lia | reflexivity |].
  intros i a Hi ->. rewrite H by lia. lra.
Qed.

Lemma map_const_seq {A : Type} (c : A) (lo n : nat) :
  map (fun _ => c) (seq lo n) = repeat c n.
Proof.
  revert lo. induction n as [| n IH]; intros lo; simpl.
  - reflexivity.
  - rewrite IH. reflexivity.
Qed.

Lemma nth_map_seq_zero (f : nat -> R) (n i : nat) :
  (forall j, f j = 0) -> nth i (map f (seq 0 n)) 0 = 0.
Proof.
  intros H. rewrite <- (H 0%nat) at 1. rewrite map_nth. apply H.
Qed.

Lemma nth_repeat_zero (n i : nat) : nth i (repeat 0 n) 0 = 0.
Proof.
  revert i. induction n as [| n IH]; intros [| i]; simpl; auto.
Qed.

Lemma detrend_silent (samples : nat) (data_array : list R) :
  (forall i, (i < samples)%nat -> nth i data_array 0 = 0) ->
  detrend samples data_array = silence samples.
Proof.
  intros H. unfold detrend, silence.
  rewrite (sum_of_zeros samples (fun i => nth i data_array 0)) by exact H.
  f_equal.
  - rewrite <- (map_const_seq 0 0 samples).
    apply map_ext_in. intros i Hi. apply in_seq in Hi.
    rewrite H by lia. unfold Rdiv. lra.
  - apply map_const_seq.
Qed.

Lemma calculate_rms_silent (data_array : list R) (n : nat) :
  (forall i, (i < n)%nat -> nth i data_array 0 = 0) ->
  calculate_rms data_array (Z.of_nat n) = 0.
Proof.
  intros H. unfold calculate_rms.
  destruct (Z.eqb_spec (Z.of_nat n) 0) as [_ | _]; [reflexivity |].
  rewrite Nat2Z.id.
  rewrite (sum_of_zeros n (fun i => nth i data_array 0 * nth i data_array 0)).
  - unfold Rdiv. rewrite Rmult_0_l. apply sqrt_0.
  - intros i Hi. rewrite H by exact Hi. lra.
Qed.

(** The textbook transform keeps silence, for every window length. *)
Lemma textbook_FFT_keeps_silence (samples : nat) :
  keeps_silence samples textbook_FFT.
Proof.
  intros i _. unfold silence. simpl.
  apply nth_map_seq_zero. intros k.
  rewrite !length_map, !length_seq, !repeat_length.
  assert (Hre : forall q, dft_re FFT_FORWARD
      {| vReal := map (fun i0 => nth i0 (repeat 0 samples) 0 * hamming samples i0)
                      (seq 0 samples);
         vImag := repeat 0 samples |} q = 0).
  { intros q. unfold dft_re, sum_over. simpl vReal. simpl vImag.
    apply sum_of_zeros. intros j _.
    rewrite nth_map_seq_zero, nth_repeat_zero.
    - lra.
    - intros m. rewrite nth_repeat_zero. lra. }
  assert (Him : forall q, dft_im FFT_FORWARD
      {| vReal := map (fun i0 => nth i0 (repeat 0 samples) 0 * hamming samples i0)
                      (seq 0 samples);
         vImag := repeat 0 samples |} q = 0).
  { intros q. unfold dft_im, sum_over. simpl vReal. simpl vImag.
    apply sum_of_zeros. intros j _.
    rewrite nth_map_seq_zero, nth_repeat_zero.
    - lra.
    - intros m. rewrite nth_repeat_zero. lra. }
  rewrite !nth_map_seq_zero by assumption.
  rewrite Rmult_0_l, Rplus_0_l. apply sqrt_0.
Qed.

(** C4. When every sample of the window is 0, [calculate_rms] returns 0,
    and, the library mapping silent buffers to silent bins, the peak
    search of [perform_fft] leaves the peak index at 0, so the frequency
    stored is 0 whatever the sampling rate. *)
Theorem silent_signal_rms_and_frequency
        (samples : nat) (FFT : ArduinoFFT) (data_array : list R) (rate : R) :
  (forall i, (i < samples)%nat -> nth i data_array 0 = 0) ->
  keeps_silence samples FFT ->
  calculate_rms data_array (Z.of_nat samples) = 0 /\
  find_peak samples (vReal (spectrum samples data_array)) = (0, 0%nat) /\
  perform_fft samples data_array rate = 0.
Proof.
  intros Hzero Hfft.
  assert (Hpeak : find_peak samples (vReal (spectrum samples data_array))
                  = (0, 0%nat)).
  { unfold spectrum. rewrite (detrend_silent samples data_array Hzero).
    unfold find_peak.
    destruct (le_lt_dec (samples / 2) 1) as [Hsmall | Hbig].
    - apply for_loop_empty. exact Hsmall.
    - apply (for_loop_invariant (fun _ p => p = (0, 0%nat))); [lia | reflexivity |].
      intros i a Hi ->. unfold peak_step. simpl fst.
      rewrite (Hfft i) by lia.
      destruct (Rgt_dec 0 0) as [H | _]; [lra | reflexivity]. }
  split; [| split].
  - apply calculate_rms_silent. exact Hzero.
  - exact Hpeak.
  - unfold perform_fft. rewrite Hpeak. simpl. unfold Rdiv.
    rewrite !Rmult_0_l. reflexivity.
Qed.

Lemma silent_signal_witness :
  calculate_rms (repeat 0 128) (Z.of_nat 128) = 0 /\
  find_peak 128 (vReal (spectrum (FFT := textbook_FFT) 128 (repeat 0 128)))
  = (0, 0%nat) /\
  perform_fft (FFT := textbook_FFT) 128 (repeat 0 128) 1000 = 0.
Proof.
  apply silent_signal_rms_and_frequency.
  - intros i _. apply nth_repeat_zero.
  - apply textbook_FFT_keeps_silence.
Defined.

(** ** The publish gate *)

Local Open Scope Z_scope.

Lemma log_log (a b : list event) (st : state) :
  log b (log a st) = log (a ++ b) st.
Proof. unfold log. simpl. rewrite app_assoc. reflexivity. Qed.

Lemma log_nil (st : state) : log [] st = st.
Proof. destruct st. unfold log. simpl. rewrite app_nil_r. reflexivity. Qed.

Lemma to_long_id (z : Z) : - 2 ^ 31 <= z < 2 ^ 31 -> to_long z = z.
Proof.
  intros H. unfold to_long.
  rewrite Z.mod_small by lia. lia.
Qed.

Lemma gate_open_spec (now last : Z) :
  uptime now -> uptime last ->
  (gate_open now last = true <-> now - last > 5000).
Proof.
  unfold uptime, gate_open. intros Hn Hl.
  rewrite to_long_id by lia.
  destruct (Z.gtb_spec (now - last) 5000); split; intros;
    first [lia | discriminate | reflexivity].
Qed.

Lemma publications_app (a b : list event) :
  publications (a ++ b) = (publications a ++ publications b)%list.
Proof. unfold publications. apply flat_map_app. Qed.

Lemma publications_issue (env : environment) (tr : list event)
      (msgs : list (string * string)) :
  publications (issue env tr msgs) = msgs.
Proof.
  revert tr. induction msgs as [| [topic payload] rest IH]; intros tr.
  - reflexivity.
  - cbn [issue]. change (publications (?e :: ?l)) with (publications [e] ++ publications l)%list.
    rewrite IH. reflexivity.
Qed.

(** One run of the tail of [loop], in full. *)
Lemma publish_run (env : environment) (dtostrf : R -> Z -> Z -> string)
      (m : metrics) (st : state) :
  publish env dtostrf m st =
  Returned tt
    (if gate_open (now_at env st) (lastMsg st)
     then {| trace := trace st ++
               EvMillis (env_millis env (trace st))
               :: issue env (trace st ++ [EvMillis (env_millis env (trace st))])
                    (batch dtostrf m);
             lastMsg := now_at env st |}
     else log [EvMillis (env_millis env (trace st))] st).
Proof.
  unfold publish, now_at, bind, millis, ask, get_lastMsg. simpl.
  destruct (gate_open (to_long (env_millis env (trace st))) (lastMsg st)).
  - unfold set_lastMsg, client_publish, ask, ret. simpl.
    repeat rewrite <- app_assoc. simpl. reflexivity.
  - reflexivity.
Qed.

(** C1, as the sketch has it. While the clock has not wrapped, a cycle's
    batch goes out exactly when [now - lastMsg > 5000], strictly, and is
    dropped without a trace otherwise.  [lastMsg] starts at 0: of two
    cycles that read the clock at 0 ms and 5000 ms both are dropped; with
    readings of 0 ms and 5001 ms the second goes out. *)
Theorem publish_gate_strict :
  (forall env dtostrf m st,
      uptime (now_at env st) -> uptime (lastMsg st) ->
      exists st',
        publish env dtostrf m st = Returned tt st' /\
        (now_at env st - lastMsg st > 5000 ->
         publications (trace st')
         = (publications (trace st) ++ batch dtostrf m)%list) /\
        (now_at env st - lastMsg st <= 5000 ->
         st' = log [EvMillis (env_millis env (trace st))] st)) /\
  (forall env dtostrf m,
      env_millis env [] = 0 -> env_millis env [EvMillis 0] = 5000 ->
      (publish env dtostrf m ;; publish env dtostrf m)%prog boot
      = Returned tt (log [EvMillis 0; EvMillis 5000] boot)) /\
  (forall env dtostrf m,
      env_millis env [] = 0 -> env_millis env [EvMillis 0] = 5001 ->
      exists st',
        (publish env dtostrf m ;; publish env dtostrf m)%prog boot
        = Returned tt st' /\
        publications (trace st') = batch dtostrf m /\ lastMsg st' = 5001).
Proof.
  split; [| split].
  - intros env dtostrf m st Hnow Hlast.
    rewrite publish_run.
    pose proof (gate_open_spec _ _ Hnow Hlast) as Hgate.
    destruct (gate_open (now_at env st) (lastMsg st)) eqn:E.
    + eexists. split; [reflexivity |]. split.
      * intros _. simpl trace. rewrite publications_app. reflexivity.
      * intros Hle. apply proj1 in Hgate. specialize (Hgate eq_refl). lia.
    + eexists. split; [reflexivity |]. split.
      * intros Hgt. apply proj2 in Hgate. specialize (Hgate Hgt). discriminate.
      * intros _. reflexivity.
  - intros env dtostrf m H0 H1. unfold bind.
    rewrite publish_run. unfold now_at, boot. simpl trace. simpl lastMsg.
    rewrite H0. change (gate_open (to_long 0) 0) with false. cbv iota.
    rewrite publish_run. unfold now_at, log. simpl trace. simpl lastMsg.
    rewrite H1. change (gate_open (to_long 5000) 0) with false. reflexivity.
  - intros env dtostrf m H0 H1. unfold bind.
    rewrite publish_run. unfold now_at, boot. simpl trace. simpl lastMsg.
    rewrite H0. change (gate_open (to_long 0) 0) with false. cbv iota.
    rewrite publish_run. unfold now_at, log. simpl trace. simpl lastMsg.
    rewrite H1. change (gate_open (to_long 5001) 0) with true. cbv iota.
    eexists. split; [reflexivity |]. split; reflexivity.
Qed.

(** At 5000 ms the interval has elapsed ([now - lastMsg >= 5000]) and the
    batch is dropped all the same; so are both batches of two cycles at
    0 ms and 5000 ms. *)
Lemma publish_gate_drops_at_5000 :
  now_at (idle_board (fun _ => 5000)) boot - lastMsg boot >= 5000 /\
  publish (idle_board (fun _ => 5000)) no_text still boot
  = Returned tt (log [EvMillis 5000] boot) /\
  (publish (idle_board (first_0_then 5000)) no_text still ;;
   publish (idle_board (first_0_then 5000)) no_text still)%prog boot
  = Returned tt (log [EvMillis 0; EvMillis 5000] boot).
Proof.
  split; [| split].
  - vm_compute. discriminate.
  - rewrite publish_run. reflexivity.
  - unfold bind. rewrite publish_run.
    change (gate_open (now_at (idle_board (first_0_then 5000)) boot) (lastMsg boot))
      with false.
    cbv iota. rewrite publish_run. reflexivity.
Qed.

(** *** The gate within a whole cycle *)

Lemma unchanged_refl (st : state) : unchanged st st.
Proof. split; reflexivity. Qed.

Lemma unchanged_trans (a b c : state) :
  unchanged a b -> unchanged b c -> unchanged a c.
Proof.
  intros [H1 H2] [H3 H4]. split; congruence.
Qed.

Lemma unchanged_log (evs : list event) (st : state) :
  publications evs = [] -> unchanged st (log evs st).
Proof.
  intros H. split; [reflexivity |].
  unfold log. cbn [trace]. rewrite publications_app, H. apply app_nil_r.
Qed.

Lemma quiet_ret {A : Type} (a : A) : quiet (ret a).
Proof. intros st. apply unchanged_refl. Qed.

Lemma quiet_emit (e : event) : publications [e] = [] -> quiet (emit e).
Proof. intros H st. apply (unchanged_log [e]). exact H. Qed.

Lemma quiet_ask {A : Type} (reply : list event -> A) (ev : A -> event) :
  (forall r, publications [ev r] = []) -> quiet (ask reply ev).
Proof. intros H st. apply (unchanged_log [ev (reply (trace st))]). apply H. Qed.

Lemma quiet_bind {A B : Type} (m : prog A) (k : A -> prog B) :
  quiet m -> (forall a, quiet (k a)) -> quiet (bind m k).
Proof.
  intros Hm Hk st. unfold bind.
  specialize (Hm st). destruct (m st) as [a s | s]; cbn [final] in *.
  - apply (unchanged_trans st s); [exact Hm | apply Hk].
  - exact Hm.
Qed.

Lemma quiet_while (fuel : nat) (cond : prog bool) (body : prog unit) :
  quiet cond -> quiet body -> quiet (while fuel cond body).
Proof.
  intros Hc Hb. induction fuel as [| fuel IH]; intros st; cbn [while].
  - apply unchanged_refl.
  - specialize (Hc st). destruct (cond st) as [[|] s1 | s1]; cbn [final] in *;
      try exact Hc.
    specialize (Hb s1). destruct (body s1) as [u s2 | s2]; cbn [final] in *.
    + apply (unchanged_trans st s2); [| apply IH].
      apply (unchanged_trans st s1); assumption.
    + apply (unchanged_trans st s1); assumption.
Qed.

Lemma quiet_for_each {A : Type} (n : nat) (body : nat -> A -> prog A) (init : A) :
  (forall i a, quiet (body i a)) -> quiet (for_each n body init).
Proof.
  intros Hb. unfold for_each.
  assert (H : forall l acc, quiet acc ->
              quiet (fold_left (fun acc i => bind acc (body i)) l acc)).
  { induction l as [| i l IH]; intros acc Hacc; simpl.
    - exact Hacc.
    - apply IH. apply quiet_bind; [exact Hacc | apply Hb]. }
  apply H. apply quiet_ret.
Qed.

(** The calls of the sketch other than [client.publish] are quiet, and so
    is what is built from them. *)
Ltac quiet_step :=
  first
    [ apply quiet_ret
    | apply quiet_emit; reflexivity
    | apply quiet_ask; reflexivity
    | apply quiet_bind; [| intros ?]
    | apply quiet_while
    | match goal with
      | |- quiet (if ?b then _ else _) => destruct b
      end ].

Lemma quiet_reconnect (env : environment) (fuel : nat) : quiet (reconnect env fuel).
Proof. unfold reconnect. repeat quiet_step. Qed.

Lemma quiet_setup_wifi (env : environment) (fuel : nat) : quiet (setup_wifi env fuel).
Proof. unfold setup_wifi. repeat quiet_step. Qed.

Lemma quiet_setup (env : environment) (fuel : nat) : quiet (setup env fuel).
Proof.
  unfold setup.
  repeat first [apply quiet_setup_wifi | quiet_step].
Qed.

Lemma quiet_collect (env : environment) : quiet (collect env).
Proof.
  unfold collect. generalize samples. intros n.
  apply quiet_for_each. intros i w. repeat quiet_step.
Qed.

(** Whatever comes before the gate in a cycle is quiet, so the cycle as a
    whole publishes one batch or none. *)
Lemma one_batch_after_quiet {A : Type} (env : environment)
      (dtostrf : R -> Z -> Z -> string) (m : prog A) (k : A -> prog unit) :
  quiet m ->
  (forall a st, one_batch_or_none env dtostrf st (final (k a st))) ->
  forall st, one_batch_or_none env dtostrf st (final (bind m k st)).
Proof.
  intros Hm Hk st. unfold bind.
  specialize (Hm st). destruct (m st) as [a s | s]; cbn [final] in *.
  - destruct (Hk a s) as [Hu | (mm & s' & Hu & Hg & Hl & Hp)].
    + left. apply (unchanged_trans st s); assumption.
    + right. exists mm, s'. repeat split; try assumption;
        apply (unchanged_trans st s); assumption.
  - left. exact Hm.
Qed.

Lemma publish_then_pause (env : environment) (dtostrf : R -> Z -> Z -> string)
      (m : metrics) (st : state) :
  one_batch_or_none env dtostrf st
    (final ((publish env dtostrf m ;; delay 100)%prog st)).
Proof.
  unfold bind. rewrite publish_run.
  destruct (gate_open (now_at env st) (lastMsg st)) eqn:E.
  - right. exists m, st. split; [apply unchanged_refl |].
    split; [exact E |].
    unfold delay, emit. cbn [final trace lastMsg]. split; [reflexivity |].
    rewrite !publications_app. simpl. rewrite app_nil_r. reflexivity.
  - left. unfold delay, emit, log. cbn [final trace lastMsg].
    split; [reflexivity |]. cbn [trace].
    rewrite !publications_app. simpl. rewrite !app_nil_r. reflexivity.
Qed.

Lemma loop_one_batch_or_none (env : environment) (FFT : ArduinoFFT)
      (dtostrf : R -> Z -> Z -> string) (fuel : nat) (st : state) :
  one_batch_or_none env dtostrf st (final (loop env dtostrf fuel st)).
Proof.
  unfold loop.
  apply one_batch_after_quiet; [apply quiet_ask; reflexivity | intros c s0].
  apply one_batch_after_quiet.
  { destruct (negb c); [apply quiet_reconnect | apply quiet_ret]. }
  intros _ s1.
  apply one_batch_after_quiet; [apply quiet_emit; reflexivity | intros _ s2].
  apply one_batch_after_quiet; [apply quiet_emit; reflexivity | intros _ s3].
  apply one_batch_after_quiet; [apply quiet_ask; reflexivity | intros t0 s4].
  apply one_batch_after_quiet; [apply quiet_collect | intros w s5].
  apply one_batch_after_quiet; [apply quiet_ask; reflexivity | intros t1 s6].
  apply publish_then_pause.
Qed.

(** C5. One cycle publishes all six metrics or none.  When the gate lets
    the batch through, the three frequencies (2 digits after the point)
    and the three RMS values (4 digits) go out, in this order, to
    ["esp32_htj/freq_x"], ... , ["esp32_htj/rms_z"]; when it does not,
    nothing is published.  Nothing else in [loop] publishes: a whole
    cycle adds one such batch to the published messages, or nothing. *)
Theorem publish_all_or_nothing
        (env : environment) (dtostrf : R -> Z -> Z -> string)
        (m : metrics) (st : state) :
  exists st',
    publish env dtostrf m st = Returned tt st' /\
    (gate_open (now_at env st) (lastMsg st) = true ->
     publications (trace st')
     = (publications (trace st) ++ batch dtostrf m)%list) /\
    (gate_open (now_at env st) (lastMsg st) = false ->
     publications (trace st') = publications (trace st)) /\
    batch dtostrf m
    = [ ("esp32_htj/freq_x", dtostrf (freq_x m) 1 2);
        ("esp32_htj/freq_y", dtostrf (freq_y m) 1 2);
        ("esp32_htj/freq_z", dtostrf (freq_z m) 1 2);
        ("esp32_htj/rms_x", dtostrf (rms_x m) 1 4);
        ("esp32_htj/rms_y", dtostrf (rms_y m) 1 4);
        ("esp32_htj/rms_z", dtostrf (rms_z m) 1 4) ]%string /\
    (forall (FFT : ArduinoFFT) fuel,
        one_batch_or_none env dtostrf st (final (loop env dtostrf fuel st))).
Proof.
  rewrite publish_run.
  destruct (gate_open (now_at env st) (lastMsg st)).
  - eexists. split; [reflexivity |]. split; [| split; [| split]].
    + intros _. simpl trace. rewrite publications_app. reflexivity.
    + discriminate.
    + reflexivity.
    + intros FFT fuel. apply loop_one_batch_or_none.
  - eexists. split; [reflexivity |]. split; [| split; [| split]].
    + discriminate.
    + intros _. unfold log. simpl trace. rewrite publications_app.
      simpl. apply app_nil_r.
    + reflexivity.
    + intros FFT fuel. apply loop_one_batch_or_none.
Qed.

(** C6, as the sketch has it.  [lastMsg] takes the current time in the
    cycles whose batch the gate lets through, and in no other: a dropped
    cycle leaves it as it was, and a cycle that changed it handed its
    batch to the client.  The assignment is the first statement of the
    accepted branch and what [client.publish] returns is never read: the
    new [lastMsg] is decided by the clock reading alone, so it is the same
    on a board that differs in everything but that reading, the answers
    of [client.publish] included.  This holds of the tail of [loop] and
    of [loop] as a whole; [setup] leaves [lastMsg] alone. *)
Theorem lastMsg_follows_accepted_batches
        (env : environment) (dtostrf : R -> Z -> Z -> string)
        (m : metrics) (st : state) :
  exists st',
    publish env dtostrf m st = Returned tt st' /\
    (gate_open (now_at env st) (lastMsg st) = true ->
     lastMsg st' = now_at env st) /\
    (gate_open (now_at env st) (lastMsg st) = false ->
     lastMsg st' = lastMsg st /\
     publications (trace st') = publications (trace st)) /\
    (lastMsg st' <> lastMsg st ->
     publications (trace st')
     = (publications (trace st) ++ batch dtostrf m)%list) /\
    (forall env',
        env_millis env' (trace st) = env_millis env (trace st) ->
        lastMsg (final (publish env' dtostrf m st)) = lastMsg st') /\
    (forall (FFT : ArduinoFFT) fuel,
        lastMsg (final (loop env dtostrf fuel st)) <> lastMsg st ->
        exists m' s,
          unchanged st s /\
          gate_open (now_at env s) (lastMsg s) = true /\
          lastMsg (final (loop env dtostrf fuel st)) = now_at env s /\
          publications (trace (final (loop env dtostrf fuel st)))
          = (publications (trace s) ++ batch dtostrf m')%list) /\
    (forall fuel, unchanged st (final (setup env fuel st))).
Proof.
  assert (Hloop : forall (FFT : ArduinoFFT) fuel,
             lastMsg (final (loop env dtostrf fuel st)) <> lastMsg st ->
             exists m' s,
               unchanged st s /\
               gate_open (now_at env s) (lastMsg s) = true /\
               lastMsg (final (loop env dtostrf fuel st)) = now_at env s /\
               publications (trace (final (loop env dtostrf fuel st)))
               = (publications (trace s) ++ batch dtostrf m')%list).
  { intros FFT fuel Hne.
    destruct (loop_one_batch_or_none env FFT dtostrf fuel st) as [[Hu _] | H].
    - contradiction.
    - exact H. }
  assert (Hclock : forall env',
             env_millis env' (trace st) = env_millis env (trace st) ->
             lastMsg (final (publish env' dtostrf m st))
             = lastMsg (final (publish env dtostrf m st))).
  { intros env' Hsame. rewrite !publish_run. unfold now_at. rewrite Hsame.
    destruct (gate_open (to_long (env_millis env (trace st))) (lastMsg st));
      reflexivity. }
  rewrite publish_run in Hclock |- *.
  destruct (gate_open (now_at env st) (lastMsg st)).
  - eexists. split; [reflexivity |].
    split; [| split; [| split; [| split; [| split]]]]; try discriminate.
    + reflexivity.
    + intros _. simpl trace. rewrite publications_app. reflexivity.
    + exact Hclock.
    + exact Hloop.
    + intros fuel. apply quiet_setup.
  - eexists. split; [reflexivity |].
    split; [| split; [| split; [| split; [| split]]]]; try discriminate.
    + intros _. split; [reflexivity |].
      unfold log. simpl trace. rewrite publications_app.
      simpl. apply app_nil_r.
    + intros Hne. exfalso. apply Hne. reflexivity.
    + exact Hclock.
    + exact Hloop.
    + intros fuel. apply quiet_setup.
Qed.

(** At 6000 ms, on a board whose client refuses every message, the gate
    lets the batch through and [lastMsg] goes from 0 to 6000, although
    none of the six messages handed to [client.publish] was sent: the
    update does not wait for a successful batch. *)
Lemma lastMsg_updated_though_batch_refused :
  exists st',
    publish (idle_board (fun _ => 6000)) no_text still boot = Returned tt st' /\
    lastMsg boot = 0 /\
    lastMsg st' = 6000 /\
    lastMsg st' <> lastMsg boot /\
    List.length (publications (trace st')) = 6%nat /\
    forallb (fun e => match e with
                      | EvPublish _ _ ok => negb ok
                      | _ => true
                      end) (trace st') = true.
Proof.
  rewrite publish_run.
  change (gate_open (now_at (idle_board (fun _ => 6000)) boot) (lastMsg boot))
    with true.
  cbv iota. eexists. split; [reflexivity |].
  cbn [lastMsg boot now_at idle_board env_millis trace].
  repeat split; try reflexivity.
  change (to_long 6000) with 6000. discriminate.
Qed.

(** ** Connectivity *)

(** One evaluation of the loop condition of [reconnect], and the round
    that follows when the answer is no. *)
Lemma reconnect_step (env : environment) (fuel : nat) (st : state) :
  reconnect env (S fuel) st =
  if env_connected env (trace st)
  then Returned tt (log [EvConnected true] st)
  else reconnect env fuel
         (log (attempt (env_connect env (trace st ++ [EvConnected false]))) st).
Proof.
  unfold reconnect. cbn [while].
  unfold bind, client_connected, client_connect, ask, ret. cbn [trace lastMsg].
  destruct (env_connected env (trace st)); cbn [negb].
  - reflexivity.
  - destruct (env_connect env (trace st ++ [EvConnected false]));
      unfold client_subscribe, delay, emit, log, attempt; cbn [trace lastMsg];
      rewrite <- !app_assoc; reflexivity.
Qed.

(** Every run of [reconnect]: either some rounds and then a
    [client.connected()] that said yes, upon which it returned; or as
    many rounds as the budget allowed, and it is still in the loop. *)
Lemma reconnect_runs (env : environment) (fuel : nat) (st : state) :
  (exists results,
      (List.length results < fuel)%nat /\
      reconnect env fuel st
      = Returned tt (log (attempts results ++ [EvConnected true]) st))
  \/
  (exists results,
      List.length results = fuel /\
      reconnect env fuel st = Blocked (log (attempts results) st)).
Proof.
  revert st. induction fuel as [| fuel IH]; intros st.
  - right. exists []. split; [reflexivity |].
    unfold attempts. simpl. rewrite log_nil. reflexivity.
  - rewrite reconnect_step.
    destruct (env_connected env (trace st)).
    + left. exists []. split; [simpl; lia | reflexivity].
    + set (ok := env_connect env (trace st ++ [EvConnected false])).
      destruct (IH (log (attempt ok) st)) as [(rs & Hlen & Hrun) | (rs & Hlen & Hrun)].
      * left. exists (ok :: rs). split; [simpl; lia |].
        rewrite Hrun, log_log. reflexivity.
      * right. exists (ok :: rs). split; [simpl; lia |].
        rewrite Hrun, log_log. reflexivity.
Qed.

(** A run that is still in the loop and is given one more evaluation of
    the condition: it returns at once if the client is connected, and
    makes one more round if it is not. *)
Lemma reconnect_one_more (env : environment) (fuel : nat) (st st' : state) :
  reconnect env fuel st = Blocked st' ->
  reconnect env (S fuel) st =
  if env_connected env (trace st')
  then Returned tt (log [EvConnected true] st')
  else Blocked
         (log (attempt (env_connect env (trace st' ++ [EvConnected false]))) st').
Proof.
  revert st. induction fuel as [| fuel IH]; intros st Hrun.
  - injection Hrun as <-. rewrite reconnect_step.
    destruct (env_connected env (trace st)); reflexivity.
  - rewrite reconnect_step in Hrun. rewrite reconnect_step.
    destruct (env_connected env (trace st)); [discriminate |].
    apply IH. exact Hrun.
Qed.

Lemma reconnect_never_connected (env : environment) :
  (forall h, env_connected env h = false) ->
  forall fuel st,
  exists results,
    List.length results = fuel /\
    reconnect env fuel st = Blocked (log (attempts results) st).
Proof.
  intros Hdown fuel st.
  destruct (reconnect_runs env fuel st) as [(rs & Hlen & Hrun) | H];
    [| exact H].
  exfalso. revert st rs Hlen Hrun.
  induction fuel as [| fuel IH]; intros st rs Hlen Hrun; [lia |].
  rewrite reconnect_step, Hdown in Hrun.
  destruct (reconnect_runs env fuel
              (log (attempt (env_connect env (trace st ++ [EvConnected false]))) st))
    as [(rs' & Hlen' & Hrun') | (rs' & Hlen' & Hrun')].
  - exact (IH _ rs' Hlen' Hrun').
  - rewrite Hrun' in Hrun. discriminate.
Qed.

(** The waiting loop of [setup_wifi]. *)
Lemma wifi_wait_step (env : environment) (fuel : nat) (st : state) :
  while (S fuel) (up <- WiFi_status env ;; ret (negb up))%prog (delay 500) st =
  if env_wifi_status env (trace st)
  then Returned tt (log [EvWiFiStatus true] st)
  else while fuel (up <- WiFi_status env ;; ret (negb up))%prog (delay 500)
         (log [EvWiFiStatus false; EvDelay 500] st).
Proof.
  cbn [while]. unfold bind, WiFi_status, ask, ret. cbn [trace lastMsg].
  destruct (env_wifi_status env (trace st)); cbn [negb].
  - reflexivity.
  - unfold delay, emit, log. cbn [trace lastMsg].
    rewrite <- !app_assoc. reflexivity.
Qed.

Lemma polls_S (n : nat) :
  polls (S n) = EvWiFiStatus false :: EvDelay 500 :: polls n.
Proof. reflexivity. Qed.

Lemma wifi_wait_runs (env : environment) (fuel : nat) (st : state) :
  (exists n,
      (n < fuel)%nat /\
      while fuel (up <- WiFi_status env ;; ret (negb up))%prog (delay 500) st
      = Returned tt (log (polls n ++ [EvWiFiStatus true]) st))
  \/
  while fuel (up <- WiFi_status env ;; ret (negb up))%prog (delay 500) st
  = Blocked (log (polls fuel) st).
Proof.
  revert st. induction fuel as [| fuel IH]; intros st.
  - right. cbn [while]. unfold polls. simpl. rewrite log_nil. reflexivity.
  - rewrite wifi_wait_step.
    destruct (env_wifi_status env (trace st)).
    + left. exists 0%nat. split; [lia | reflexivity].
    + destruct (IH (log [EvWiFiStatus false; EvDelay 500] st))
        as [(n & Hn & Hrun) | Hrun].
      * left. exists (S n). split; [lia |].
        rewrite Hrun, log_log, polls_S. reflexivity.
      * right. rewrite Hrun, log_log, polls_S. reflexivity.
Qed.

Lemma setup_wifi_runs (env : environment) (fuel : nat) (st : state) :
  (exists n,
      (n < fuel)%nat /\
      setup_wifi env fuel st
      = Returned tt
          (log ([EvDelay 10; EvWiFiBegin ssid password]
                ++ polls n ++ [EvWiFiStatus true]) st))
  \/
  setup_wifi env fuel st
  = Blocked (log ([EvDelay 10; EvWiFiBegin ssid password] ++ polls fuel) st).
Proof.
  assert (Hpre : forall k : unit -> prog unit,
             (delay 10 ;; WiFi_begin ssid password ;; k tt)%prog st
             = k tt (log [EvDelay 10; EvWiFiBegin ssid password] st)).
  { intros k. unfold bind, delay, WiFi_begin, emit, log. cbn [trace lastMsg].
    rewrite <- !app_assoc. reflexivity. }
  unfold setup_wifi.
  rewrite (Hpre (fun _ =>
             while fuel (up <- WiFi_status env ;; ret (negb up))%prog (delay 500))).
  destruct (wifi_wait_runs env fuel
              (log [EvDelay 10; EvWiFiBegin ssid password] st))
    as [(n & Hn & Hrun) | Hrun].
  - left. exists n. split; [exact Hn |]. rewrite Hrun, log_log. reflexivity.
  - right. rewrite Hrun, log_log. reflexivity.
Qed.

Lemma setup_wifi_never_up (env : environment) :
  (forall h, env_wifi_status env h = false) ->
  forall fuel st,
    setup_wifi env fuel st
    = Blocked (log ([EvDelay 10; EvWiFiBegin ssid password] ++ polls fuel) st).
Proof.
  intros Hdown fuel st.
  assert (Hwait : forall n s,
             while n (up <- WiFi_status env ;; ret (negb up))%prog (delay 500) s
             = Blocked (log (polls n) s)).
  { induction n as [| n IH]; intros s.
    - cbn [while]. unfold polls. simpl. rewrite log_nil. reflexivity.
    - rewrite wifi_wait_step, Hdown, IH, log_log, polls_S. reflexivity. }
  unfold setup_wifi, bind, delay, WiFi_begin, emit. cbn [trace lastMsg].
  rewrite Hwait. unfold log. cbn [trace lastMsg].
  rewrite <- !app_assoc. reflexivity.
Qed.

Lemma wifi_wait_one_more (env : environment) (fuel : nat) (st st' : state) :
  while fuel (up <- WiFi_status env ;; ret (negb up))%prog (delay 500) st
  = Blocked st' ->
  while (S fuel) (up <- WiFi_status env ;; ret (negb up))%prog (delay 500) st =
  if env_wifi_status env (trace st')
  then Returned tt (log [EvWiFiStatus true] st')
  else Blocked (log [EvWiFiStatus false; EvDelay 500] st').
Proof.
  revert st. induction fuel as [| fuel IH]; intros st Hrun.
  - cbn [while] in Hrun. injection Hrun as <-. rewrite wifi_wait_step.
    destruct (env_wifi_status env (trace st)); reflexivity.
  - rewrite wifi_wait_step in Hrun. rewrite wifi_wait_step.
    destruct (env_wifi_status env (trace st)); [discriminate |].
    apply IH. exact Hrun.
Qed.

Lemma setup_wifi_one_more (env : environment) (fuel : nat) (st st' : state) :
  setup_wifi env fuel st = Blocked st' ->
  setup_wifi env (S fuel) st =
  if env_wifi_status env (trace st')
  then Returned tt (log [EvWiFiStatus true] st')
  else Blocked (log [EvWiFiStatus false; EvDelay 500] st').
Proof.
  unfold setup_wifi, bind, delay, WiFi_begin, emit. cbn [trace lastMsg].
  apply wifi_wait_one_more.
Qed.

(** C7. The two connection loops return only when connected, there is no
    other way out of them, and they go on for as long as the link is
    down.
    [reconnect]: a run is a sequence of rounds, each a
    [client.connected()] that said no, a [client.connect("esp32_htj")],
    and then [client.subscribe("esp32_htj/output")] when the attempt
    succeeded or [delay(5000)] when it failed; it returns right after a
    [client.connected()] that said yes, and until then it is still in
    the loop, whatever the budget.  Given one more evaluation of the
    condition, a run that is still in the loop returns if the client is
    connected and makes one more round if not.  If the client never
    connects the loop is never left.
    [setup_wifi]: the same with [WiFi.status()] and a pause of 500 ms. *)
Theorem connection_loops_return_only_connected
        (env : environment) (fuel : nat) (st : state) :
  ((exists results,
       (List.length results < fuel)%nat /\
       reconnect env fuel st
       = Returned tt (log (attempts results ++ [EvConnected true]) st))
   \/
   (exists results,
       List.length results = fuel /\
       reconnect env fuel st = Blocked (log (attempts results) st)))
  /\
  (forall st',
      reconnect env fuel st = Blocked st' ->
      reconnect env (S fuel) st =
      if env_connected env (trace st')
      then Returned tt (log [EvConnected true] st')
      else Blocked
             (log (attempt (env_connect env (trace st' ++ [EvConnected false])))
                  st'))
  /\
  ((forall h, env_connected env h = false) ->
   exists results,
     List.length results = fuel /\
     reconnect env fuel st = Blocked (log (attempts results) st))
  /\
  ((exists n,
       (n < fuel)%nat /\
       setup_wifi env fuel st
       = Returned tt
           (log ([EvDelay 10; EvWiFiBegin ssid password]
                 ++ polls n ++ [EvWiFiStatus true]) st))
   \/
   setup_wifi env fuel st
   = Blocked (log ([EvDelay 10; EvWiFiBegin ssid password] ++ polls fuel) st))
  /\
  (forall st',
      setup_wifi env fuel st = Blocked st' ->
      setup_wifi env (S fuel) st =
      if env_wifi_status env (trace st')
      then Returned tt (log [EvWiFiStatus true] st')
      else Blocked (log [EvWiFiStatus false; EvDelay 500] st'))
  /\
  ((forall h, env_wifi_status env h = false) ->
   setup_wifi env fuel st
   = Blocked (log ([EvDelay 10; EvWiFiBegin ssid password] ++ polls fuel) st)).
Proof.
  split; [apply reconnect_runs |].
  split; [intros st'; apply reconnect_one_more |].
  split; [intros Hdown; apply reconnect_never_connected; exact Hdown |].
  split; [apply setup_wifi_runs |].
  split; [intros st'; apply setup_wifi_one_more |].
  intros Hdown. apply setup_wifi_never_up. exact Hdown.
Qed.

(** ** Start-up *)

(** A loop that has returned returns the same with a larger budget. *)
Lemma while_more_fuel (cond : prog bool) (body : prog unit)
      (fuel fuel' : nat) (st st' : state) :
  while fuel cond body st = Returned tt st' ->
  (fuel <= fuel')%nat ->
  while fuel' cond body st = Returned tt st'.
Proof.
  revert fuel' st. induction fuel as [| fuel IH]; intros fuel' st Hrun Hle.
  - discriminate.
  - destruct fuel' as [| fuel']; [lia |].
    cbn [while] in *.
    destruct (cond st) as [[|] s1 | s1]; try discriminate; try exact Hrun.
    destruct (body s1) as [u s2 | s2]; try discriminate.
    apply IH; [exact Hrun | lia].
Qed.

(** [while (1) delay(10);] never returns: after [fuel] turns it has
    paused [fuel] times and done nothing else. *)
Lemma halt_blocked (fuel : nat) (st : state) :
  while fuel (ret true) (delay 10) st = Blocked (log (repeat (EvDelay 10) fuel) st).
Proof.
  revert st. induction fuel as [| fuel IH]; intros st.
  - cbn [while]. simpl. rewrite log_nil. reflexivity.
  - cbn [while]. unfold ret at 1. unfold delay at 1, emit.
    fold (log [EvDelay 10] st). fold (delay 10).
    rewrite IH, log_log. reflexivity.
Qed.

Lemma serial_wait_step (env : environment) (fuel : nat) (st : state) :
  while (S fuel) (r <- Serial_ready env ;; ret (negb r))%prog (delay 10) st =
  if env_serial_ready env (trace st)
  then Returned tt (log [EvSerialReady true] st)
  else while fuel (r <- Serial_ready env ;; ret (negb r))%prog (delay 10)
         (log [EvSerialReady false; EvDelay 10] st).
Proof.
  cbn [while]. unfold bind, Serial_ready, ask, ret. cbn [trace lastMsg].
  destruct (env_serial_ready env (trace st)); cbn [negb].
  - reflexivity.
  - unfold delay, emit, log. cbn [trace lastMsg].
    rewrite <- !app_assoc. reflexivity.
Qed.

Lemma serial_polls_S (n : nat) :
  serial_polls (S n) = EvSerialReady false :: EvDelay 10 :: serial_polls n.
Proof. reflexivity. Qed.

Lemma serial_wait_runs (env : environment) (fuel : nat) (st : state) :
  (exists n,
      (n < fuel)%nat /\
      while fuel (r <- Serial_ready env ;; ret (negb r))%prog (delay 10) st
      = Returned tt (log (serial_polls n ++ [EvSerialReady true]) st))
  \/
  while fuel (r <- Serial_ready env ;; ret (negb r))%prog (delay 10) st
  = Blocked (log (serial_polls fuel) st).
Proof.
  revert st. induction fuel as [| fuel IH]; intros st.
  - right. cbn [while]. unfold serial_polls. simpl. rewrite log_nil. reflexivity.
  - rewrite serial_wait_step.
    destruct (env_serial_ready env (trace st)).
    + left. exists 0%nat. split; [lia | reflexivity].
    + destruct (IH (log [EvSerialReady false; EvDelay 10] st))
        as [(n & Hn & Hrun) | Hrun].
      * left. exists (S n). split; [lia |].
        rewrite Hrun, log_log, serial_polls_S. reflexivity.
      * right. rewrite Hrun, log_log, serial_polls_S. reflexivity.
Qed.

(** Events of a kind stay of that kind under concatenation and
    repetition. *)
Lemma forallb_concat_repeat (p : event -> bool) (round : list event) (n : nat) :
  forallb p round = true -> forallb p (List.concat (repeat round n)) = true.
Proof.
  intros H. induction n as [| n IH]; simpl.
  - reflexivity.
  - rewrite forallb_app, H, IH. reflexivity.
Qed.

Lemma not_in_when_none (l : list event) :
  forallb (fun e => negb (is_begin_failure e)) l = true ->
  ~ In (EvMpuBegin false) l.
Proof.
  intros H Hin. rewrite forallb_forall in H.
  specialize (H _ Hin). discriminate.
Qed.

Lemma events_since_log {A : Type} (evs : list event) (st : state) (o : outcome A) :
  final o = log evs st -> events_since st o = evs.
Proof.
  intros H. unfold events_since. rewrite H. unfold log. cbn [trace].
  rewrite skipn_app, skipn_all, Nat.sub_diag. reflexivity.
Qed.

(** [setup], from the call of [mpu.begin()] on, in the state [s1] in which
    the serial port was found ready. *)
Lemma setup_unfold (env : environment) (fuel : nat) (st : state) :
  setup env fuel st =
  match while fuel (r <- Serial_ready env ;; ret (negb r))%prog (delay 10)
              (log startup st) with
  | Blocked s => Blocked s
  | Returned _ s1 =>
      if env_mpu_begin env (trace s1)
      then (setup_wifi env fuel ;;
            emit (EvSetServer mqtt_server portNumber) ;;
            emit EvSetCallback)%prog (log sensor_settings s1)
      else Blocked (log (EvMpuBegin false :: repeat (EvDelay 10) fuel) s1)
  end.
Proof.
  unfold setup. unfold bind at 1 2 3. unfold emit at 1 2 3.
  cbn [trace lastMsg].
  replace {| trace := ((trace st ++ [EvWireBegin]) ++ [EvWireSetClock 400000])
                        ++ [EvSerialBegin 115200];
             lastMsg := lastMsg st |}
    with (log startup st)
    by (unfold log, startup; rewrite <- !app_assoc; reflexivity).
  unfold bind at 1.
  destruct (while fuel (r <- Serial_ready env ;; ret (negb r))%prog (delay 10)
              (log startup st)) as [u s1 | s]; [| reflexivity].
  unfold bind at 1. unfold mpu_begin, ask. cbn [trace lastMsg].
  destruct (env_mpu_begin env (trace s1)); cbn [negb].
  - unfold bind at 1 2 3 4 5. unfold ret at 1. unfold emit at 1 2 3.
    unfold delay at 1. unfold emit at 1. cbn [trace lastMsg].
    replace {| trace := ((((trace s1 ++ [EvMpuBegin true])
                            ++ [EvMpuSetAccelerometerRange "MPU6050_RANGE_8_G"])
                           ++ [EvMpuSetGyroRange "MPU6050_RANGE_500_DEG"])
                          ++ [EvMpuSetFilterBandwidth "MPU6050_BAND_44_HZ"])
                         ++ [EvDelay 100];
               lastMsg := lastMsg s1 |}
      with (log sensor_settings s1)
      by (unfold log, sensor_settings; rewrite <- !app_assoc; reflexivity).
    reflexivity.
  - unfold bind at 1.
    fold (log [EvMpuBegin false] s1).
    rewrite halt_blocked, log_log. reflexivity.
Qed.

Lemma serial_polls_startup (n : nat) :
  forallb (fun e => negb (is_begin_failure e)) (serial_polls n) = true.
Proof. apply forallb_concat_repeat. reflexivity. Qed.

Lemma polls_no_begin (n : nat) :
  forallb (fun e => negb (is_begin_failure e)) (polls n) = true.
Proof. apply forallb_concat_repeat. reflexivity. Qed.

(** C8. A run of [setup] in which [mpu.begin()] answered false is held in
    [setup] for good: whatever the budget, it is still inside
    [while (1) delay(10);], all it has done since the failed call is
    pause, [mpu.begin()] was called that once, and the sketch has not
    reached [loop]. *)
Theorem sensor_failure_halts_setup
        (env : environment) (FFT : ArduinoFFT)
        (dtostrf : R -> Z -> Z -> string) (fuel : nat) (st : state) :
  In (EvMpuBegin false) (events_since st (setup env fuel st)) ->
  exists n,
    forall fuel' cycles,
      (fuel <= fuel')%nat ->
      setup env fuel' st
      = Blocked (log (startup ++ serial_polls n ++ [EvSerialReady true]
                      ++ EvMpuBegin false :: repeat (EvDelay 10) fuel') st)
      /\
      sketch env dtostrf cycles fuel' st
      = Blocked (log (startup ++ serial_polls n ++ [EvSerialReady true]
                      ++ EvMpuBegin false :: repeat (EvDelay 10) fuel') st).
Proof.
  intros Hfail.
  rewrite setup_unfold in Hfail.
  destruct (serial_wait_runs env fuel (log startup st))
    as [(n & Hn & Hwait) | Hwait]; rewrite Hwait in Hfail.
  - set (s1 := log (serial_polls n ++ [EvSerialReady true]) (log startup st))
      in *.
    destruct (env_mpu_begin env (trace s1)) eqn:Hbegin.
    + exfalso. revert Hfail. apply not_in_when_none.
      unfold bind at 1.
      destruct (setup_wifi_runs env fuel (log sensor_settings s1))
        as [(k & Hk & Hwifi) | Hwifi]; rewrite Hwifi.
      * unfold bind, emit. cbn [trace lastMsg].
        erewrite events_since_log.
        2:{ cbn [final]. unfold s1. rewrite !log_log.
            unfold log. cbn [trace lastMsg].
            rewrite <- !app_assoc. reflexivity. }
        rewrite !forallb_app, serial_polls_startup, polls_no_begin.
        reflexivity.
      * erewrite events_since_log.
        2:{ cbn [final]. unfold s1. rewrite !log_log. reflexivity. }
        rewrite !forallb_app, serial_polls_startup, polls_no_begin.
        reflexivity.
    + exists n. intros fuel' cycles Hle.
      assert (Hsetup : setup env fuel' st
                = Blocked (log (startup ++ serial_polls n ++ [EvSerialReady true]
                                ++ EvMpuBegin false :: repeat (EvDelay 10) fuel')
                               st)).
      { rewrite setup_unfold.
        rewrite (while_more_fuel _ _ fuel fuel' _ _ Hwait Hle).
        fold s1. rewrite Hbegin. unfold s1. rewrite !log_log.
        rewrite <- !app_assoc. reflexivity. }
      split; [exact Hsetup |].
      unfold sketch, bind. rewrite Hsetup. reflexivity.
  - exfalso. revert Hfail. apply not_in_when_none.
    erewrite events_since_log.
    2:{ cbn [final]. rewrite log_log. reflexivity. }
    rewrite forallb_app, serial_polls_startup. reflexivity.
Qed.

Lemma sensor_failure_halts_setup_witness :
  exists n,
    forall fuel' cycles,
      (3 <= fuel')%nat ->
      setup (idle_board (fun _ => 0)) fuel' boot
      = Blocked (log (startup ++ serial_polls n ++ [EvSerialReady true]
                      ++ EvMpuBegin false :: repeat (EvDelay 10) fuel') boot)
      /\
      sketch (FFT := textbook_FFT) (idle_board (fun _ => 0)) no_text cycles fuel' boot
      = Blocked (log (startup ++ serial_polls n ++ [EvSerialReady true]
                      ++ EvMpuBegin false :: repeat (EvDelay 10) fuel') boot).
Proof.
  apply (sensor_failure_halts_setup
           (idle_board (fun _ => 0)) textbook_FFT no_text 3 boot).
  simpl. auto 10.
Defined.

(** ** Runs on particular boards *)

(** The broker refuses twice: two rounds with a 5 s pause, a third that
    succeeds and subscribes, and the return after [client.connected()]
    said yes. *)
Example reconnect_third_attempt :
  reconnect (slow_broker 2) 10 boot =
  Returned tt
    (log [ EvConnected false; EvConnect "esp32_htj" false; EvDelay 5000;
           EvConnected false; EvConnect "esp32_htj" false; EvDelay 5000;
           EvConnected false; EvConnect "esp32_htj" true;
           EvSubscribe "esp32_htj/output";
           EvConnected true ] boot).
Proof. reflexivity. Qed.

(** With a budget of two the same run is still waiting. *)
Example reconnect_still_waiting :
  reconnect (slow_broker 2) 2 boot =
  Blocked
    (log [ EvConnected false; EvConnect "esp32_htj" false; EvDelay 5000;
           EvConnected false; EvConnect "esp32_htj" false; EvDelay 5000 ] boot).
Proof. reflexivity. Qed.

(** A batch let through at 6000 ms while the client cannot send: the six
    messages are handed over, each is refused, and [lastMsg] is 6000. *)
Example publish_accepted_at_6000 :
  publish (idle_board (fun _ => 6000)) no_text still boot =
  Returned tt
    {| trace :=
         [ EvMillis 6000;
           EvPublish "esp32_htj/freq_x" EmptyString false;
           EvPublish "esp32_htj/freq_y" EmptyString false;
           EvPublish "esp32_htj/freq_z" EmptyString false;
           EvPublish "esp32_htj/rms_x" EmptyString false;
           EvPublish "esp32_htj/rms_y" EmptyString false;
           EvPublish "esp32_htj/rms_z" EmptyString false ];
       lastMsg := 6000 |}.
Proof. reflexivity. Qed.

(** Start-up and one cycle on a healthy board whose clock reads 6000 ms. *)
Example sketch_first_cycle :
  sketch (FFT := textbook_FFT) (healthy_board (fun _ => 6000)) no_text 1 5 boot =
  Returned tt
    {| trace :=
         startup ++ [EvSerialReady true] ++ sensor_settings
         ++ [ EvDelay 10; EvWiFiBegin ssid password; EvWiFiStatus true;
              EvSetServer mqtt_server portNumber; EvSetCallback ]
         ++ [ EvConnected false;
              EvConnected false; EvConnect "esp32_htj" true;
              EvSubscribe "esp32_htj/output"; EvConnected true;
              EvClientLoop; EvDelay 1000; EvMillis 6000 ]
         ++ List.concat (repeat [EvMpuGetEvent (0, 0, 0)%R; EvDelayMicroseconds 100] 128)
         ++ [ EvMillis 6000; EvMillis 6000;
              EvPublish "esp32_htj/freq_x" EmptyString true;
              EvPublish "esp32_htj/freq_y" EmptyString true;
              EvPublish "esp32_htj/freq_z" EmptyString true;
              EvPublish "esp32_htj/rms_x" EmptyString true;
              EvPublish "esp32_htj/rms_y" EmptyString true;
              EvPublish "esp32_htj/rms_z" EmptyString true;
              EvDelay 100 ];
       lastMsg := 6000 |}.
Proof. reflexivity. Qed.

(** * Part III: more of the signal processing *)

Local Open Scope R_scope.

(** The mean that [perform_fft] subtracts, as it computes it. *)
Definition dc_bias (samples : nat) (data_array : list R) : R :=
  for_loop 0 samples (fun i sum => sum + nth i data_array 0) 0 / INR samples.

(** ** Sums over the window *)

Lemma sum_over_is_fold (n : nat) (f : nat -> R) :
  for_loop 0 n (fun i s => s + f i) 0 = fold_right Rplus 0 (map f (seq 0 n)).
Proof.
  induction n as [| n IH].
  - reflexivity.
  - rewrite for_loop_last by lia.
    rewrite seq_S, map_app, fold_right_Rplus_app, IH. simpl.
    rewrite Rplus_0_r. reflexivity.
Qed.

Lemma sum_over_plus (n : nat) (f g : nat -> R) :
  for_loop 0 n (fun i s => s + (f i + g i)) 0
  = for_loop 0 n (fun i s => s + f i) 0 + for_loop 0 n (fun i s => s + g i) 0.
Proof.
  induction n as [| n IH].
  - rewrite !for_loop_empty by lia. lra.
  - rewrite !for_loop_last by lia. rewrite IH. lra.
Qed.

Lemma sum_over_scale (n : nat) (k : R) (f : nat -> R) :
  for_loop 0 n (fun i s => s + k * f i) 0
  = k * for_loop 0 n (fun i s => s + f i) 0.
Proof.
  induction n as [| n IH].
  - rewrite !for_loop_empty by lia. lra.
  - rewrite !for_loop_last by lia. rewrite IH. lra.
Qed.

Lemma sum_over_const (n : nat) (c : R) :
  for_loop 0 n (fun _ s => s + c) 0 = INR n * c.
Proof.
  induction n as [| n IH].
  - rewrite for_loop_empty by lia. simpl. lra.
  - rewrite for_loop_last by lia. rewrite IH, S_INR. lra.
Qed.

Lemma sum_over_nonneg (n : nat) (f : nat -> R) :
  (forall i, (i < n)%nat -> 0 <= f i) ->
  0 <= for_loop 0 n (fun i s => s + f i) 0.
Proof.
  intros H.
  apply (for_loop_invariant (fun _ s => 0 <= s)); [lia | lra |].
  intros i a Hi Ha. assert (0 <= f i) by (apply H; lia). lra.
Qed.

Lemma sum_over_le (n : nat) (f g : nat -> R) :
  (forall i, (i < n)%nat -> f i <= g i) ->
  for_loop 0 n (fun i s => s + f i) 0 <= for_loop 0 n (fun i s => s + g i) 0.
Proof.
  intros H. induction n as [| n IH].
  - rewrite !for_loop_empty by lia. lra.
  - rewrite !for_loop_last by lia.
    assert (Hn : f n <= g n) by (apply H; lia).
    assert (Hrest : for_loop 0 n (fun i s => s + f i) 0
                    <= for_loop 0 n (fun i s => s + g i) 0)
      by (apply IH; intros i Hi; apply H; lia).
    lra.
Qed.

Lemma sum_over_ext (n : nat) (f g : nat -> R) :
  (forall i, (i < n)%nat -> f i = g i) ->
  for_loop 0 n (fun i s => s + f i) 0 = for_loop 0 n (fun i s => s + g i) 0.
Proof.
  intros H. apply for_loop_ext. intros i a Hi. rewrite H by lia. reflexivity.
Qed.

Lemma nth_map_seq (f : nat -> R) (n i : nat) :
  (i < n)%nat -> nth i (map f (seq 0 n)) 0 = f i.
Proof.
  intros Hi.
  rewrite (nth_indep _ 0 (f 0%nat)) by (rewrite length_map, length_seq; exact Hi).
  rewrite map_nth, seq_nth by exact Hi. reflexivity.
Qed.

(** ** Detrending *)

Lemma detrend_vReal_nth (samples : nat) (data_array : list R) (i : nat) :
  (i < samples)%nat ->
  nth i (vReal (detrend samples data_array)) 0
  = nth i data_array 0 - dc_bias samples data_array.
Proof.
  intros Hi. unfold detrend, dc_bias. cbn [vReal].
  rewrite (nth_map_seq (fun i => nth i data_array 0 - _)) by exact Hi.
  reflexivity.
Qed.

(** X1. Steps 1 and 2 of [perform_fft] leave in [vReal] a copy of the
    window whose sum, and so whose mean, is 0, and in [vImag] zeros; both
    have [samples] entries. *)
Theorem detrend_removes_mean (samples : nat) (data_array : list R) :
  (0 < samples)%nat ->
  List.length (vReal (detrend samples data_array)) = samples /\
  List.length (vImag (detrend samples data_array)) = samples /\
  (forall i, nth i (vImag (detrend samples data_array)) 0 = 0) /\
  fold_right Rplus 0 (vReal (detrend samples data_array)) = 0 /\
  mean (vReal (detrend samples data_array)) = 0.
Proof.
  intros Hn.
  assert (HN : 0 < INR samples) by (apply lt_0_INR; exact Hn).
  assert (Hsum : fold_right Rplus 0 (vReal (detrend samples data_array)) = 0).
  { unfold detrend. cbn [vReal].
    rewrite <- (sum_over_is_fold samples (fun i => nth i data_array 0 - _)).
    unfold Rminus.
    rewrite (sum_over_plus samples (fun i => nth i data_array 0) (fun _ => - _)).
    rewrite sum_over_const. field. lra. }
  split; [| split; [| split; [| split]]].
  - unfold detrend. cbn [vReal]. rewrite length_map, length_seq. reflexivity.
  - unfold detrend. cbn [vImag]. rewrite length_map, length_seq. reflexivity.
  - intros i. unfold detrend. cbn [vImag].
    apply nth_map_seq_zero. reflexivity.
  - exact Hsum.
  - unfold mean. rewrite Hsum. unfold Rdiv. apply Rmult_0_l.
Qed.

Lemma detrend_removes_mean_witness :
  List.length (vReal (detrend 4 [1; 2; 3; 6])) = 4%nat /\
  List.length (vImag (detrend 4 [1; 2; 3; 6])) = 4%nat /\
  (forall i, nth i (vImag (detrend 4 [1; 2; 3; 6])) 0 = 0) /\
  fold_right Rplus 0 (vReal (detrend 4 [1; 2; 3; 6])) = 0 /\
  mean (vReal (detrend 4 [1; 2; 3; 6])) = 0.
Proof.
  apply detrend_removes_mean. lia.
Defined.

Lemma nth_map_in_range (g : R -> R) (l : list R) (i : nat) :
  (i < List.length l)%nat -> nth i (map g l) 0 = g (nth i l 0).
Proof.
  intros Hi.
  rewrite (nth_indep _ 0 (g 0)) by (rewrite length_map; exact Hi).
  apply map_nth.
Qed.

Lemma detrend_ignores_offset (samples : nat) (data_array : list R) (c : R) :
  (0 < samples)%nat ->
  (samples <= List.length data_array)%nat ->
  detrend samples (map (fun x => x + c) data_array) = detrend samples data_array.
Proof.
  intros Hn Hlen.
  assert (HN : 0 < INR samples) by (apply lt_0_INR; exact Hn).
  assert (Hsum :
    for_loop 0 samples
      (fun i sum => sum + nth i (map (fun x => x + c) data_array) 0) 0
    = for_loop 0 samples (fun i sum => sum + nth i data_array 0) 0
      + INR samples * c).
  { rewrite (sum_over_ext samples _ (fun i => nth i data_array 0 + c)).
    - rewrite (sum_over_plus samples (fun i => nth i data_array 0) (fun _ => c)).
      rewrite sum_over_const. reflexivity.
    - intros i Hi. apply (nth_map_in_range (fun x => x + c)). lia. }
  unfold detrend. rewrite Hsum. f_equal.
  apply map_ext_in. intros i Hi. apply in_seq in Hi.
  rewrite (nth_map_in_range (fun x => x + c)) by lia.
  field. lra.
Qed.

(** X2. A constant added to every sample of the window (gravity on one
    axis, a sensor bias) does not change the frequency [perform_fft]
    stores, whatever the transform behind the library calls: the offset is
    gone after the detrending. *)
Theorem perform_fft_ignores_offset
        (samples : nat) (FFT : ArduinoFFT) (data_array : list R) (c rate : R) :
  (0 < samples)%nat ->
  (samples <= List.length data_array)%nat ->
  perform_fft samples (map (fun x => x + c) data_array) rate
  = perform_fft samples data_array rate.
Proof.
  intros Hn Hlen. unfold perform_fft, spectrum.
  rewrite detrend_ignores_offset by assumption. reflexivity.
Qed.

Lemma perform_fft_ignores_offset_witness :
  perform_fft (FFT := textbook_FFT) 4 (map (fun x => x + 9.81) [1; 2; 3; 6]) 1000
  = perform_fft (FFT := textbook_FFT) 4 [1; 2; 3; 6] 1000.
Proof.
  apply perform_fft_ignores_offset; simpl; lia.
Defined.

(** ** More on [calculate_rms] *)

Lemma calculate_rms_unfold (data_array : list R) (num_points : Z) :
  (0 < num_points)%Z ->
  calculate_rms data_array num_points
  = sqrt (for_loop 0 (Z.to_nat num_points)
            (fun i s => s + nth i data_array 0 * nth i data_array 0) 0
          / IZR num_points).
Proof.
  intros Hn. unfold calculate_rms.
  destruct (Z.eqb_spec num_points 0) as [E | _]; [lia | reflexivity].
Qed.

Lemma mean_square_nonneg (data_array : list R) (num_points : Z) :
  (0 < num_points)%Z ->
  0 <= for_loop 0 (Z.to_nat num_points)
         (fun i s => s + nth i data_array 0 * nth i data_array 0) 0
       / IZR num_points.
Proof.
  intros Hn.
  assert (HN : 0 < IZR num_points) by (apply IZR_lt; exact Hn).
  apply Rmult_le_pos.
  - apply (sum_over_nonneg _ (fun i => nth i data_array 0 * nth i data_array 0)).
    intros i _. nra.
  - apply Rlt_le, Rinv_0_lt_compat. exact HN.
Qed.

Lemma calculate_rms_nonneg (data_array : list R) (num_points : Z) :
  0 <= calculate_rms data_array num_points.
Proof.
  unfold calculate_rms.
  destruct (num_points =? 0)%Z; [lra | apply sqrt_pos].
Qed.

Lemma calculate_rms_square (data_array : list R) (num_points : Z) :
  (0 < num_points)%Z ->
  calculate_rms data_array num_points * calculate_rms data_array num_points
  = for_loop 0 (Z.to_nat num_points)
      (fun i s => s + nth i data_array 0 * nth i data_array 0) 0
    / IZR num_points.
Proof.
  intros Hn. rewrite calculate_rms_unfold by exact Hn.
  apply sqrt_sqrt. apply mean_square_nonneg. exact Hn.
Qed.

Lemma calculate_rms_no_points_aux (data_array : list R) (num_points : Z) :
  (num_points <= 0)%Z -> calculate_rms data_array num_points = 0.
Proof.
  intros Hn. unfold calculate_rms.
  destruct (Z.eqb_spec num_points 0) as [_ | Hne]; [reflexivity |].
  rewrite for_loop_empty by lia.
  unfold Rdiv. rewrite Rmult_0_l. apply sqrt_0.
Qed.

(** X3. The edge of [calculate_rms]: for a number of points that is 0 or
    negative the result is 0, whatever the array holds (the loop does not
    run and no root of a negative number is taken). *)
Theorem calculate_rms_no_points (data_array : list R) (num_points : Z) :
  (num_points <= 0)%Z -> calculate_rms data_array num_points = 0.
Proof.
  intros Hn. destruct (Z.eq_dec num_points 0) as [-> | Hne].
  - reflexivity.
  - apply calculate_rms_no_points_aux. lia.
Qed.

Lemma calculate_rms_no_points_witness :
  calculate_rms [3; 4] (-2) = 0.
Proof.
  apply calculate_rms_no_points. lia.
Defined.

(** X4. The RMS lies between 0 and the largest magnitude among the
    samples it reads: readings within [-M, M] give an RMS within
    [0, M]. *)
Theorem calculate_rms_bounded (data_array : list R) (num_points : Z) (M : R) :
  (0 < num_points)%Z ->
  (forall i, (i < Z.to_nat num_points)%nat -> Rabs (nth i data_array 0) <= M) ->
  0 <= calculate_rms data_array num_points <= M.
Proof.
  intros Hn Hbound.
  assert (HN : 0 < IZR num_points) by (apply IZR_lt; exact Hn).
  assert (HM : 0 <= M).
  { assert (H0 : Rabs (nth 0 data_array 0) <= M) by (apply Hbound; lia).
    pose proof (Rabs_pos (nth 0 data_array 0)). lra. }
  split; [apply calculate_rms_nonneg |].
  rewrite calculate_rms_unfold by exact Hn.
  rewrite <- (sqrt_square M) by exact HM.
  apply sqrt_le_1_alt.
  apply Rmult_le_reg_r with (r := IZR num_points); [exact HN |].
  unfold Rdiv. rewrite Rmult_assoc, Rinv_l, Rmult_1_r by lra.
  rewrite <- (IZR_to_nat num_points) by lia.
  rewrite (Rmult_comm (M * M)), <- sum_over_const.
  apply (sum_over_le _ (fun i => nth i data_array 0 * nth i data_array 0)
                     (fun _ => M * M)).
  intros i Hi. specialize (Hbound i Hi).
  unfold Rabs in Hbound. destruct (Rcase_abs (nth i data_array 0)); nra.
Qed.

Lemma calculate_rms_bounded_witness :
  0 <= calculate_rms [3; -4; 1] 3 <= 4.
Proof.
  apply calculate_rms_bounded.
  - lia.
  - intros [| [| [| i]]] Hi; simpl in *;
      first [lia | unfold Rabs; destruct (Rcase_abs _); lra].
Defined.

(** X5. What the note in [calculate_rms] is about: the RMS of the raw
    window is made of the offset and of the vibration around it.  Its
    square is the square of the mean plus the square of the RMS of the
    detrended copy that [perform_fft] builds, so it is never below the
    magnitude of the mean nor below the RMS of the detrended copy. *)
Theorem calculate_rms_offset_and_vibration (samples : nat) (data_array : list R) :
  (0 < samples)%nat ->
  calculate_rms data_array (Z.of_nat samples)
  * calculate_rms data_array (Z.of_nat samples)
  = dc_bias samples data_array * dc_bias samples data_array
    + calculate_rms (vReal (detrend samples data_array)) (Z.of_nat samples)
      * calculate_rms (vReal (detrend samples data_array)) (Z.of_nat samples)
  /\ Rabs (dc_bias samples data_array) <= calculate_rms data_array (Z.of_nat samples)
  /\ calculate_rms (vReal (detrend samples data_array)) (Z.of_nat samples)
     <= calculate_rms data_array (Z.of_nat samples).
Proof.
  intros Hn.
  assert (Hz : (0 < Z.of_nat samples)%Z) by lia.
  assert (HN : 0 < INR samples) by (apply lt_0_INR; exact Hn).
  set (m := dc_bias samples data_array).
  set (S1 := for_loop 0 samples (fun i s => s + nth i data_array 0) 0).
  set (S2 := for_loop 0 samples
               (fun i s => s + nth i data_array 0 * nth i data_array 0) 0).
  assert (Hm : S1 = INR samples * m).
  { unfold m, dc_bias. fold S1. field. lra. }
  assert (Hac :
    for_loop 0 samples
      (fun i s => s + nth i (vReal (detrend samples data_array)) 0
                      * nth i (vReal (detrend samples data_array)) 0) 0
    = S2 - INR samples * (m * m)).
  { rewrite (sum_over_ext samples _
               (fun i => nth i data_array 0 * nth i data_array 0
                         + (- (2 * m) * nth i data_array 0 + m * m))).
    - rewrite (sum_over_plus samples
                 (fun i => nth i data_array 0 * nth i data_array 0)
                 (fun i => - (2 * m) * nth i data_array 0 + m * m)).
      rewrite (sum_over_plus samples
                 (fun i => - (2 * m) * nth i data_array 0) (fun _ => m * m)).
      rewrite (sum_over_scale samples (- (2 * m)) (fun i => nth i data_array 0)).
      rewrite sum_over_const. fold S1 S2. rewrite Hm. ring.
    - intros i Hi. rewrite detrend_vReal_nth by exact Hi. fold m. ring. }
  assert (Hsq :
    calculate_rms data_array (Z.of_nat samples)
    * calculate_rms data_array (Z.of_nat samples)
    = m * m
      + calculate_rms (vReal (detrend samples data_array)) (Z.of_nat samples)
        * calculate_rms (vReal (detrend samples data_array)) (Z.of_nat samples)).
  { rewrite !calculate_rms_square by exact Hz.
    rewrite Nat2Z.id, Hac. fold S2. rewrite <- INR_IZR_INZ. field. lra. }
  pose proof (calculate_rms_nonneg data_array (Z.of_nat samples)) as Hr.
  pose proof (calculate_rms_nonneg (vReal (detrend samples data_array))
                                   (Z.of_nat samples)) as Ha.
  split; [exact Hsq | split].
  - unfold Rabs. destruct (Rcase_abs m); nra.
  - nra.
Qed.

Lemma calculate_rms_offset_and_vibration_witness :
  calculate_rms [1; 2; 3; 6] (Z.of_nat 4) * calculate_rms [1; 2; 3; 6] (Z.of_nat 4)
  = dc_bias 4 [1; 2; 3; 6] * dc_bias 4 [1; 2; 3; 6]
    + calculate_rms (vReal (detrend 4 [1; 2; 3; 6])) (Z.of_nat 4)
      * calculate_rms (vReal (detrend 4 [1; 2; 3; 6])) (Z.of_nat 4)
  /\ Rabs (dc_bias 4 [1; 2; 3; 6]) <= calculate_rms [1; 2; 3; 6] (Z.of_nat 4)
  /\ calculate_rms (vReal (detrend 4 [1; 2; 3; 6])) (Z.of_nat 4)
     <= calculate_rms [1; 2; 3; 6] (Z.of_nat 4).
Proof.
  apply calculate_rms_offset_and_vibration. lia.
Defined.

(** X6. A change of unit scales the RMS by the magnitude of the factor:
    every sample multiplied by [k] gives [|k|] times the RMS. *)
Theorem calculate_rms_scales (data_array : list R) (num_points : Z) (k : R) :
  (Z.to_nat num_points <= List.length data_array)%nat ->
  calculate_rms (map (fun x => k * x) data_array) num_points
  = Rabs k * calculate_rms data_array num_points.
Proof.
  intros Hlen.
  destruct (Z_lt_le_dec 0 num_points) as [Hn | Hn].
  - rewrite !calculate_rms_unfold by exact Hn.
    assert (HN : 0 < IZR num_points) by (apply IZR_lt; exact Hn).
    rewrite (sum_over_ext _ _
               (fun i => (k * k) * (nth i data_array 0 * nth i data_array 0))).
    + rewrite (sum_over_scale _ (k * k)
                 (fun i => nth i data_array 0 * nth i data_array 0)).
      unfold Rdiv. rewrite Rmult_assoc.
      rewrite sqrt_mult.
      * f_equal. apply sqrt_Rsqr_abs.
      * nra.
      * apply (mean_square_nonneg data_array num_points Hn).
    + intros i Hi. rewrite (nth_map_in_range (fun x => k * x)) by lia. ring.
  - rewrite !calculate_rms_no_points_aux by exact Hn. ring.
Qed.

Lemma calculate_rms_scales_witness :
  calculate_rms (map (fun x => -2 * x) [3; 4]) 2
  = Rabs (-2) * calculate_rms [3; 4] 2.
Proof.
  apply calculate_rms_scales. simpl. lia.
Defined.

(** ** More on [calculate_sampling_rate] *)

(** X7. For a positive duration the rate times the duration in seconds is
    the number of points again; a positive number of points gives a
    positive rate of at most 1000 points per millisecond-second, that is
    [1000 * num_points] Hz, reached when the window took 1 ms. *)
Theorem calculate_sampling_rate_recovers_count (num_points duration_ms : Z) :
  (0 < duration_ms)%Z ->
  calculate_sampling_rate num_points duration_ms * (IZR duration_ms / 1000)
  = IZR num_points /\
  ((0 < num_points)%Z ->
   0 < calculate_sampling_rate num_points duration_ms <= 1000 * IZR num_points).
Proof.
  intros Hd.
  assert (HD : 1 <= IZR duration_ms) by (apply IZR_le; lia).
  unfold calculate_sampling_rate.
  destruct (Z.eqb_spec duration_ms 0) as [E | _]; [lia |].
  split.
  - field. lra.
  - intros Hn.
    assert (HN : 0 < IZR num_points) by (apply IZR_lt; exact Hn).
    replace (IZR num_points / (IZR duration_ms / 1000))
      with (1000 * IZR num_points * / IZR duration_ms) by (field; lra).
    assert (Hinv : 0 < / IZR duration_ms <= 1).
    { split; [apply Rinv_0_lt_compat; lra |].
      rewrite <- Rinv_1. apply Rinv_le_contravar; lra. }
    split; [apply Rmult_lt_0_compat; lra |].
    rewrite <- (Rmult_1_r (1000 * IZR num_points)) at 2.
    apply Rmult_le_compat_l; lra.
Qed.

Lemma calculate_sampling_rate_recovers_count_witness :
  calculate_sampling_rate 128 13 * (IZR 13 / 1000) = IZR 128 /\
  ((0 < 128)%Z ->
   0 < calculate_sampling_rate 128 13 <= 1000 * IZR 128).
Proof.
  apply calculate_sampling_rate_recovers_count. lia.
Defined.

(** X8. The frequencies of a cycle, from the duration it measured: when
    the 128 samples took [d > 0] ms the frequency stored for an axis is
    between 0 and [63000 / d] Hz, hence at most 63 kHz; when the clock
    did not advance ([d = 0]) the rate is 0 and so is every frequency,
    whatever the signal. *)
Theorem perform_fft_range_from_duration
        (FFT : ArduinoFFT) (data_array : list R) (duration_ms : Z) :
  (duration_ms = 0%Z ->
   perform_fft samples data_array
     (calculate_sampling_rate (Z.of_nat samples) duration_ms) = 0) /\
  ((0 < duration_ms)%Z ->
   0 <= perform_fft samples data_array
          (calculate_sampling_rate (Z.of_nat samples) duration_ms)
     <= 63000 / IZR duration_ms /\
   63000 / IZR duration_ms <= 63000).
Proof.
  assert (HN : INR samples = 128).
  { unfold samples. rewrite INR_IZR_INZ. reflexivity. }
  assert (HZ : IZR (Z.of_nat samples) = 128) by reflexivity.
  unfold perform_fft.
  pose proof (find_peak_index_bound samples
                (vReal (spectrum samples data_array))) as Hk.
  change (samples / 2 - 1)%nat with 63%nat in Hk.
  revert Hk.
  generalize (snd (find_peak samples (vReal (spectrum samples data_array)))).
  intros k Hk.
  assert (HkR : 0 <= INR k <= 63).
  { split; [apply pos_INR |].
    apply le_INR in Hk. rewrite (INR_IZR_INZ 63) in Hk.
    change (IZR (Z.of_nat 63)) with 63 in Hk. exact Hk. }
  unfold calculate_sampling_rate. rewrite HN, HZ.
  split.
  - intros ->. cbn [Z.eqb]. unfold Rdiv. rewrite Rmult_0_r, Rmult_0_l.
    reflexivity.
  - intros Hd.
    destruct (Z.eqb_spec duration_ms 0) as [E | _]; [lia |].
    assert (HD : 1 <= IZR duration_ms) by (apply IZR_le; lia).
    assert (Hinv : 0 < / IZR duration_ms <= 1).
    { split; [apply Rinv_0_lt_compat; lra |].
      rewrite <- Rinv_1. apply Rinv_le_contravar; lra. }
    replace (INR k * (128 / (IZR duration_ms / 1000)) / 128)
      with (1000 * INR k * / IZR duration_ms) by (field; lra).
    unfold Rdiv. repeat split.
    + apply Rmult_le_pos; lra.
    + apply Rmult_le_compat_r; lra.
    + rewrite <- (Rmult_1_r 63000) at 2. apply Rmult_le_compat_l; lra.
Qed.

(** * Part IV: the rest of [loop] and [setup] *)

Local Open Scope Z_scope.

(** ** One cycle, laid out *)

(** The answers of the sensor to [n] calls of [mpu.getEvent] made one
    after the other from history [tr], with the 100 us pause after each. *)
Fixpoint readings (env : environment) (tr : list event) (n : nat)
  : list (R * R * R) :=
  match n with
  | O => []
  | S n' =>
      let a := env_acceleration env tr in
      a :: readings env (tr ++ [EvMpuGetEvent a; EvDelayMicroseconds 100]) n'
  end.

Definition sampling_events (accs : list (R * R * R)) : list event :=
  flat_map (fun a => [EvMpuGetEvent a; EvDelayMicroseconds 100]) accs.

(** The arrays after the readings [accs] were stored behind those of [w]. *)
Definition extend (w : window) (accs : list (R * R * R)) : window :=
  {| raw_ax := raw_ax w ++ map (fun a => fst (fst a)) accs;
     raw_ay := raw_ay w ++ map (fun a => snd (fst a)) accs;
     raw_az := raw_az w ++ map (fun a => snd a) accs |}.

Definition window_of (accs : list (R * R * R)) : window :=
  extend {| raw_ax := []; raw_ay := []; raw_az := [] |} accs.

Definition is_publish (e : event) : bool :=
  match e with EvPublish _ _ _ => true | _ => false end.

(** The clock readings at which a batch went out, oldest first, read off
    the history: the readings of [millis()] that are followed at once by a
    [client.publish].  In [loop] that is the reading [now] of a gate that
    was open. *)
Fixpoint batch_times (tr : list event) : list Z :=
  match tr with
  | [] => []
  | e :: rest =>
      match e with
      | EvMillis t =>
          match rest with
          | EvPublish _ _ _ :: _ => t :: batch_times rest
          | _ => batch_times rest
          end
      | _ => batch_times rest
      end
  end.

(** Times each more than 5000 ms after the one before, the first of them
    more than 5000 ms after [last]. *)
Fixpoint spaced (last : Z) (times : list Z) : Prop :=
  match times with
  | [] => True
  | t :: rest => (last + 5000 < t)%Z /\ spaced t rest
  end.

(** [long duration_ms = millis() - startTime] from the two raw readings
    of the counter. *)
Definition measured_duration (t0 t1 : Z) : Z := to_long (t1 - to_long t0).

(** The six results of a cycle that read [accs] between the clock
    readings [t0] and [t1]. *)
Definition cycle_metrics {FFT : ArduinoFFT} (accs : list (R * R * R)) (t0 t1 : Z)
  : metrics :=
  analyze (window_of accs)
    (calculate_sampling_rate (Z.of_nat samples) (measured_duration t0 t1)).

(** [loop] from [client.loop()] on, in the state [s1] in which the client
    was found connected; [n] is the number of readings taken. *)
Definition cycle_from {FFT : ArduinoFFT} (n : nat) (env : environment)
           (dtostrf : R -> Z -> Z -> string) (s1 : state) : state :=
  let s2 := log [EvDelay 1000] (log [EvClientLoop] s1) in
  let t0 := env_millis env (trace s2) in
  let s3 := log [EvMillis t0] s2 in
  let accs := readings env (trace s3) n in
  let s4 := log (sampling_events accs) s3 in
  let t1 := env_millis env (trace s4) in
  let s5 := log [EvMillis t1] s4 in
  log [EvDelay 100] (final (publish env dtostrf (cycle_metrics accs t0 t1) s5)).

Definition cycle_after_connect {FFT : ArduinoFFT} (env : environment)
           (dtostrf : R -> Z -> Z -> string) (s1 : state) : state :=
  cycle_from samples env dtostrf s1.

(** ** The data collection loop *)

Lemma fold_bind_first {A : Type} (body : A -> prog A) (l : list nat)
      (acc : prog A) (st : state) :
  fold_left (fun acc (_ : nat) => bind acc body) l acc st
  = match acc st with
    | Returned a s => fold_left (fun acc (_ : nat) => bind acc body) l (ret a) s
    | Blocked s => Blocked s
    end.
Proof.
  revert acc st. induction l as [| i l IH]; intros acc st; cbn [fold_left].
  - unfold ret. destruct (acc st); reflexivity.
  - rewrite IH. unfold bind at 1.
    destruct (acc st) as [a s | s]; [| reflexivity].
    rewrite (IH (bind (ret a) body) s). reflexivity.
Qed.

Lemma extend_cons (w : window) (a : R * R * R) (accs : list (R * R * R)) :
  extend {| raw_ax := raw_ax w ++ [fst (fst a)];
            raw_ay := raw_ay w ++ [snd (fst a)];
            raw_az := raw_az w ++ [snd a] |} accs
  = extend w (a :: accs).
Proof.
  unfold extend. cbn [raw_ax raw_ay raw_az map].
  rewrite <- !app_assoc. reflexivity.
Qed.

Lemma extend_nil (w : window) : extend w [] = w.
Proof.
  destruct w. unfold extend. cbn [raw_ax raw_ay raw_az map].
  rewrite !app_nil_r. reflexivity.
Qed.

Lemma collect_from (env : environment) (l : list nat) (w : window) (st : state) :
  fold_left
    (fun acc (_ : nat) =>
       bind acc
         (fun w => (a <- mpu_getEvent env ;;
                    delayMicroseconds 100 ;;
                    ret {| raw_ax := raw_ax w ++ [fst (fst a)];
                           raw_ay := raw_ay w ++ [snd (fst a)];
                           raw_az := raw_az w ++ [snd a] |})%prog))
    l (ret w) st
  = Returned (extend w (readings env (trace st) (List.length l)))
      (log (sampling_events (readings env (trace st) (List.length l))) st).
Proof.
  revert w st. induction l as [| i l IH]; intros w st.
  - cbn [fold_left List.length readings sampling_events flat_map].
    rewrite extend_nil, log_nil. reflexivity.
  - cbn [fold_left]. rewrite fold_bind_first.
    unfold bind at 1. unfold ret at 1.
    unfold bind at 1 2, mpu_getEvent, ask, delayMicroseconds, emit, ret at 1.
    cbn [trace lastMsg].
    rewrite IH. cbn [trace List.length readings].
    rewrite <- !app_assoc. cbn [app].
    rewrite extend_cons. f_equal.
    unfold log. cbn [trace lastMsg sampling_events flat_map].
    rewrite <- !app_assoc. reflexivity.
Qed.

Lemma collect_run (env : environment) (st : state) :
  collect env st
  = Returned (window_of (readings env (trace st) samples))
      (log (sampling_events (readings env (trace st) samples)) st).
Proof.
  pose proof (collect_from env (seq 0 samples)
                {| raw_ax := []; raw_ay := []; raw_az := [] |} st) as H.
  rewrite length_seq in H. exact H.
Qed.

Lemma readings_length (env : environment) (tr : list event) (n : nat) :
  List.length (readings env tr n) = n.
Proof.
  revert tr. induction n as [| n IH]; intros tr; cbn [readings List.length].
  - reflexivity.
  - rewrite IH. reflexivity.
Qed.

(** ** [loop] as a whole *)

Lemma publish_returns (env : environment) (dtostrf : R -> Z -> Z -> string)
      (m : metrics) (st : state) :
  publish env dtostrf m st = Returned tt (final (publish env dtostrf m st)).
Proof. rewrite publish_run. reflexivity. Qed.

Lemma loop_run (env : environment) (FFT : ArduinoFFT)
      (dtostrf : R -> Z -> Z -> string) (fuel : nat) (st : state) :
  loop env dtostrf fuel st =
  match (if env_connected env (trace st)
         then Returned tt (log [EvConnected true] st)
         else reconnect env fuel (log [EvConnected false] st)) with
  | Returned _ s1 => Returned tt (cycle_after_connect env dtostrf s1)
  | Blocked s => Blocked s
  end.
Proof.
  assert (Hrest : forall s1,
    (emit EvClientLoop ;;
     delay 1000 ;;
     t0 <- millis env ;;
     let startTime := to_long t0 in
     w <- collect env ;;
     t1 <- millis env ;;
     let duration_ms := to_long (t1 - startTime) in
     let actual_sampling_rate :=
       calculate_sampling_rate (Z.of_nat samples) duration_ms in
     publish env dtostrf (analyze w actual_sampling_rate) ;;
     delay 100)%prog s1
    = Returned tt (cycle_after_connect env dtostrf s1)).
  { intros s1.
    unfold bind at 1 2 3. unfold emit at 1. unfold delay at 1. unfold emit at 1.
    unfold millis at 1. unfold ask at 1.
    fold (log [EvClientLoop] s1).
    fold (log [EvDelay 1000] (log [EvClientLoop] s1)).
    set (s2 := log [EvDelay 1000] (log [EvClientLoop] s1)).
    fold (log [EvMillis (env_millis env (trace s2))] s2).
    set (s3 := log [EvMillis (env_millis env (trace s2))] s2).
    cbv zeta. unfold bind at 1. rewrite collect_run.
    set (accs := readings env (trace s3) samples).
    set (s4 := log (sampling_events accs) s3).
    unfold bind at 1. unfold millis at 1. unfold ask at 1.
    fold (log [EvMillis (env_millis env (trace s4))] s4).
    set (s5 := log [EvMillis (env_millis env (trace s4))] s4).
    unfold bind at 1. rewrite publish_returns.
    reflexivity. }
  unfold loop. unfold bind at 1. unfold client_connected at 1. unfold ask at 1.
  destruct (env_connected env (trace st)); cbn [negb].
  - unfold bind at 1. unfold ret at 1. apply Hrest.
  - unfold bind at 1.
    fold (log [EvConnected false] st).
    destruct (reconnect env fuel (log [EvConnected false] st)) as [u s1 | s].
    + apply Hrest.
    + reflexivity.
Qed.

Lemma issue_only_publishes (env : environment) (tr : list event)
      (msgs : list (string * string)) :
  forallb is_publish (issue env tr msgs) = true.
Proof.
  revert tr. induction msgs as [| [topic payload] rest IH]; intros tr.
  - reflexivity.
  - cbn [issue forallb is_publish andb]. apply IH.
Qed.

Lemma publish_final_trace (env : environment) (dtostrf : R -> Z -> Z -> string)
      (m : metrics) (st : state) :
  trace (final (publish env dtostrf m st))
  = (trace st
     ++ EvMillis (env_millis env (trace st))
        :: (if gate_open (now_at env st) (lastMsg st)
            then issue env (trace st ++ [EvMillis (env_millis env (trace st))])
                   (batch dtostrf m)
            else []))%list.
Proof.
  rewrite publish_run. cbn [final].
  destruct (gate_open (now_at env st) (lastMsg st)); reflexivity.
Qed.

Lemma cycle_from_trace (n : nat) (env : environment) (FFT : ArduinoFFT)
      (dtostrf : R -> Z -> Z -> string) (s1 : state) :
  exists accs t0 t1 t2 sent,
    trace (cycle_from n env dtostrf s1)
    = (trace s1
       ++ [EvClientLoop; EvDelay 1000; EvMillis t0]
       ++ sampling_events accs
       ++ [EvMillis t1; EvMillis t2]
       ++ sent ++ [EvDelay 100])%list /\
    List.length accs = n /\
    forallb is_publish sent = true /\
    (sent = [] \/ publications sent = batch dtostrf (cycle_metrics accs t0 t1)).
Proof.
  unfold cycle_from.
  set (s2 := log [EvDelay 1000] (log [EvClientLoop] s1)).
  set (t0 := env_millis env (trace s2)).
  set (s3 := log [EvMillis t0] s2).
  set (accs := readings env (trace s3) n).
  set (s4 := log (sampling_events accs) s3).
  set (t1 := env_millis env (trace s4)).
  set (s5 := log [EvMillis t1] s4).
  cbv zeta.
  set (t2 := env_millis env (trace s5)).
  set (sent := if gate_open (now_at env s5) (lastMsg s5)
               then issue env (trace s5 ++ [EvMillis t2])
                      (batch dtostrf (cycle_metrics accs t0 t1))
               else []).
  assert (Hsent : sent = [] \/
                  publications sent = batch dtostrf (cycle_metrics accs t0 t1)).
  { unfold sent. destruct (gate_open (now_at env s5) (lastMsg s5)).
    - right. apply publications_issue.
    - left. reflexivity. }
  assert (Hpub : forallb is_publish sent = true).
  { unfold sent. destruct (gate_open (now_at env s5) (lastMsg s5)).
    - apply issue_only_publishes.
    - reflexivity. }
  assert (Htr : trace (final (publish env dtostrf (cycle_metrics accs t0 t1) s5))
                = (trace s5 ++ EvMillis t2 :: sent)%list).
  { rewrite publish_final_trace. reflexivity. }
  exists accs, t0, t1, t2, sent.
  split; [| split; [apply readings_length | split; [exact Hpub | exact Hsent]]].
  unfold log at 1. cbn [trace]. rewrite Htr.
  clearbody sent t2 t1 accs t0.
  unfold s5, s4, s3, s2, log. cbn [trace].
  rewrite <- !app_assoc. reflexivity.
Qed.

Lemma cycle_after_connect_trace (env : environment) (FFT : ArduinoFFT)
      (dtostrf : R -> Z -> Z -> string) (s1 : state) :
  exists accs t0 t1 t2 sent,
    trace (cycle_after_connect env dtostrf s1)
    = (trace s1
       ++ [EvClientLoop; EvDelay 1000; EvMillis t0]
       ++ sampling_events accs
       ++ [EvMillis t1; EvMillis t2]
       ++ sent ++ [EvDelay 100])%list /\
    List.length accs = samples /\
    forallb is_publish sent = true /\
    (sent = [] \/ publications sent = batch dtostrf (cycle_metrics accs t0 t1)).
Proof. exact (cycle_from_trace samples env FFT dtostrf s1). Qed.

(** X9. Every run of [loop].  It can be held up in one place only, the
    loop of [reconnect], and then it has sampled and published nothing.
    Otherwise it returns after: the connection phase, which ends with a
    [client.connected()] that said yes; [client.loop()]; a pause of 1 s;
    the clock; 128 sensor readings, each followed by a pause of 100 us;
    the clock twice (end of the window, then the gate); the messages of
    the gate, none or the batch computed from these very readings and
    clock values; and a pause of 100 ms. *)
Theorem loop_outcomes (env : environment) (FFT : ArduinoFFT)
        (dtostrf : R -> Z -> Z -> string) (fuel : nat) (st : state) :
  match loop env dtostrf fuel st with
  | Blocked s =>
      env_connected env (trace st) = false /\
      exists results,
        List.length results = fuel /\
        s = log (EvConnected false :: attempts results) st
  | Returned _ st' =>
      exists pre accs t0 t1 t2 sent,
        trace st'
        = (trace st ++ pre
           ++ [EvConnected true; EvClientLoop; EvDelay 1000; EvMillis t0]
           ++ sampling_events accs
           ++ [EvMillis t1; EvMillis t2]
           ++ sent ++ [EvDelay 100])%list /\
        (pre = [] \/
         exists results,
           (List.length results < fuel)%nat /\
           pre = EvConnected false :: attempts results) /\
        List.length accs = samples /\
        forallb is_publish sent = true /\
        (sent = [] \/ publications sent = batch dtostrf (cycle_metrics accs t0 t1))
  end.
Proof.
  rewrite loop_run.
  destruct (env_connected env (trace st)) eqn:Hc.
  - destruct (cycle_after_connect_trace env FFT dtostrf (log [EvConnected true] st))
      as (accs & t0 & t1 & t2 & sent & Htr & Hlen & Hpub & Hsent).
    exists [], accs, t0, t1, t2, sent.
    split; [| split; [left; reflexivity | repeat split; assumption]].
    rewrite Htr. unfold log. cbn [trace]. rewrite <- !app_assoc. reflexivity.
  - destruct (reconnect_runs env fuel (log [EvConnected false] st))
      as [(rs & Hlen & Hrun) | (rs & Hlen & Hrun)]; rewrite Hrun.
    + destruct (cycle_after_connect_trace env FFT dtostrf
                  (log (attempts rs ++ [EvConnected true])
                       (log [EvConnected false] st)))
        as (accs & t0 & t1 & t2 & sent & Htr & Hacc & Hpub & Hsent).
      exists (EvConnected false :: attempts rs), accs, t0, t1, t2, sent.
      split; [| split; [right; exists rs; split; [exact Hlen | reflexivity]
                       | repeat split; assumption]].
      rewrite Htr. unfold log. cbn [trace]. rewrite <- !app_assoc. reflexivity.
    + split; [reflexivity |]. exists rs. split; [exact Hlen |].
      rewrite log_log. reflexivity.
Qed.

(** X10. With the client connected a cycle is never held up and makes no
    connection attempt, whatever the budget: nothing in [loop] but
    [reconnect] can wait. *)
Theorem loop_connected_client_returns (env : environment) (FFT : ArduinoFFT)
        (dtostrf : R -> Z -> Z -> string) (fuel : nat) (st : state) :
  env_connected env (trace st) = true ->
  exists st' after,
    loop env dtostrf fuel st = Returned tt st' /\
    trace st' = (trace st ++ EvConnected true :: EvClientLoop :: after)%list /\
    forallb (fun e => match e with
                      | EvConnect _ _ | EvSubscribe _ | EvConnected _ => false
                      | _ => true
                      end) after = true.
Proof.
  intros Hc. rewrite loop_run, Hc.
  destruct (cycle_after_connect_trace env FFT dtostrf (log [EvConnected true] st))
    as (accs & t0 & t1 & t2 & sent & Htr & Hlen & Hpub & Hsent).
  eexists. eexists. split; [reflexivity |]. split.
  - rewrite Htr. unfold log. cbn [trace]. rewrite <- !app_assoc. reflexivity.
  - cbn [forallb andb]. rewrite !forallb_app. cbn [forallb andb].
    rewrite andb_true_r.
    apply andb_true_intro. split.
    + unfold sampling_events. clear. induction accs as [| a accs IH].
      * reflexivity.
      * cbn [flat_map app forallb andb]. exact IH.
    + clear - Hpub. induction sent as [| e sent IH]; [reflexivity |].
      cbn [forallb] in *. apply andb_prop in Hpub. destruct Hpub as [He Hs].
      rewrite (IH Hs), andb_true_r.
      destruct e; try discriminate He. reflexivity.
Qed.

Lemma loop_connected_client_returns_witness :
  exists st' after,
    loop (FFT := textbook_FFT) (healthy_board (fun _ => 0)) no_text 0
         (log [EvConnect "esp32_htj" true] boot)
    = Returned tt st' /\
    trace st'
    = (trace (log [EvConnect "esp32_htj" true] boot)
       ++ EvConnected true :: EvClientLoop :: after)%list /\
    forallb (fun e => match e with
                      | EvConnect _ _ | EvSubscribe _ | EvConnected _ => false
                      | _ => true
                      end) after = true.
Proof.
  apply loop_connected_client_returns. reflexivity.
Defined.

(** ** [setup] as a whole *)

(** X11. Every run of [setup].  It returns only after the serial port was
    ready, the sensor was found and set to 8 g, 500 deg/s and 44 Hz, and
    the WiFi link came up, and its last two steps register the broker
    address and the callback.  It can be held up in three places: waiting
    for the serial port, in the halt after a sensor failure, and waiting
    for WiFi.  It never contacts the broker and never reads the clock. *)
Theorem setup_outcomes (env : environment) (fuel : nat) (st : state) :
  match setup env fuel st with
  | Returned _ st' =>
      exists n k,
        (n < fuel)%nat /\ (k < fuel)%nat /\
        st' = log (startup ++ serial_polls n ++ [EvSerialReady true]
                   ++ sensor_settings
                   ++ [EvDelay 10; EvWiFiBegin ssid password]
                   ++ polls k
                   ++ [EvWiFiStatus true;
                       EvSetServer mqtt_server portNumber; EvSetCallback]) st
  | Blocked s =>
      s = log (startup ++ serial_polls fuel) st
      \/
      (exists n,
          (n < fuel)%nat /\
          s = log (startup ++ serial_polls n
                   ++ [EvSerialReady true; EvMpuBegin false]
                   ++ repeat (EvDelay 10) fuel) st)
      \/
      (exists n,
          (n < fuel)%nat /\
          s = log (startup ++ serial_polls n ++ [EvSerialReady true]
                   ++ sensor_settings
                   ++ [EvDelay 10; EvWiFiBegin ssid password]
                   ++ polls fuel) st)
  end.
Proof.
  rewrite setup_unfold.
  destruct (serial_wait_runs env fuel (log startup st))
    as [(n & Hn & Hwait) | Hwait]; rewrite Hwait.
  - set (s1 := log (serial_polls n ++ [EvSerialReady true]) (log startup st)).
    destruct (env_mpu_begin env (trace s1)).
    + unfold bind at 1.
      destruct (setup_wifi_runs env fuel (log sensor_settings s1))
        as [(k & Hk & Hwifi) | Hwifi]; rewrite Hwifi.
      * unfold bind, emit. cbn [trace lastMsg].
        exists n, k. split; [exact Hn | split; [exact Hk |]].
        unfold s1, log. cbn [trace lastMsg].
        rewrite <- !app_assoc. reflexivity.
      * right. right. exists n. split; [exact Hn |].
        unfold s1. rewrite !log_log. rewrite <- !app_assoc. reflexivity.
    + right. left. exists n. split; [exact Hn |].
      unfold s1. rewrite !log_log. rewrite <- !app_assoc. reflexivity.
  - left. rewrite log_log. reflexivity.
Qed.

(** ** Many cycles *)

Lemma final_bind {A B : Type} (m : prog A) (k : A -> prog B) (st : state) :
  final (bind m k st)
  = match m st with
    | Returned a s => final (k a s)
    | Blocked s => s
    end.
Proof. unfold bind. destruct (m st); reflexivity. Qed.

Lemma loops_batches (env : environment) (FFT : ArduinoFFT)
      (dtostrf : R -> Z -> Z -> string) (fuel cycles : nat) (st : state) :
  exists ms,
    (List.length ms <= cycles)%nat /\
    publications (trace (final (loops env dtostrf cycles fuel st)))
    = (publications (trace st) ++ flat_map (batch dtostrf) ms)%list.
Proof.
  revert st. induction cycles as [| cycles IH]; intros st.
  - exists []. split; [simpl; lia |]. simpl. rewrite app_nil_r. reflexivity.
  - cbn [loops]. rewrite final_bind.
    pose proof (loop_one_batch_or_none env FFT dtostrf fuel st) as Hone.
    destruct (loop env dtostrf fuel st) as [u s | s]; cbn [final] in Hone.
    + destruct (IH s) as (ms & Hlen & Hpub).
      destruct Hone as [[_ Hu] | (m & s0 & [_ Hu] & _ & _ & Hp)].
      * exists ms. split; [lia |]. rewrite Hpub, Hu. reflexivity.
      * exists (m :: ms). split; [simpl; lia |].
        rewrite Hpub, Hp, Hu. cbn [flat_map].
        rewrite <- !app_assoc. reflexivity.
    + destruct Hone as [[_ Hu] | (m & s0 & [_ Hu] & _ & _ & Hp)].
      * exists []. split; [simpl; lia |].
        rewrite Hu. simpl. rewrite app_nil_r. reflexivity.
      * exists [m]. split; [simpl; lia |].
        rewrite Hp, Hu. cbn [flat_map]. rewrite app_nil_r. reflexivity.
Qed.

Lemma length_batches (dtostrf : R -> Z -> Z -> string) (ms : list metrics) :
  List.length (flat_map (batch dtostrf) ms) = (6 * List.length ms)%nat.
Proof.
  induction ms as [| m ms IH].
  - reflexivity.
  - cbn [flat_map]. rewrite length_app, IH. simpl. lia.
Qed.

(** X12. Over any number of cycles, on any board, the sketch hands its
    messages to the client in whole batches of six and at most one batch
    per cycle: started from power-up, what it has published after
    [cycles] cycles (or when held up before) is the batches of some
    [k <= cycles] cycles, [6 * k] messages. *)
Theorem sketch_publishes_whole_batches (env : environment) (FFT : ArduinoFFT)
        (dtostrf : R -> Z -> Z -> string) (cycles fuel : nat) :
  exists ms,
    (List.length ms <= cycles)%nat /\
    publications (trace (final (sketch env dtostrf cycles fuel boot)))
    = flat_map (batch dtostrf) ms /\
    List.length (publications (trace (final (sketch env dtostrf cycles fuel boot))))
    = (6 * List.length ms)%nat.
Proof.
  unfold sketch. rewrite final_bind.
  pose proof (quiet_setup env fuel boot) as [_ Hq].
  destruct (setup env fuel boot) as [u s | s]; cbn [final] in Hq.
  - destruct (loops_batches env FFT dtostrf fuel cycles s) as (ms & Hlen & Hpub).
    exists ms. split; [exact Hlen |].
    assert (H : publications (trace (final (loops env dtostrf cycles fuel s)))
                = flat_map (batch dtostrf) ms).
    { rewrite Hpub, Hq. reflexivity. }
    split; [exact H |]. rewrite H. apply length_batches.
  - exists []. split; [simpl; lia |].
    rewrite Hq. split; reflexivity.
Qed.

(** ** The spacing of the batches *)

Lemma now_at_uptime (env : environment) (st : state) :
  (forall h, 0 <= env_millis env h < 2 ^ 31) ->
  uptime (now_at env st) /\ now_at env st = env_millis env (trace st).
Proof.
  intros Hclock. unfold now_at, uptime.
  specialize (Hclock (trace st)).
  rewrite to_long_id by lia. split; [exact Hclock | reflexivity].
Qed.

Lemma publications_cons_nil (e : event) (tr : list event) :
  publications (e :: tr) = [] -> is_publish e = false /\ publications tr = [].
Proof.
  destruct e; cbn [publications flat_map app is_publish]; intros H;
    first [discriminate | split; [reflexivity | exact H]].
Qed.

Lemma batch_times_quiet (tr : list event) :
  publications tr = [] -> batch_times tr = [].
Proof.
  induction tr as [| e tr IH]; intros H.
  - reflexivity.
  - apply publications_cons_nil in H. destruct H as [He Htr].
    specialize (IH Htr).
    destruct e; try discriminate He; cbn [batch_times]; try exact IH.
    destruct tr as [| e' tr']; [reflexivity |].
    apply publications_cons_nil in Htr. destruct Htr as [He' _].
    destruct e'; try discriminate He'; exact IH.
Qed.

(** A reading is a batch time by what follows it at once: the history
    can be cut in front of anything but a [client.publish]. *)
Lemma batch_times_cut (a b : list event) (e : event) :
  is_publish e = false ->
  batch_times (a ++ e :: b) = (batch_times a ++ batch_times (e :: b))%list.
Proof.
  intros He. induction a as [| x a IH].
  - reflexivity.
  - destruct x; cbn [app batch_times]; try exact IH.
    destruct a as [| y a'].
    + cbn [app]. destruct e; try discriminate He; reflexivity.
    + cbn [app] in IH |- *. destruct y; try exact IH.
      cbn [app]. rewrite IH. reflexivity.
Qed.

Lemma batch_times_app_quiet (a b : list event) :
  publications b = [] -> batch_times (a ++ b) = batch_times a.
Proof.
  intros Hb. destruct b as [| e b].
  - rewrite app_nil_r. reflexivity.
  - pose proof (publications_cons_nil _ _ Hb) as [He _].
    rewrite (batch_times_cut a b e He), (batch_times_quiet _ Hb).
    apply app_nil_r.
Qed.

Lemma publications_attempts (results : list bool) :
  publications (attempts results) = [].
Proof.
  induction results as [| ok results IH].
  - reflexivity.
  - unfold attempts in *. cbn [flat_map]. rewrite publications_app, IH.
    destruct ok; reflexivity.
Qed.

Lemma publications_sampling_events (accs : list (R * R * R)) :
  publications (sampling_events accs) = [].
Proof.
  induction accs as [| a accs IH].
  - reflexivity.
  - unfold sampling_events in *. cbn [flat_map]. rewrite publications_app, IH.
    reflexivity.
Qed.

(** One cycle seen from the gate, with the clock reading that opened it:
    from the state [log before st] in which the client was found
    connected, nothing having been published since [st]. *)
Lemma cycle_from_gate (n : nat) (env : environment) (FFT : ArduinoFFT)
      (dtostrf : R -> Z -> Z -> string) (before : list event) (st : state) :
  publications before = [] ->
  (lastMsg (cycle_from n env dtostrf (log before st)) = lastMsg st /\
   publications (trace (cycle_from n env dtostrf (log before st)))
   = publications (trace st) /\
   batch_times (trace (cycle_from n env dtostrf (log before st)))
   = batch_times (trace st))
  \/
  (exists m t,
      (exists h, t = env_millis env h) /\
      gate_open (to_long t) (lastMsg st) = true /\
      lastMsg (cycle_from n env dtostrf (log before st)) = to_long t /\
      publications (trace (cycle_from n env dtostrf (log before st)))
      = (publications (trace st) ++ batch dtostrf m)%list /\
      batch_times (trace (cycle_from n env dtostrf (log before st)))
      = (batch_times (trace st) ++ [t])%list).
Proof.
  intros Hbefore. unfold cycle_from.
  set (s2 := log [EvDelay 1000] (log [EvClientLoop] (log before st))).
  set (t0 := env_millis env (trace s2)).
  set (s3 := log [EvMillis t0] s2).
  set (accs := readings env (trace s3) n).
  set (s4 := log (sampling_events accs) s3).
  set (t1 := env_millis env (trace s4)).
  set (s5 := log [EvMillis t1] s4).
  cbv zeta.
  set (m := cycle_metrics accs t0 t1).
  set (quiet_events := (before ++ [EvClientLoop; EvDelay 1000; EvMillis t0]
                        ++ sampling_events accs ++ [EvMillis t1])%list).
  assert (Hs5 : s5 = log quiet_events st).
  { unfold quiet_events. clearbody m t1 accs t0.
    unfold s5, s4, s3, s2. rewrite !log_log. reflexivity. }
  assert (Hquiet : publications quiet_events = []).
  { unfold quiet_events.
    rewrite !publications_app, Hbefore, publications_sampling_events.
    reflexivity. }
  clearbody quiet_events m s5. subst s5.
  rewrite publish_run. unfold now_at. cbn [trace lastMsg log].
  set (t := env_millis env (trace st ++ quiet_events)).
  destruct (gate_open (to_long t) (lastMsg st)) eqn:Hgate; cbn [final].
  - right. exists m, t.
    split; [exists (trace st ++ quiet_events)%list; reflexivity |].
    split; [exact Hgate |]. split; [reflexivity |].
    cbn [trace lastMsg log]. split.
    + rewrite !publications_app, Hquiet.
      change (publications (?e :: ?l)) with (publications [e] ++ publications l)%list.
      rewrite publications_issue. cbn [publications flat_map app].
      rewrite !app_nil_r. reflexivity.
    + rewrite <- !app_assoc. cbn [app].
      rewrite (app_assoc (trace st) quiet_events (EvMillis t :: _)).
      rewrite (batch_times_cut (trace st ++ quiet_events) _ (EvMillis t) eq_refl).
      rewrite batch_times_app_quiet by exact Hquiet.
      reflexivity.
  - left. cbn [trace lastMsg log]. split; [reflexivity |]. split.
    + rewrite !publications_app, Hquiet. cbn [publications flat_map app].
      rewrite !app_nil_r. reflexivity.
    + rewrite <- !app_assoc.
      rewrite batch_times_app_quiet; [reflexivity |].
      rewrite publications_app, Hquiet. reflexivity.
Qed.

(** The same of a whole [loop], held up or not. *)
Lemma loop_gate_step (env : environment) (FFT : ArduinoFFT)
      (dtostrf : R -> Z -> Z -> string) (fuel : nat) (st : state) :
  (lastMsg (final (loop env dtostrf fuel st)) = lastMsg st /\
   publications (trace (final (loop env dtostrf fuel st)))
   = publications (trace st) /\
   batch_times (trace (final (loop env dtostrf fuel st)))
   = batch_times (trace st))
  \/
  (exists m t,
      (exists h, t = env_millis env h) /\
      gate_open (to_long t) (lastMsg st) = true /\
      lastMsg (final (loop env dtostrf fuel st)) = to_long t /\
      publications (trace (final (loop env dtostrf fuel st)))
      = (publications (trace st) ++ batch dtostrf m)%list /\
      batch_times (trace (final (loop env dtostrf fuel st)))
      = (batch_times (trace st) ++ [t])%list).
Proof.
  rewrite loop_run.
  destruct (env_connected env (trace st)).
  - cbn [final]. unfold cycle_after_connect.
    exact (cycle_from_gate samples env FFT dtostrf [EvConnected true] st eq_refl).
  - destruct (reconnect_runs env fuel (log [EvConnected false] st))
      as [(rs & Hlen & Hrun) | (rs & Hlen & Hrun)]; rewrite Hrun; cbn [final].
    + rewrite log_log. unfold cycle_after_connect.
      apply (cycle_from_gate samples env FFT dtostrf).
      rewrite !publications_app, publications_attempts. reflexivity.
    + left. rewrite log_log. cbn [log trace lastMsg].
      split; [reflexivity |].
      assert (Hq : publications ([EvConnected false] ++ attempts rs) = []).
      { rewrite publications_app, publications_attempts. reflexivity. }
      split.
      * rewrite publications_app, Hq. apply app_nil_r.
      * apply batch_times_app_quiet. exact Hq.
Qed.

Lemma last_default (times : list Z) (d d' : Z) :
  times <> [] -> List.last times d = List.last times d'.
Proof.
  induction times as [| x times IH]; intros Hne.
  - contradiction.
  - destruct times as [| y times]; [reflexivity |].
    cbn [List.last] in IH |- *. apply IH. discriminate.
Qed.

Lemma spaced_app (last t : Z) (times : list Z) :
  spaced last times ->
  List.last times last + 5000 < t ->
  spaced last (times ++ [t]).
Proof.
  revert last. induction times as [| x times IH]; intros last Hs Hlt.
  - cbn [app spaced List.last] in *. split; [exact Hlt | exact I].
  - cbn [app spaced] in *. destruct Hs as [Hx Hs]. split; [exact Hx |].
    apply IH; [exact Hs |].
    destruct times as [| y times]; [exact Hlt |].
    rewrite (last_default (y :: times) x last) by discriminate.
    exact Hlt.
Qed.

Lemma loops_spaced (env : environment) (FFT : ArduinoFFT)
      (dtostrf : R -> Z -> Z -> string) (fuel cycles : nat) (st : state) :
  (forall h, 0 <= env_millis env h < 2 ^ 31) ->
  uptime (lastMsg st) ->
  lastMsg st = List.last (batch_times (trace st)) 0 ->
  spaced 0 (batch_times (trace st)) ->
  exists ms,
    publications (trace (final (loops env dtostrf cycles fuel st)))
    = (publications (trace st) ++ flat_map (batch dtostrf) ms)%list /\
    List.length (batch_times (trace (final (loops env dtostrf cycles fuel st))))
    = (List.length (batch_times (trace st)) + List.length ms)%nat /\
    spaced 0 (batch_times (trace (final (loops env dtostrf cycles fuel st)))) /\
    lastMsg (final (loops env dtostrf cycles fuel st))
    = List.last (batch_times (trace (final (loops env dtostrf cycles fuel st)))) 0 /\
    lastMsg st + 5001 * Z.of_nat (List.length ms)
    <= lastMsg (final (loops env dtostrf cycles fuel st)) /\
    uptime (lastMsg (final (loops env dtostrf cycles fuel st))).
Proof.
  intros Hclock. revert st.
  induction cycles as [| cycles IH]; intros st Hup Hlast Hsp.
  - exists []. cbn [loops final ret List.length flat_map].
    rewrite app_nil_r.
    repeat split; try assumption; try lia; apply Hup.
  - cbn [loops]. rewrite final_bind.
    assert (Hnext :
      (lastMsg (final (loop env dtostrf fuel st)) = lastMsg st /\
       publications (trace (final (loop env dtostrf fuel st)))
       = publications (trace st) /\
       batch_times (trace (final (loop env dtostrf fuel st)))
       = batch_times (trace st))
      \/
      (exists m t,
          publications (trace (final (loop env dtostrf fuel st)))
          = (publications (trace st) ++ batch dtostrf m)%list /\
          batch_times (trace (final (loop env dtostrf fuel st)))
          = (batch_times (trace st) ++ [t])%list /\
          lastMsg (final (loop env dtostrf fuel st)) = t /\
          lastMsg st + 5000 < t /\ uptime t)).
    { destruct (loop_gate_step env FFT dtostrf fuel st)
        as [H | (m & t & (h & Hh) & Hg & Hl & Hp & Hb)]; [left; exact H |].
      right. exists m, t.
      assert (Ht : uptime t) by (rewrite Hh; apply Hclock).
      assert (Hid : to_long t = t) by (apply to_long_id; unfold uptime in Ht; lia).
      rewrite Hid in Hg, Hl.
      apply (gate_open_spec _ _ Ht Hup) in Hg.
      repeat split; try assumption; try lia; apply Ht. }
    destruct (loop env dtostrf fuel st) as [u s | s]; cbn [final] in Hnext.
    + destruct Hnext as [(Hl & Hp & Hb) | (m & t & Hp & Hb & Hl & Hgap & Ht)].
      * destruct (IH s) as (ms & Hpub & Hlen & Hspaced & Hfin & Hsum & Hupf).
        { rewrite Hl. exact Hup. }
        { rewrite Hl, Hb. exact Hlast. }
        { rewrite Hb. exact Hsp. }
        exists ms. rewrite Hpub, Hp, Hlen, Hb.
        repeat split; try assumption; try lia; apply Hupf.
      * destruct (IH s) as (ms & Hpub & Hlen & Hspaced & Hfin & Hsum & Hupf).
        { rewrite Hl. exact Ht. }
        { rewrite Hl, Hb, last_last. reflexivity. }
        { rewrite Hb. apply spaced_app; [exact Hsp |].
          rewrite <- Hlast. exact Hgap. }
        exists (m :: ms). rewrite Hpub, Hp, Hlen, Hb, length_app.
        cbn [flat_map List.length]. rewrite <- !app_assoc.
        repeat split; try assumption; try lia; apply Hupf.
    + destruct Hnext as [(Hl & Hp & Hb) | (m & t & Hp & Hb & Hl & Hgap & Ht)].
      * exists []. cbn [flat_map List.length]. rewrite Hp, app_nil_r, Hl, Hb.
        repeat split; try assumption; try lia; apply Hup.
      * exists [m]. cbn [flat_map List.length]. rewrite Hp, app_nil_r, Hl, Hb.
        rewrite length_app, last_last. cbn [List.length].
        repeat split; try lia; try apply Ht.
        apply spaced_app; [exact Hsp |]. rewrite <- Hlast. exact Hgap.
Qed.

(** X13. The rate limit over a whole run.  While the millisecond clock
    stays below [2^31] (the first 24 days), the batches the sketch has
    published since power-up went out at clock readings that are more
    than 5000 ms apart, the first of them later than 5000 ms: one
    reading per batch, each more than 5000 ms after the one before, and
    [lastMsg] is the reading of the last batch (0 before the first).
    Hence after [k] batches [lastMsg] is at least [5001 * k]: no more
    than one batch goes out per 5 s, however fast the cycles run. *)
Theorem sketch_rate_limited (env : environment) (FFT : ArduinoFFT)
        (dtostrf : R -> Z -> Z -> string) (cycles fuel : nat) :
  (forall h, 0 <= env_millis env h < 2 ^ 31) ->
  exists ms,
    publications (trace (final (sketch env dtostrf cycles fuel boot)))
    = flat_map (batch dtostrf) ms /\
    List.length (batch_times (trace (final (sketch env dtostrf cycles fuel boot))))
    = List.length ms /\
    spaced 0 (batch_times (trace (final (sketch env dtostrf cycles fuel boot)))) /\
    lastMsg (final (sketch env dtostrf cycles fuel boot))
    = List.last (batch_times (trace (final (sketch env dtostrf cycles fuel boot)))) 0 /\
    5001 * Z.of_nat (List.length ms)
    <= lastMsg (final (sketch env dtostrf cycles fuel boot)) < 2 ^ 31.
Proof.
  intros Hclock. unfold sketch. rewrite final_bind.
  pose proof (quiet_setup env fuel boot) as [Hl Hq].
  assert (Hb : batch_times (trace (final (setup env fuel boot))) = []).
  { apply batch_times_quiet. rewrite Hq. reflexivity. }
  destruct (setup env fuel boot) as [u s | s]; cbn [final] in Hl, Hq, Hb.
  - destruct (loops_spaced env FFT dtostrf fuel cycles s Hclock)
      as (ms & Hpub & Hlen & Hspaced & Hfin & Hsum & Hupf).
    { rewrite Hl. unfold uptime, boot. cbn [lastMsg]. lia. }
    { rewrite Hl, Hb. reflexivity. }
    { rewrite Hb. exact I. }
    exists ms. rewrite Hpub, Hq, Hlen, Hb.
    split; [reflexivity |]. split; [reflexivity |].
    split; [exact Hspaced |]. split; [exact Hfin |].
    rewrite Hl in Hsum. unfold boot in Hsum. cbn [lastMsg] in Hsum.
    unfold uptime in Hupf. lia.
  - exists []. rewrite Hb, Hl. unfold boot.
    cbn [lastMsg flat_map List.length List.last spaced].
    rewrite Hq. repeat split; try reflexivity; lia.
Qed.

Lemma sketch_rate_limited_witness :
  exists ms,
    publications
      (trace (final (sketch (FFT := textbook_FFT)
                       (healthy_board (fun _ => 6000)) no_text 3 5 boot)))
    = flat_map (batch no_text) ms /\
    List.length
      (batch_times
         (trace (final (sketch (FFT := textbook_FFT)
                          (healthy_board (fun _ => 6000)) no_text 3 5 boot))))
    = List.length ms /\
    spaced 0
      (batch_times
         (trace (final (sketch (FFT := textbook_FFT)
                          (healthy_board (fun _ => 6000)) no_text 3 5 boot)))) /\
    lastMsg (final (sketch (FFT := textbook_FFT)
                      (healthy_board (fun _ => 6000)) no_text 3 5 boot))
    = List.last
        (batch_times
           (trace (final (sketch (FFT := textbook_FFT)
                            (healthy_board (fun _ => 6000)) no_text 3 5 boot))))
        0 /\
    5001 * Z.of_nat (List.length ms)
    <= lastMsg (final (sketch (FFT := textbook_FFT)
                         (healthy_board (fun _ => 6000)) no_text 3 5 boot))
    < 2 ^ 31.
Proof.
  apply sketch_rate_limited. intros h. cbn [healthy_board env_millis]. lia.
Defined.

(** ** The clock across its wrap *)

Lemma to_long_cases (z : Z) :
  (z mod 2 ^ 32 < 2 ^ 31 /\ to_long z = z mod 2 ^ 32) \/
  (2 ^ 31 <= z mod 2 ^ 32 /\ to_long z = z mod 2 ^ 32 - 2 ^ 32).
Proof.
  unfold to_long.
  change (2 ^ 32) with 4294967296. change (2 ^ 31) with 2147483648.
  Z.to_euclidean_division_equations. lia.
Qed.

Lemma to_long_congruent (a b : Z) : to_long (a - to_long b) = to_long (a - b).
Proof.
  unfold to_long.
  change (2 ^ 32) with 4294967296. change (2 ^ 31) with 2147483648.
  Z.to_euclidean_division_equations. lia.
Qed.

Lemma to_long_congruent_l (a b : Z) : to_long (to_long a - b) = to_long (a - b).
Proof.
  unfold to_long.
  change (2 ^ 32) with 4294967296. change (2 ^ 31) with 2147483648.
  Z.to_euclidean_division_equations. lia.
Qed.

(** X14. The duration of the sampling window is right across the wrap of
    the millisecond counter: from the two raw 32-bit readings [t0] and
    [t1] the sketch gets the number of ticks from one to the other modulo
    [2^32], as long as that is below [2^31]; a longer distance comes out
    negative. *)
Theorem measured_duration_across_wrap (t0 t1 : Z) :
  measured_duration t0 t1 = to_long (t1 - t0) /\
  ((t1 - t0) mod 2 ^ 32 < 2 ^ 31 ->
   measured_duration t0 t1 = (t1 - t0) mod 2 ^ 32) /\
  (2 ^ 31 <= (t1 - t0) mod 2 ^ 32 ->
   measured_duration t0 t1 = (t1 - t0) mod 2 ^ 32 - 2 ^ 32 /\
   measured_duration t0 t1 < 0).
Proof.
  unfold measured_duration. rewrite to_long_congruent.
  split; [reflexivity |].
  destruct (to_long_cases (t1 - t0)) as [[Hlt Heq] | [Hge Heq]].
  - split; [intros _; exact Heq | intros Hge; lia].
  - split; [intros Hlt; lia |].
    intros _. split; [exact Heq |].
    rewrite Heq. pose proof (Z.mod_pos_bound (t1 - t0) (2 ^ 32)). lia.
Qed.

(** A window that starts 100 ticks before the counter wraps and ends 28
    ticks after it lasted 128 ms. *)
Example measured_duration_wrapping :
  measured_duration (2 ^ 32 - 100) 28 = 128.
Proof. reflexivity. Qed.

(** X15. The gate across the wrap, a [long] being the 32-bit two's
    complement number the embedding takes it for: with [lastMsg] holding
    the counter reading [t_last] and the counter now at [t], the batch
    goes out exactly when the counter has advanced by more than 5000 and
    fewer than [2^31] ticks, modulo [2^32]. *)
Theorem gate_open_across_wrap (t t_last : Z) :
  gate_open (to_long t) (to_long t_last) = true
  <-> 5000 < (t - t_last) mod 2 ^ 32 < 2 ^ 31.
Proof.
  unfold gate_open.
  rewrite to_long_congruent, to_long_congruent_l.
  destruct (to_long_cases (t - t_last)) as [[Hlt Heq] | [Hge Heq]];
    rewrite Heq;
    pose proof (Z.mod_pos_bound (t - t_last) (2 ^ 32) ltac:(lia)) as Hb;
    destruct (Z.gtb_spec ((t - t_last) mod 2 ^ 32) 5000) as [Hgt | Hle];
    destruct (Z.gtb_spec ((t - t_last) mod 2 ^ 32 - 2 ^ 32) 5000) as [Hgt' | Hle'];
    split; intros H; first [lia | discriminate | reflexivity].
Qed.

(** * Part V: the sketches for the simple sensors

    [mqtt_DHT.ino], [mqtt_BME280.ino] and [mqtt_HX711.ino] share
    [setup_wifi], [callback] and [reconnect] with the vibration node,
    letter for letter, and differ in [setup] and [loop].  They talk to
    other devices, so they get events of their own; the conventions are
    those of Part I.  A [float] that a sensor library returns may be NaN:
    it is a real number or [None].  Temperatures and humidities fit in
    the 8-byte [tempString]; a weight need not, and the HX711 sketch can
    read its [reading] unassigned: for that sketch the buffer and the
    assignment are part of the model. *)

Module Simple.

Definition float : Type := option R.

Definition isnan (x : float) : bool :=
  match x with None => true | Some _ => false end.

Inductive event : Type :=
| EvDelay (ms : Z)
| EvMillis (t : Z)
| EvSerialBegin (baud : Z)
| EvWiFiBegin (ssid password : string)
| EvWiFiStatus (connected : bool)
| EvSetServer (host : string) (port : Z)
| EvSetCallback
| EvConnected (r : bool)
| EvConnect (id : string) (r : bool)
| EvSubscribe (topic : string)
| EvPublish (topic payload : string) (ok : bool)
| EvClientLoop
| EvDhtBegin
| EvDhtReadHumidity (h : float)
| EvDhtReadTemperature (t : float)
| EvBmeBegin (addr : Z) (found : bool)
| EvBmeReadTemperature (t : float)
| EvBmeReadHumidity (h : float)
| EvBmeReadPressure (p : float)
| EvBmeReadAltitude (sea_level : R) (a : float)
| EvScaleBegin (dout sck : Z)
| EvScaleSetScale (factor : R)
| EvScaleTare
| EvScaleIsReady (r : bool)
| EvScaleGetUnits (times : Z) (v : float).

Record environment : Type := {
  env_wifi_status : list event -> bool;
  env_connected : list event -> bool;
  env_connect : list event -> bool;
  env_publish : list event -> bool;
  env_millis : list event -> Z;
  env_dht_humidity : list event -> float;
  env_dht_temperature : list event -> float;
  env_bme_begin : list event -> bool;
  env_bme_temperature : list event -> float;
  env_bme_humidity : list event -> float;
  env_bme_pressure : list event -> float;
  env_bme_altitude : list event -> float;
  env_scale_ready : list event -> bool;
  env_scale_units : list event -> float
}.

Record state : Type := mkState { trace : list event; lastMsg : Z }.

Definition boot : state := {| trace := []; lastMsg := 0 |}.

Inductive outcome (A : Type) : Type :=
| Returned (a : A) (st : state)
| Blocked (st : state).
Arguments Returned {A} a st.
Arguments Blocked {A} st.

Definition prog (A : Type) : Type := state -> outcome A.

Definition ret {A : Type} (a : A) : prog A := fun st => Returned a st.

Definition bind {A B : Type} (m : prog A) (k : A -> prog B) : prog B :=
  fun st =>
    match m st with
    | Returned a st' => k a st'
    | Blocked st' => Blocked st'
    end.

Declare Scope simple_scope.
Delimit Scope simple_scope with simple.
Bind Scope simple_scope with prog.
Notation "x <- m ;; k" := (bind m (fun x => k))
  (at level 61, m at next level, right associativity) : simple_scope.
Notation "m ;; k" := (bind m (fun _ => k))
  (at level 61, right associativity) : simple_scope.

Definition log (evs : list event) (st : state) : state :=
  {| trace := trace st ++ evs; lastMsg := lastMsg st |}.

Definition emit (e : event) : prog unit :=
  fun st => Returned tt (log [e] st).

Definition ask {A : Type} (reply : list event -> A) (ev : A -> event) : prog A :=
  fun st => Returned (reply (trace st)) (log [ev (reply (trace st))] st).

Definition get_lastMsg : prog Z := fun st => Returned (lastMsg st) st.

Definition set_lastMsg (v : Z) : prog unit :=
  fun st => Returned tt {| trace := trace st; lastMsg := v |}.

Fixpoint while (fuel : nat) (cond : prog bool) (body : prog unit) (st : state)
  : outcome unit :=
  match fuel with
  | O => Blocked st
  | S fuel' =>
      match cond st with
      | Returned true st1 =>
          match body st1 with
          | Returned _ st2 => while fuel' cond body st2
          | Blocked st2 => Blocked st2
          end
      | Returned false st1 => Returned tt st1
      | Blocked st1 => Blocked st1
      end
  end.

Definition final {A : Type} (o : outcome A) : state :=
  match o with Returned _ st => st | Blocked st => st end.

Definition publications (tr : list event) : list (string * string) :=
  flat_map (fun e => match e with
                     | EvPublish topic payload _ => [(topic, payload)]
                     | _ => []
                     end) tr.

(** A run that may leave defined behaviour (see [hx_loop]). *)
Inductive run (A : Type) : Type :=
| Ran (o : outcome A)
| Undefined (st : state).
Arguments Ran {A} o.
Arguments Undefined {A} st.

Definition hx_prog (A : Type) : Type := state -> run A.

Definition defined {A : Type} (m : prog A) : hx_prog A := fun st => Ran (m st).

Definition undefined {A : Type} : hx_prog A := fun st => Undefined st.

Definition hx_ret {A : Type} (a : A) : hx_prog A := defined (ret a).

Definition hx_bind {A B : Type} (m : hx_prog A) (k : A -> hx_prog B) : hx_prog B :=
  fun st =>
    match m st with
    | Ran (Returned a st') => k a st'
    | Ran (Blocked st') => Ran (Blocked st')
    | Undefined st' => Undefined st'
    end.

Declare Scope hx_scope.
Delimit Scope hx_scope with hx.
Bind Scope hx_scope with hx_prog.
Notation "x <- m ;; k" := (hx_bind m (fun x => k))
  (at level 61, m at next level, right associativity) : hx_scope.
Notation "m ;; k" := (hx_bind m (fun _ => k))
  (at level 61, right associativity) : hx_scope.

(** A text that [dtostrf] can write into [char tempString[8]]: at most
    seven characters and the final NUL. *)
Definition fits (text : string) : bool := (String.length text <? 8)%nat.

Section SKETCHES.

Variable env : environment.

(** [dtostrf] again; here it may be handed a NaN. *)
Variable dtostrf : float -> Z -> Z -> string.

Definition delay (ms : Z) : prog unit := emit (EvDelay ms).
Definition millis : prog Z := ask (env_millis env) EvMillis.
Definition WiFi_status : prog bool := ask (env_wifi_status env) EvWiFiStatus.
Definition client_connected : prog bool := ask (env_connected env) EvConnected.
Definition client_connect (id : string) : prog bool :=
  ask (env_connect env) (EvConnect id).
Definition client_publish (topic payload : string) : prog bool :=
  ask (env_publish env) (EvPublish topic payload).

Definition setup_wifi (fuel : nat) : prog unit :=
  (delay 10 ;;
   emit (EvWiFiBegin ssid password) ;;
   while fuel (up <- WiFi_status ;; ret (negb up)) (delay 500))%simple.

Definition reconnect (fuel : nat) : prog unit :=
  while fuel (c <- client_connected ;; ret (negb c))%simple
    (ok <- client_connect "esp32_htj" ;;
     if ok then emit (EvSubscribe "esp32_htj/output")
     else delay 5000)%simple.

(** The head of every [loop]:
    [if (!client.connected()) reconnect(); client.loop(); delay(1000);] *)
Definition keep_connected (fuel : nat) : prog unit :=
  (c <- client_connected ;;
   (if negb c then reconnect fuel else ret tt) ;;
   emit EvClientLoop ;;
   delay 1000)%simple.

(** The gate, around what it lets through ([hx_loop] has it written
    out). *)
Definition gated (messages : prog unit) : prog unit :=
  (t <- millis ;;
   let now := to_long t in
   last <- get_lastMsg ;;
   if gate_open now last then set_lastMsg now ;; messages else ret tt)%simple.

(** ** [mqtt_DHT.ino] *)

Definition dht_setup (fuel : nat) : prog unit :=
  (emit (EvSerialBegin 115200) ;;
   emit EvDhtBegin ;;
   setup_wifi fuel ;;
   emit (EvSetServer mqtt_server portNumber) ;;
   emit EvSetCallback)%simple.

(** [dht.computeHeatIndex(t, h, false)] is a computation whose result the
    sketch does not use; it is left out. *)
Definition dht_loop (fuel : nat) : prog unit :=
  (keep_connected fuel ;;
   h <- ask (env_dht_humidity env) EvDhtReadHumidity ;;
   t <- ask (env_dht_temperature env) EvDhtReadTemperature ;;
   if isnan h || isnan t then
     (* Failed to read from DHT sensor: return; *)
     ret tt
   else
     gated (client_publish "esp32_htj/temperature" (dtostrf t 1 2) ;;
            client_publish "esp32_htj/humidity" (dtostrf h 1 2) ;;
            ret tt))%simple.

(** ** [mqtt_BME280.ino] *)

Definition bme_setup (fuel : nat) : prog unit :=
  (emit (EvSerialBegin 115200) ;;
   setup_wifi fuel ;;
   emit (EvSetServer mqtt_server portNumber) ;;
   emit EvSetCallback ;;
   status <- ask (env_bme_begin env) (EvBmeBegin 118) ;;
   if negb status
   then (* prints bme.sensorID() on Serial, then: while (1) delay(10); *)
        while fuel (ret true) (delay 10)
   else ret tt)%simple.

Definition bme_loop (fuel : nat) : prog unit :=
  (keep_connected fuel ;;
   t <- ask (env_bme_temperature env) EvBmeReadTemperature ;;
   h <- ask (env_bme_humidity env) EvBmeReadHumidity ;;
   ask (env_bme_pressure env) EvBmeReadPressure ;;
   ask (env_bme_altitude env) (EvBmeReadAltitude 1013.25) ;;
   gated (client_publish "esp32_htj/temperature" (dtostrf t 1 2) ;;
          client_publish "esp32_htj/humidity" (dtostrf h 1 2) ;;
          ret tt))%simple.

(** ** [mqtt_HX711.ino] *)

Definition LOADCELL_DOUT_PIN : Z := 32.
Definition LOADCELL_SCK_PIN : Z := 33.

Definition hx_setup (fuel : nat) : prog unit :=
  (emit (EvSerialBegin 115200) ;;
   emit (EvScaleBegin LOADCELL_DOUT_PIN LOADCELL_SCK_PIN) ;;
   delay 1000 ;;
   emit (EvScaleSetScale 218) ;;
   emit EvScaleTare ;;
   setup_wifi fuel ;;
   emit (EvSetServer mqtt_server portNumber) ;;
   emit EvSetCallback)%simple.

(** The [loop] of this sketch can leave what C++ defines, in two ways.
    [float reading;] is assigned only when the scale is ready, and is
    read by [dtostrf] whenever the gate is open.  And a weight is not
    bounded as a temperature or a humidity is: the scale divides a
    24-bit reading by 218, so that its text can be longer than the seven
    characters that [char tempString[8]] holds beside the final NUL.
    From either point on nothing is known of the program: a run of this
    [loop] is a defined outcome, or [Undefined] with the state in which
    the defined part ended. *)
Definition hx_loop (fuel : nat) : hx_prog unit :=
  (defined (keep_connected fuel) ;;
   ready <- defined (ask (env_scale_ready env) EvScaleIsReady) ;;
   (* float reading; *)
   reading <- (if ready
               then v <- defined (ask (env_scale_units env) (EvScaleGetUnits 10)) ;;
                    hx_ret (Some v)
               else hx_ret None) ;;
   t <- defined millis ;;
   let now := to_long t in
   last <- defined get_lastMsg ;;
   (if gate_open now last then
      defined (set_lastMsg now) ;;
      match reading with
      | None => undefined
      | Some value =>
          if fits (dtostrf value 1 2)
          then defined (client_publish "esp32_htj/weight" (dtostrf value 1 2)) ;;
               hx_ret tt
          else undefined
      end
    else hx_ret tt) ;;
   defined (delay 200))%hx.

End SKETCHES.

End Simple.

Module SimpleFacts.

Import Simple.

(** One round of [reconnect], and a sequence of rounds, as in Part I. *)
Definition attempt (ok : bool) : list event :=
  [ EvConnected false;
    EvConnect "esp32_htj" ok;
    if ok then EvSubscribe "esp32_htj/output" else EvDelay 5000 ].

Definition attempts (results : list bool) : list event :=
  flat_map attempt results.

(** The events of the head of a [loop] up to the [client.connected()] that
    said yes: that poll alone, or a first poll that said no and the
    rounds of [reconnect]. *)
Definition connecting (fuel : nat) (pre : list event) : Prop :=
  pre = [] \/
  exists results,
    (List.length results < fuel)%nat /\ pre = EvConnected false :: attempts results.

Definition polls (n : nat) : list event :=
  List.concat (repeat [EvWiFiStatus false; EvDelay 500] n).

(** What the gate adds to the history in state [st] around the messages
    [msgs]: the clock reading, and the messages if it is open. *)
Fixpoint issue (env : environment) (tr : list event)
         (msgs : list (string * string)) : list event :=
  match msgs with
  | [] => []
  | (topic, payload) :: rest =>
      let e := EvPublish topic payload (env_publish env tr) in
      e :: issue env (tr ++ [e]) rest
  end.

Definition gate_events (env : environment) (st : state)
           (msgs : list (string * string)) : list event :=
  let t := env_millis env (trace st) in
  EvMillis t
  :: (if gate_open (to_long t) (lastMsg st)
      then issue env (trace st ++ [EvMillis t]) msgs
      else []).

Definition gate_lastMsg (env : environment) (st : state) : Z :=
  let t := env_millis env (trace st) in
  if gate_open (to_long t) (lastMsg st) then to_long t else lastMsg st.

Lemma simple_log_log (a b : list event) (st : state) :
  log b (log a st) = log (a ++ b) st.
Proof. unfold log. simpl. rewrite app_assoc. reflexivity. Qed.

Lemma simple_log_nil (st : state) : log [] st = st.
Proof. destruct st. unfold log. simpl. rewrite app_nil_r. reflexivity. Qed.

Lemma simple_publications_app (a b : list event) :
  publications (a ++ b) = (publications a ++ publications b)%list.
Proof. unfold publications. apply flat_map_app. Qed.

Lemma simple_publications_issue (env : environment) (tr : list event)
      (msgs : list (string * string)) :
  publications (issue env tr msgs) = msgs.
Proof.
  revert tr. induction msgs as [| [topic payload] rest IH]; intros tr.
  - reflexivity.
  - cbn [issue].
    change (publications (?e :: ?l)) with (publications [e] ++ publications l)%list.
    rewrite IH. reflexivity.
Qed.

Lemma simple_reconnect_step (env : environment) (fuel : nat) (st : state) :
  reconnect env (S fuel) st =
  if env_connected env (trace st)
  then Returned tt (log [EvConnected true] st)
  else reconnect env fuel
         (log (attempt (env_connect env (trace st ++ [EvConnected false]))) st).
Proof.
  unfold reconnect. cbn [while].
  unfold bind, client_connected, client_connect, ask, ret.
  destruct (env_connected env (trace st)); cbn [negb].
  - reflexivity.
  - change (trace (log [EvConnected false] st))
      with (trace st ++ [EvConnected false])%list.
    destruct (env_connect env (trace st ++ [EvConnected false]));
      unfold delay, emit; rewrite !simple_log_log; reflexivity.
Qed.

Lemma simple_reconnect_runs (env : environment) (fuel : nat) (st : state) :
  (exists results,
      (List.length results < fuel)%nat /\
      reconnect env fuel st
      = Returned tt (log (attempts results ++ [EvConnected true]) st))
  \/
  (exists results,
      List.length results = fuel /\
      reconnect env fuel st = Blocked (log (attempts results) st)).
Proof.
  revert st. induction fuel as [| fuel IH]; intros st.
  - right. exists []. split; [reflexivity |].
    unfold attempts. simpl. rewrite simple_log_nil. reflexivity.
  - rewrite simple_reconnect_step.
    destruct (env_connected env (trace st)).
    + left. exists []. split; [simpl; lia | reflexivity].
    + set (ok := env_connect env (trace st ++ [EvConnected false])).
      destruct (IH (log (attempt ok) st))
        as [(rs & Hlen & Hrun) | (rs & Hlen & Hrun)].
      * left. exists (ok :: rs). split; [simpl; lia |].
        rewrite Hrun, simple_log_log. reflexivity.
      * right. exists (ok :: rs). split; [simpl; lia |].
        rewrite Hrun, simple_log_log. reflexivity.
Qed.

(** The head of a [loop]: held up in [reconnect], or through with a
    [client.connected()] that said yes, [client.loop()] and the pause. *)
Lemma keep_connected_runs (env : environment) (fuel : nat) (st : state) :
  (exists results,
      List.length results = fuel /\
      env_connected env (trace st) = false /\
      keep_connected env fuel st
      = Blocked (log (EvConnected false :: attempts results) st))
  \/
  (exists pre,
      connecting fuel pre /\
      keep_connected env fuel st
      = Returned tt
          (log (pre ++ [EvConnected true; EvClientLoop; EvDelay 1000]) st)).
Proof.
  unfold keep_connected, bind, client_connected, ask, ret, delay, emit.
  cbv beta iota.
  destruct (env_connected env (trace st)) eqn:Hc; cbn [negb].
  - right. exists []. split; [left; reflexivity |].
    rewrite !simple_log_log. reflexivity.
  - destruct (simple_reconnect_runs env fuel (log [EvConnected false] st))
      as [(rs & Hlen & Hrun) | (rs & Hlen & Hrun)]; rewrite Hrun.
    + right. exists (EvConnected false :: attempts rs).
      split; [right; exists rs; split; [exact Hlen | reflexivity] |].
      rewrite !simple_log_log.
      cbn [app]. rewrite <- !app_assoc. reflexivity.
    + left. exists rs. split; [exact Hlen | split; [reflexivity |]].
      rewrite simple_log_log. reflexivity.
Qed.

(** The gate around messages that are calls of [client.publish]. *)
Lemma gated_publish_two (env : environment) (st : state)
      (topic1 payload1 topic2 payload2 : string) :
  gated env (client_publish env topic1 payload1 ;;
             client_publish env topic2 payload2 ;;
             ret tt)%simple st
  = Returned tt
      {| trace := trace st
                  ++ gate_events env st [(topic1, payload1); (topic2, payload2)];
         lastMsg := gate_lastMsg env st |}.
Proof.
  unfold gated, gate_events, gate_lastMsg, bind, millis, ask, get_lastMsg.
  cbn [log trace lastMsg].
  destruct (gate_open (to_long (env_millis env (trace st))) (lastMsg st)).
  - unfold set_lastMsg, client_publish, ask, ret, log. cbn [trace lastMsg issue].
    rewrite <- !app_assoc. reflexivity.
  - reflexivity.
Qed.

Lemma publications_gate_events (env : environment) (st : state)
      (msgs : list (string * string)) :
  publications (gate_events env st msgs)
  = if gate_open (to_long (env_millis env (trace st))) (lastMsg st)
    then msgs else [].
Proof.
  unfold gate_events. cbv zeta.
  change (publications (EvMillis ?t :: ?l)) with (publications l).
  destruct (gate_open (to_long (env_millis env (trace st))) (lastMsg st)).
  - apply simple_publications_issue.
  - reflexivity.
Qed.

(** ** [mqtt_DHT.ino] *)

(** X16. Every run of the [loop] of the DHT sketch.  Held up, it is in
    [reconnect].  Otherwise it reads humidity, then temperature; if either
    is NaN it returns at once: the clock is not read, nothing is
    published and [lastMsg] stays as it was, whatever the gate would have
    said.  With two valid readings the gate decides: open, it publishes
    the temperature and then the humidity, 2 digits after the point, and
    [lastMsg] takes the time read; closed, it publishes nothing. *)
Theorem dht_loop_outcomes (env : environment)
        (dtostrf : float -> Z -> Z -> string) (fuel : nat) (st : state) :
  match dht_loop env dtostrf fuel st with
  | Blocked s =>
      env_connected env (trace st) = false /\
      exists results,
        List.length results = fuel /\
        s = log (EvConnected false :: attempts results) st
  | Returned _ st' =>
      exists pre h t rest,
        connecting fuel pre /\
        trace st'
        = (trace st ++ pre
           ++ [EvConnected true; EvClientLoop; EvDelay 1000;
               EvDhtReadHumidity h; EvDhtReadTemperature t]
           ++ rest)%list /\
        (isnan h || isnan t = true ->
         rest = [] /\ lastMsg st' = lastMsg st) /\
        (isnan h || isnan t = false ->
         exists s,
           trace s
           = (trace st ++ pre
              ++ [EvConnected true; EvClientLoop; EvDelay 1000;
                  EvDhtReadHumidity h; EvDhtReadTemperature t])%list /\
           lastMsg s = lastMsg st /\
           rest = gate_events env s
                    [("esp32_htj/temperature", dtostrf t 1 2);
                     ("esp32_htj/humidity", dtostrf h 1 2)] /\
           lastMsg st' = gate_lastMsg env s)
  end.
Proof.
  unfold dht_loop. unfold bind at 1.
  destruct (keep_connected_runs env fuel st)
    as [(rs & Hlen & Hc & Hrun) | (pre & Hpre & Hrun)]; rewrite Hrun.
  - split; [exact Hc |]. exists rs. split; [exact Hlen | reflexivity].
  - set (s1 := log (pre ++ [EvConnected true; EvClientLoop; EvDelay 1000]) st).
    unfold bind at 1 2. unfold ask at 1 2. cbv beta iota.
    set (h := env_dht_humidity env (trace s1)).
    set (s2 := log [EvDhtReadHumidity h] s1).
    set (t := env_dht_temperature env (trace s2)).
    set (s3 := log [EvDhtReadTemperature t] s2).
    assert (Htr : trace s3
                  = (trace st ++ pre
                     ++ [EvConnected true; EvClientLoop; EvDelay 1000;
                         EvDhtReadHumidity h; EvDhtReadTemperature t])%list).
    { clearbody t h. unfold s3, s2, s1, log. cbn [trace].
      rewrite <- !app_assoc. reflexivity. }
    destruct (isnan h || isnan t) eqn:Hnan.
    + exists pre, h, t, []. split; [exact Hpre |]. unfold ret. cbn [final].
      split; [rewrite app_nil_r; exact Htr |].
      split; [intros _; split; reflexivity | intros H; congruence].
    + rewrite gated_publish_two.
      exists pre, h, t,
        (gate_events env s3 [("esp32_htj/temperature", dtostrf t 1 2);
                             ("esp32_htj/humidity", dtostrf h 1 2)]).
      split; [exact Hpre |]. cbn [trace lastMsg].
      split; [rewrite Htr, <- !app_assoc; reflexivity |].
      split; [intros H; congruence |].
      intros _. exists s3. repeat split. exact Htr.
Qed.

(** ** [mqtt_BME280.ino] *)

Lemma simple_wifi_wait_step (env : environment) (fuel : nat) (st : state) :
  while (S fuel) (up <- WiFi_status env ;; ret (negb up))%simple (delay 500) st =
  if env_wifi_status env (trace st)
  then Returned tt (log [EvWiFiStatus true] st)
  else while fuel (up <- WiFi_status env ;; ret (negb up))%simple (delay 500)
         (log [EvWiFiStatus false; EvDelay 500] st).
Proof.
  cbn [while]. unfold bind, WiFi_status, ask, ret.
  destruct (env_wifi_status env (trace st)); cbn [negb].
  - reflexivity.
  - unfold delay, emit. rewrite simple_log_log. reflexivity.
Qed.

Lemma simple_setup_wifi_runs (env : environment) (fuel : nat) (st : state) :
  (exists k,
      (k < fuel)%nat /\
      setup_wifi env fuel st
      = Returned tt
          (log ([EvDelay 10; EvWiFiBegin ssid password]
                ++ polls k ++ [EvWiFiStatus true]) st))
  \/
  setup_wifi env fuel st
  = Blocked (log ([EvDelay 10; EvWiFiBegin ssid password] ++ polls fuel) st).
Proof.
  assert (Hwait : forall n s,
    (exists k,
        (k < n)%nat /\
        while n (up <- WiFi_status env ;; ret (negb up))%simple (delay 500) s
        = Returned tt (log (polls k ++ [EvWiFiStatus true]) s))
    \/
    while n (up <- WiFi_status env ;; ret (negb up))%simple (delay 500) s
    = Blocked (log (polls n) s)).
  { induction n as [| n IH]; intros s.
    - right. cbn [while]. unfold polls. simpl. rewrite simple_log_nil.
      reflexivity.
    - rewrite simple_wifi_wait_step.
      destruct (env_wifi_status env (trace s)).
      + left. exists 0%nat. split; [lia | reflexivity].
      + destruct (IH (log [EvWiFiStatus false; EvDelay 500] s))
          as [(k & Hk & Hrun) | Hrun].
        * left. exists (S k). split; [lia |].
          rewrite Hrun, simple_log_log. reflexivity.
        * right. rewrite Hrun, simple_log_log. reflexivity. }
  change (setup_wifi env fuel st)
    with (while fuel (up <- WiFi_status env ;; ret (negb up))%simple (delay 500)
            (log [EvWiFiBegin ssid password] (log [EvDelay 10] st))).
  rewrite simple_log_log. cbn [app].
  destruct (Hwait fuel (log [EvDelay 10; EvWiFiBegin ssid password] st))
    as [(k & Hk & Hrun) | Hrun]; rewrite Hrun.
  - left. exists k. split; [exact Hk |]. rewrite simple_log_log. reflexivity.
  - right. rewrite simple_log_log. reflexivity.
Qed.

Lemma simple_halt_blocked (fuel : nat) (st : state) :
  while fuel (ret true) (delay 10) st = Blocked (log (repeat (EvDelay 10) fuel) st).
Proof.
  revert st. induction fuel as [| fuel IH]; intros st.
  - cbn [while]. simpl. rewrite simple_log_nil. reflexivity.
  - cbn [while]. unfold ret at 1. unfold delay at 1, emit.
    fold (delay 10). rewrite IH, simple_log_log. reflexivity.
Qed.

(** X17. Every run of the [setup] of the BME280 sketch.  It joins the
    WiFi network and registers the broker and the callback first, and
    looks for the sensor at address 0x76 last.  It returns only with the
    sensor found.  If [bme.begin] fails it stays in [while (1) delay(10)]
    for good, with the network already up; the only other place where it
    can be held up is the wait for WiFi. *)
Theorem bme_setup_outcomes (env : environment) (fuel : nat) (st : state) :
  match bme_setup env fuel st with
  | Returned _ st' =>
      exists k,
        (k < fuel)%nat /\
        st' = log ([EvSerialBegin 115200; EvDelay 10; EvWiFiBegin ssid password]
                   ++ polls k
                   ++ [EvWiFiStatus true;
                       EvSetServer mqtt_server portNumber; EvSetCallback;
                       EvBmeBegin 118 true]) st
  | Blocked s =>
      s = log ([EvSerialBegin 115200; EvDelay 10; EvWiFiBegin ssid password]
               ++ polls fuel) st
      \/
      exists k,
        (k < fuel)%nat /\
        s = log ([EvSerialBegin 115200; EvDelay 10; EvWiFiBegin ssid password]
                 ++ polls k
                 ++ [EvWiFiStatus true;
                     EvSetServer mqtt_server portNumber; EvSetCallback;
                     EvBmeBegin 118 false]
                 ++ repeat (EvDelay 10) fuel) st
  end.
Proof.
  unfold bme_setup. unfold bind at 1 2. unfold emit at 1. cbv beta iota.
  destruct (simple_setup_wifi_runs env fuel (log [EvSerialBegin 115200] st))
    as [(k & Hk & Hrun) | Hrun]; rewrite Hrun.
  - unfold bind at 1 2 3. unfold emit at 1 2. unfold ask at 1. cbv beta iota.
    rewrite !simple_log_log.
    set (s1 := log _ st).
    destruct (env_bme_begin env (trace s1)) eqn:Hb; cbn [negb].
    + unfold ret. exists k. split; [exact Hk |].
      unfold s1. rewrite ?simple_log_log. f_equal.
      rewrite <- !app_assoc. reflexivity.
    + rewrite simple_halt_blocked. right. exists k. split; [exact Hk |].
      unfold s1. rewrite ?simple_log_log. f_equal.
      rewrite <- !app_assoc. reflexivity.
  - left. rewrite simple_log_log. reflexivity.
Qed.

(** X18. Every run of the [loop] of the BME280 sketch.  It reads
    temperature, humidity, pressure and altitude (for sea level at
    1013.25 hPa), and then the gate alone decides: unlike the DHT sketch
    it does not look at the readings, so with the gate open it publishes
    temperature and humidity whatever they are, NaN included. *)
Theorem bme_loop_outcomes (env : environment)
        (dtostrf : float -> Z -> Z -> string) (fuel : nat) (st : state) :
  match bme_loop env dtostrf fuel st with
  | Blocked s =>
      env_connected env (trace st) = false /\
      exists results,
        List.length results = fuel /\
        s = log (EvConnected false :: attempts results) st
  | Returned _ st' =>
      exists pre t h p a s,
        connecting fuel pre /\
        trace s
        = (trace st ++ pre
           ++ [EvConnected true; EvClientLoop; EvDelay 1000;
               EvBmeReadTemperature t; EvBmeReadHumidity h;
               EvBmeReadPressure p; EvBmeReadAltitude 1013.25 a])%list /\
        lastMsg s = lastMsg st /\
        trace st'
        = (trace s
           ++ gate_events env s
                [("esp32_htj/temperature", dtostrf t 1 2);
                 ("esp32_htj/humidity", dtostrf h 1 2)])%list /\
        lastMsg st' = gate_lastMsg env s
  end.
Proof.
  unfold bme_loop. unfold bind at 1.
  destruct (keep_connected_runs env fuel st)
    as [(rs & Hlen & Hc & Hrun) | (pre & Hpre & Hrun)]; rewrite Hrun.
  - split; [exact Hc |]. exists rs. split; [exact Hlen | reflexivity].
  - set (s1 := log (pre ++ [EvConnected true; EvClientLoop; EvDelay 1000]) st).
    unfold bind at 1 2 3 4. unfold ask at 1 2 3 4. cbv beta iota.
    set (t := env_bme_temperature env (trace s1)).
    set (s2 := log [EvBmeReadTemperature t] s1).
    set (h := env_bme_humidity env (trace s2)).
    set (s3 := log [EvBmeReadHumidity h] s2).
    set (p := env_bme_pressure env (trace s3)).
    set (s4 := log [EvBmeReadPressure p] s3).
    set (a := env_bme_altitude env (trace s4)).
    set (s5 := log [EvBmeReadAltitude 1013.25 a] s4).
    rewrite gated_publish_two.
    exists pre, t, h, p, a, s5.
    split; [exact Hpre |]. cbn [trace lastMsg].
    split; [| repeat split].
    clearbody a p h t. unfold s5, s4, s3, s2, s1, log. cbn [trace].
    rewrite <- !app_assoc. reflexivity.
Qed.

(** ** [mqtt_HX711.ino] *)

(** A board with a connected client and a given answer of
    [scale.is_ready()], weight and clock. *)
Definition scale_board (ready : bool) (weight : float) (clock : Z) : environment :=
  {| env_wifi_status := fun _ => true;
     env_connected := fun _ => true;
     env_connect := fun _ => true;
     env_publish := fun _ => true;
     env_millis := fun _ => clock;
     env_dht_humidity := fun _ => None;
     env_dht_temperature := fun _ => None;
     env_bme_begin := fun _ => true;
     env_bme_temperature := fun _ => None;
     env_bme_humidity := fun _ => None;
     env_bme_pressure := fun _ => None;
     env_bme_altitude := fun _ => None;
     env_scale_ready := fun _ => ready;
     env_scale_units := fun _ => weight |}.

(** What [scale.is_ready()] said when [reading] holds a weight or was
    never assigned, and the call that gave the weight. *)
Definition assigned (reading : option float) : bool :=
  match reading with Some _ => true | None => false end.

Definition weighing (reading : option float) : list event :=
  match reading with
  | Some v => [EvScaleGetUnits 10 v]
  | None => []
  end.

(** X19. Every run of the [loop] of the HX711 sketch.  The gate does not
    depend on the scale.  With the gate closed the cycle publishes
    nothing and returns.  With the gate open [lastMsg] is set, and then:
    if the scale was ready and the text of the weight fits in
    [tempString] (at most 7 characters), that text is published to
    ["esp32_htj/weight"] and the cycle returns after [delay(200)]; if the
    scale was not ready the sketch reads [reading], which was never
    assigned, and if the text is longer it writes past [tempString]: in
    both cases the behaviour is undefined from there on. *)
Theorem hx_loop_outcomes (env : environment)
        (dtostrf : float -> Z -> Z -> string) (fuel : nat) (st : state) :
  match hx_loop env dtostrf fuel st with
  | Ran (Blocked s) =>
      env_connected env (trace st) = false /\
      exists results,
        List.length results = fuel /\
        s = log (EvConnected false :: attempts results) st
  | Ran (Returned _ st') =>
      exists pre reading s,
        connecting fuel pre /\
        trace s
        = (trace st ++ pre
           ++ [EvConnected true; EvClientLoop; EvDelay 1000;
               EvScaleIsReady (assigned reading)]
           ++ weighing reading)%list /\
        lastMsg s = lastMsg st /\
        ((gate_open (to_long (env_millis env (trace s))) (lastMsg s) = false /\
          trace st'
          = (trace s ++ [EvMillis (env_millis env (trace s)); EvDelay 200])%list /\
          lastMsg st' = lastMsg s)
         \/
         (exists weight,
             reading = Some weight /\
             gate_open (to_long (env_millis env (trace s))) (lastMsg s) = true /\
             fits (dtostrf weight 1 2) = true /\
             trace st'
             = (trace s
                ++ gate_events env s [("esp32_htj/weight", dtostrf weight 1 2)]
                ++ [EvDelay 200])%list /\
             lastMsg st' = to_long (env_millis env (trace s))))
  | Undefined st' =>
      exists pre reading s,
        connecting fuel pre /\
        trace s
        = (trace st ++ pre
           ++ [EvConnected true; EvClientLoop; EvDelay 1000;
               EvScaleIsReady (assigned reading)]
           ++ weighing reading)%list /\
        lastMsg s = lastMsg st /\
        gate_open (to_long (env_millis env (trace s))) (lastMsg s) = true /\
        match reading with
        | None => True
        | Some weight => fits (dtostrf weight 1 2) = false
        end /\
        trace st' = (trace s ++ [EvMillis (env_millis env (trace s))])%list /\
        lastMsg st' = to_long (env_millis env (trace s))
  end.
Proof.
  unfold hx_loop. unfold hx_bind at 1. unfold defined at 1.
  destruct (keep_connected_runs env fuel st)
    as [(rs & Hlen & Hc & Hrun) | (pre & Hpre & Hrun)]; rewrite Hrun.
  - split; [exact Hc |]. exists rs. split; [exact Hlen | reflexivity].
  - set (s1 := log (pre ++ [EvConnected true; EvClientLoop; EvDelay 1000]) st).
    unfold hx_bind at 1. unfold defined at 1. unfold ask at 1.
    set (ready := env_scale_ready env (trace s1)).
    set (s2 := log [EvScaleIsReady ready] s1).
    assert (Hready :
      exists reading s,
        (trace s
         = (trace st ++ pre
            ++ [EvConnected true; EvClientLoop; EvDelay 1000;
                EvScaleIsReady (assigned reading)]
            ++ weighing reading)%list /\
         lastMsg s = lastMsg st) /\
        (reading <- (if ready
                     then v <- defined (ask (env_scale_units env)
                                            (EvScaleGetUnits 10)) ;;
                          hx_ret (Some v)
                     else hx_ret None) ;;
         t <- defined (millis env) ;;
         last <- defined get_lastMsg ;;
         (if gate_open (to_long t) last then
            defined (set_lastMsg (to_long t)) ;;
            match reading with
            | None => undefined
            | Some value =>
                if fits (dtostrf value 1 2)
                then defined (client_publish env "esp32_htj/weight"
                                (dtostrf value 1 2)) ;;
                     hx_ret tt
                else undefined
            end
          else hx_ret tt) ;;
         defined (delay 200))%hx s2
        = (t <- defined (millis env) ;;
           last <- defined get_lastMsg ;;
           (if gate_open (to_long t) last then
              defined (set_lastMsg (to_long t)) ;;
              match reading with
              | None => undefined
              | Some value =>
                  if fits (dtostrf value 1 2)
                  then defined (client_publish env "esp32_htj/weight"
                                  (dtostrf value 1 2)) ;;
                       hx_ret tt
                  else undefined
              end
            else hx_ret tt) ;;
           defined (delay 200))%hx s).
    { assert (Htr2 : trace s2
                     = (trace st ++ pre
                        ++ [EvConnected true; EvClientLoop; EvDelay 1000;
                            EvScaleIsReady ready])%list).
      { clearbody ready. unfold s2, s1, log. cbn [trace].
        rewrite <- !app_assoc. reflexivity. }
      destruct ready.
      - exists (Some (env_scale_units env (trace s2))),
               (log [EvScaleGetUnits 10 (env_scale_units env (trace s2))] s2).
        split; [| reflexivity].
        cbn [assigned weighing log trace lastMsg]. split; [| reflexivity].
        rewrite Htr2, <- !app_assoc. reflexivity.
      - exists None, s2. split; [| reflexivity].
        cbn [assigned weighing]. split; [| reflexivity].
        rewrite Htr2, app_nil_r. reflexivity. }
    destruct Hready as (reading & s & [Htr Hlast] & Hrest). rewrite Hrest.
    clear Hrest. clear s2 ready s1 Hrun.
    unfold hx_bind at 1. unfold defined at 1. unfold millis at 1, ask at 1.
    cbv zeta. unfold hx_bind at 1. unfold defined at 1, get_lastMsg at 1.
    cbn [trace lastMsg log].
    unfold hx_bind at 1.
    destruct (gate_open (to_long (env_millis env (trace s))) (lastMsg s))
      eqn:Hgate.
    + unfold hx_bind at 1. unfold defined at 1, set_lastMsg at 1.
      cbn [trace lastMsg log].
      destruct reading as [weight |].
      * destruct (fits (dtostrf weight 1 2)) eqn:Hfits.
        -- unfold hx_bind, defined, hx_ret, client_publish, ask, ret, delay, emit.
           cbn [trace lastMsg log].
           exists pre, (Some weight), s.
           split; [exact Hpre |]. split; [exact Htr |]. split; [exact Hlast |].
           right. exists weight.
           split; [reflexivity |]. split; [exact Hgate |].
           split; [exact Hfits |]. split; [| reflexivity].
           unfold gate_events. rewrite Hgate. cbn [issue app log trace].
           rewrite <- !app_assoc. reflexivity.
        -- unfold undefined.
           exists pre, (Some weight), s.
           split; [exact Hpre |]. split; [exact Htr |]. split; [exact Hlast |].
           split; [exact Hgate |]. split; [exact Hfits |].
           split; reflexivity.
      * unfold undefined.
        exists pre, None, s.
        split; [exact Hpre |]. split; [exact Htr |]. split; [exact Hlast |].
        split; [exact Hgate |]. split; [exact I |]. split; reflexivity.
    + unfold hx_bind, defined, hx_ret, ret, delay, emit.
      cbn [trace lastMsg log].
      exists pre, reading, s.
      split; [exact Hpre |]. split; [exact Htr |]. split; [exact Hlast |].
      left. split; [exact Hgate |]. split; [| reflexivity].
      cbn [log trace]. rewrite <- !app_assoc. reflexivity.
Qed.

(** The scale not ready at 6000 ms: the gate is open and the sketch goes
    on to format a [reading] that holds nothing. *)
Example hx_loop_scale_not_ready :
  hx_loop (scale_board false None 6000) (fun _ _ _ => "0.00"%string) 1 boot
  = Undefined
      {| trace := [EvConnected true; EvClientLoop; EvDelay 1000;
                   EvScaleIsReady false; EvMillis 6000];
         lastMsg := 6000 |}.
Proof. reflexivity. Qed.

(** A weight of nine characters does not fit in [tempString]; one of
    seven is published. *)
Example hx_loop_weight_too_long :
  hx_loop (scale_board true (Some (-38480)%R) 6000)
    (fun _ _ _ => "-38480.00"%string)
    1 boot
  = Undefined
      {| trace := [EvConnected true; EvClientLoop; EvDelay 1000;
                   EvScaleIsReady true; EvScaleGetUnits 10 (Some (-38480)%R);
                   EvMillis 6000];
         lastMsg := 6000 |}.
Proof. reflexivity. Qed.

Example hx_loop_weight_published :
  hx_loop (scale_board true (Some 1234.5%R) 6000)
    (fun _ _ _ => "1234.50"%string)
    1 boot
  = Ran (Returned tt
      {| trace := [EvConnected true; EvClientLoop; EvDelay 1000;
                   EvScaleIsReady true; EvScaleGetUnits 10 (Some 1234.5%R);
                   EvMillis 6000;
                   EvPublish "esp32_htj/weight" "1234.50" true;
                   EvDelay 200];
         lastMsg := 6000 |}).
Proof. reflexivity. Qed.

End SimpleFacts.
